(** * DjangoOCPP: the OCPP 1.6J central system, embedded in Rocq

    The development follows the Python sources:
    - [ocpp_lib/enums.py]      the message types and the action registry,
    - [ocpp_lib/types.py]      [OcppType] and its [serialize],
    - [ocpp_lib/decorators.py] the two decorators,
    - [ocpp_lib/utils.py]      [random_message_id],
    - [ocpp_lib/call.py]       [Call.Callbacks] and [Call.CallHandler],
    - [api/models.py]          the two Django tables,
    - [api/consumers.py]       [OcppConsumer.receive].

    Python values are a first-order tree type, exceptions are results of an
    error type, and the code that touches the database, the channel layer,
    the logger, the clock or the random generator runs in a state-and-error
    monad over an explicit [World].  Coroutines that take turns at their
    awaits are runs of a step relation on worlds. *)

From Stdlib Require Import ZArith List String Ascii Bool Arith Lia.
From Stdlib Require Import Floats.SpecFloat DecimalString.
Import ListNotations.
Set Warnings "-register-all,-abstract-large-number".
Local Open Scope string_scope.
Local Open Scope list_scope.

(** ** Exceptions and results *)

(** The exception classes the modelled code can raise or catch. *)
Inductive exn : Type :=
| AttributeError
| IndexError
| KeyError
| TypeError
| ValueError
| UnboundLocalError
| OverflowError
| ZeroDivisionError
| DoesNotExist
| MultipleObjectsReturned
| IntegrityError
| OCPPInvalidCommand
| OCPPInvalidType.

Inductive Result (A : Type) : Type :=
| Ok (a : A)
| Raise (e : exn).
Arguments Ok {A} a.
Arguments Raise {A} e.

Definition rbind {A B} (r : Result A) (k : A -> Result B) : Result B :=
  match r with
  | Ok a => k a
  | Raise e => Raise e
  end.

Declare Scope result_scope.
Delimit Scope result_scope with result.
Notation "x <~ r ;; k" := (rbind r (fun x => k))
  (at level 61, r at next level, right associativity) : result_scope.

(** ** Floats

    Python floats are IEEE 754 binary64 numbers: [spec_float] with a
    53-bit mantissa and the exponent of the infinities at 1024. *)

Definition prec : Z := 53.
Definition emax : Z := 1024.

Definition float_of_Z (z : Z) : spec_float := binary_normalize prec emax z 0 false.

Definition float_div (x y : spec_float) : spec_float := SFdiv prec emax x y.

(** The integer that a finite float denotes when it denotes one. *)
Definition float_is_Z (f : spec_float) (n : Z) : bool :=
  match f with
  | S754_zero _ => (n =? 0)%Z
  | S754_finite s m e =>
      let v := if s then Z.neg m else Z.pos m in
      match e with
      | Z0 => (v =? n)%Z
      | Zpos p => (Z.shiftl v e =? n)%Z
      | Zneg p => (v =? Z.shiftl n (Z.pos p))%Z
      end
  | _ => false
  end.

(** [math.floor] on a float: the largest integer below it; infinities and
    NaN have none. *)
Definition float_floor (f : spec_float) : option Z :=
  match f with
  | S754_zero _ => Some 0%Z
  | S754_finite s m e =>
      let v := if s then Z.neg m else Z.pos m in
      Some (match e with
            | Zneg p => Z.div v (Z.pow 2 (Z.pos p))
            | _ => Z.mul v (Z.pow 2 e)
            end)
  | _ => None
  end.

(** [int(x)] on a float truncates toward zero; [int(inf)] raises
    [OverflowError] and [int(nan)] raises [ValueError]. *)
Definition int_of_float (f : spec_float) : Result Z :=
  match f with
  | S754_zero _ => Ok 0%Z
  | S754_finite s m e =>
      let v := if s then Z.neg m else Z.pos m in
      Ok (match e with
          | Zneg p => Z.quot v (Z.pow 2 (Z.pos p))
          | _ => Z.mul v (Z.pow 2 e)
          end)
  | S754_infinity _ => Raise OverflowError
  | S754_nan => Raise ValueError
  end.

(** ** Dates and times *)

Record datetime : Type := mk_datetime {
  year : N; month : N; day : N;
  hour : N; minute : N; second : N; microsecond : N
}.

(** The decimal digit of the units of [n], as a character. *)
Definition digit (n : N) : ascii := ascii_of_N (48 + n mod 10).

(** [%02d], [%04d] and [%06d] on fields within their ranges. *)
Definition pad2 (n : N) : string :=
  String (digit (n / 10)) (String (digit n) EmptyString).

Definition pad4 (n : N) : string :=
  String (digit (n / 1000)) (String (digit (n / 100)) (pad2 n)).

Definition pad6 (n : N) : string :=
  String (digit (n / 100000)) (String (digit (n / 10000)) (pad4 n)).

(** [datetime.date.isoformat()]: [YYYY-MM-DD]. *)
Definition date_isoformat (y m d : N) : string :=
  (pad4 y ++ "-" ++ pad2 m ++ "-" ++ pad2 d)%string.

(** [datetime.datetime.isoformat()] of a naive datetime:
    [YYYY-MM-DDTHH:MM:SS], followed by [.ffffff] when the microsecond
    field is not zero. *)
Definition isoformat (t : datetime) : string :=
  (date_isoformat (year t) (month t) (day t) ++ "T" ++
   pad2 (hour t) ++ ":" ++ pad2 (minute t) ++ ":" ++ pad2 (second t) ++
   (if N.eqb (microsecond t) 0 then EmptyString else "." ++ pad6 (microsecond t)))%string.

Definition is_digit (c : ascii) : bool :=
  let n := N_of_ascii c in N.leb 48 n && N.leb n 57.

Definition is_char (x c : ascii) : bool := Ascii.eqb x c.

(** The ranges [datetime.datetime] keeps its fields in: years 1 to 9999
    of the proleptic Gregorian calendar, a day that the month has, and a
    time of the day to the microsecond.  The constructor refuses anything
    else, so every datetime of a run, a reading of the clock among them,
    is within these ranges. *)
Definition is_leap (y : N) : bool :=
  N.eqb (y mod 4) 0 && (negb (N.eqb (y mod 100) 0) || N.eqb (y mod 400) 0).

Definition days_in_month (y m : N) : N :=
  match m with
  | 1 | 3 | 5 | 7 | 8 | 10 | 12 => 31
  | 4 | 6 | 9 | 11 => 30
  | 2 => if is_leap y then 29 else 28
  | _ => 0
  end%N.

Definition valid_datetime (t : datetime) : bool :=
  N.leb 1 (year t) && N.leb (year t) 9999
  && N.leb 1 (month t) && N.leb (month t) 12
  && N.leb 1 (day t) && N.leb (day t) (days_in_month (year t) (month t))
  && N.leb (hour t) 23 && N.leb (minute t) 59 && N.leb (second t) 59
  && N.leb (microsecond t) 999999.

(** The number a string of decimal digits writes, after [acc]. *)
Definition digit_value (c : ascii) : option N :=
  if is_digit c then Some (N_of_ascii c - 48)%N else None.

Fixpoint number_from (acc : N) (l : list ascii) : option N :=
  match l with
  | [] => Some acc
  | c :: l' =>
      match digit_value c with
      | Some d => number_from (10 * acc + d) l'
      | None => None
      end
  end.

(** The date and time that a string denotes in the extended format of
    ISO 8601 for a calendar date and a local time of the day,
    [YYYY-MM-DDThh:mm:ss] with an optional fraction [.ffffff] of the
    second: the separators are in their places, every field is written
    in decimal digits, and the fields are a date of the calendar and a
    time of the day.  Any other string denotes none. *)
Definition parse_iso8601 (s : string) : option datetime :=
  match list_ascii_of_string s with
  | y1 :: y2 :: y3 :: y4 :: d1 :: m1 :: m2 :: d2 :: a1 :: a2 :: t ::
    h1 :: h2 :: c1 :: i1 :: i2 :: c2 :: s1 :: s2 :: frac =>
      if is_char "-" d1 && is_char "-" d2 && is_char "T" t
         && is_char ":" c1 && is_char ":" c2
      then
        match number_from 0 [y1; y2; y3; y4], number_from 0 [m1; m2],
              number_from 0 [a1; a2], number_from 0 [h1; h2],
              number_from 0 [i1; i2], number_from 0 [s1; s2],
              match frac with
              | [] => Some 0%N
              | p :: f1 :: f2 :: f3 :: f4 :: f5 :: f6 :: [] =>
                  if is_char "." p then number_from 0 [f1; f2; f3; f4; f5; f6] else None
              | _ => None
              end
        with
        | Some y, Some mo, Some d, Some h, Some mi, Some sec, Some us =>
            let parsed := mk_datetime y mo d h mi sec us in
            if valid_datetime parsed then Some parsed else None
        | _, _, _, _, _, _, _ => None
        end
      else None
  | _ => None
  end.

(** An ISO-8601 timestamp: a string that denotes a date and time. *)
Definition iso8601_datetime (s : string) : bool :=
  match parse_iso8601 s with
  | Some _ => true
  | None => false
  end.

(** ** Python values

    The values the modelled code handles: what [json.loads] produces
    ([None], booleans, integers, floats, strings, lists, dictionaries with
    string keys), enum members, dates, and instances of [OcppType]
    subclasses, an instance being its class name and its [__data]
    dictionary.  Dictionaries keep insertion order. *)
Inductive value : Type :=
| VNone
| VBool (b : bool)
| VInt (z : Z)
| VFloat (f : spec_float)
| VStr (s : string)
| VList (l : list value)
| VDict (d : list (string * value))
| VEnum (cls member : string) (v : value)
| VDateTime (t : datetime)
| VDate (y m d : N)
| VOcpp (cls : string) (data : list (string * value)).

Definition dict := list (string * value).

Fixpoint dict_get (d : dict) (k : string) : option value :=
  match d with
  | [] => None
  | (k', v) :: r => if String.eqb k' k then Some v else dict_get r k
  end.

Definition dict_keys (d : dict) : list string := map fst d.

Definition str_in (k : string) (ks : list string) : bool :=
  existsb (String.eqb k) ks.

Definition is_None (v : value) : bool :=
  match v with VNone => true | _ => false end.

(** [type(v) == dict]. *)
Definition is_dict (v : value) : bool :=
  match v with VDict _ => true | _ => false end.

(** [v == n] for an integer [n]: integers, floats and booleans compare by
    numeric value, everything else is different from any integer. *)
Definition eq_int (v : value) (n : Z) : bool :=
  match v with
  | VInt z => (z =? n)%Z
  | VBool b => ((if b then 1 else 0) =? n)%Z
  | VFloat f => float_is_Z f n
  | _ => false
  end.

(** [v[i]] for a non-negative literal index. *)
Definition subscript (v : value) (i : nat) : Result value :=
  match v with
  | VList l => match nth_error l i with Some x => Ok x | None => Raise IndexError end
  | VStr s => match String.get i s with
              | Some c => Ok (VStr (String c EmptyString))
              | None => Raise IndexError
              end
  | VDict _ => Raise KeyError
  | _ => Raise TypeError
  end.

(** [v[1:]]. *)
Definition slice_from_1 (v : value) : Result value :=
  match v with
  | VList l => Ok (VList (tl l))
  | VStr s => Ok (VStr (match s with EmptyString => EmptyString | String _ r => r end))
  | _ => Raise TypeError
  end.

(** [a, b = v]: unpacking an iterable into exactly two targets. *)
Definition unpack2 (v : value) : Result (value * value) :=
  let two (l : list value) :=
    match l with
    | [a; b] => Ok (a, b)
    | _ => Raise ValueError
    end in
  match v with
  | VList l => two l
  | VStr s => two (map (fun c => VStr (String c EmptyString)) (list_ascii_of_string s))
  | VDict d => two (map (fun kv => VStr (fst kv)) d)
  | _ => Raise TypeError
  end.

(** What [json.dumps] accepts: the values [json.loads] produces. *)
Fixpoint json_serializable (v : value) : bool :=
  match v with
  | VNone | VBool _ | VInt _ | VFloat _ | VStr _ => true
  | VList l => forallb json_serializable l
  | VDict d => forallb (fun kv => json_serializable (snd kv)) d
  | _ => false
  end.

(** The channel carries JSON trees: [json_dumps] is the identity on the
    serializable values and raises [TypeError] on the others. *)
Definition json_dumps (v : value) : Result value :=
  if json_serializable v then Ok v else Raise TypeError.

(** ** [ocpp_lib/enums.py] *)

Inductive OCPPMessageType : Type := CALL | CALL_RESULT | CALL_ERROR.

Definition OCPPMessageType_value (t : OCPPMessageType) : Z :=
  match t with
  | CALL => 2
  | CALL_RESULT => 3
  | CALL_ERROR => 4
  end.

Definition OCPPMessageType_eqb (a b : OCPPMessageType) : bool :=
  match a, b with
  | CALL, CALL | CALL_RESULT, CALL_RESULT | CALL_ERROR, CALL_ERROR => true
  | _, _ => false
  end.

(** [OCPPMessageType(v)]: the member whose value equals [v], [ValueError]
    when there is none. *)
Definition OCPPMessageType_call (v : value) : Result OCPPMessageType :=
  if eq_int v 2 then Ok CALL
  else if eq_int v 3 then Ok CALL_RESULT
  else if eq_int v 4 then Ok CALL_ERROR
  else Raise ValueError.

Inductive OCPPCommands : Type :=
| Authorize
| BootNotification
| CancelReservation
| ChangeAvailability
| ChangeConfiguration
| ClearCache
| ClearChargingProfile
| DataTransfer
| DiagnosticsStatusNotification
| FirmwareStatusNotification
| GetCompositeSchedule
| GetConfiguration
| GetDiagnostics
| GetLocalListVersion
| Heartbeat
| MeterValues
| RemoteStartTransaction
| RemoteStopTransaction
| ReserveNow
| SendLocalList
| SetChargingProfile
| StartTransaction
| StatusNotification
| StopTransaction
| TriggerMessage
| UnlockConnector
| UpdateFirmware.

(** The members in declaration order, each with its name; [auto()] numbers
    them from 1. *)
Definition OCPPCommands_members : list (string * OCPPCommands) :=
  [ ("Authorize", Authorize);
    ("BootNotification", BootNotification);
    ("CancelReservation", CancelReservation);
    ("ChangeAvailability", ChangeAvailability);
    ("ChangeConfiguration", ChangeConfiguration);
    ("ClearCache", ClearCache);
    ("ClearChargingProfile", ClearChargingProfile);
    ("DataTransfer", DataTransfer);
    ("DiagnosticsStatusNotification", DiagnosticsStatusNotification);
    ("FirmwareStatusNotification", FirmwareStatusNotification);
    ("GetCompositeSchedule", GetCompositeSchedule);
    ("GetConfiguration", GetConfiguration);
    ("GetDiagnostics", GetDiagnostics);
    ("GetLocalListVersion", GetLocalListVersion);
    ("Heartbeat", Heartbeat);
    ("MeterValues", MeterValues);
    ("RemoteStartTransaction", RemoteStartTransaction);
    ("RemoteStopTransaction", RemoteStopTransaction);
    ("ReserveNow", ReserveNow);
    ("SendLocalList", SendLocalList);
    ("SetChargingProfile", SetChargingProfile);
    ("StartTransaction", StartTransaction);
    ("StatusNotification", StatusNotification);
    ("StopTransaction", StopTransaction);
    ("TriggerMessage", TriggerMessage);
    ("UnlockConnector", UnlockConnector);
    ("UpdateFirmware", UpdateFirmware) ].

Definition OCPPCommands_eqb (a b : OCPPCommands) : bool :=
  match a, b with
  | Authorize, Authorize
  | BootNotification, BootNotification
  | CancelReservation, CancelReservation
  | ChangeAvailability, ChangeAvailability
  | ChangeConfiguration, ChangeConfiguration
  | ClearCache, ClearCache
  | ClearChargingProfile, ClearChargingProfile
  | DataTransfer, DataTransfer
  | DiagnosticsStatusNotification, DiagnosticsStatusNotification
  | FirmwareStatusNotification, FirmwareStatusNotification
  | GetCompositeSchedule, GetCompositeSchedule
  | GetConfiguration, GetConfiguration
  | GetDiagnostics, GetDiagnostics
  | GetLocalListVersion, GetLocalListVersion
  | Heartbeat, Heartbeat
  | MeterValues, MeterValues
  | RemoteStartTransaction, RemoteStartTransaction
  | RemoteStopTransaction, RemoteStopTransaction
  | ReserveNow, ReserveNow
  | SendLocalList, SendLocalList
  | SetChargingProfile, SetChargingProfile
  | StartTransaction, StartTransaction
  | StatusNotification, StatusNotification
  | StopTransaction, StopTransaction
  | TriggerMessage, TriggerMessage
  | UnlockConnector, UnlockConnector
  | UpdateFirmware, UpdateFirmware => true
  | _, _ => false
  end.

Fixpoint assoc_name (c : OCPPCommands) (l : list (string * OCPPCommands)) : string :=
  match l with
  | [] => EmptyString
  | (n, c') :: r => if OCPPCommands_eqb c c' then n else assoc_name c r
  end.

Fixpoint assoc_index (c : OCPPCommands) (l : list (string * OCPPCommands)) (i : Z) : Z :=
  match l with
  | [] => i
  | (_, c') :: r => if OCPPCommands_eqb c c' then i else assoc_index c r (i + 1)
  end.

Fixpoint assoc_member (n : string) (l : list (string * OCPPCommands)) : option OCPPCommands :=
  match l with
  | [] => None
  | (n', c) :: r => if String.eqb n' n then Some c else assoc_member n r
  end.

(** [member.name] and [member.value]. *)
Definition OCPPCommands_name (c : OCPPCommands) : string :=
  assoc_name c OCPPCommands_members.

Definition OCPPCommands_value (c : OCPPCommands) : Z :=
  assoc_index c OCPPCommands_members 1.

(** [OCPPCommands[v]]: the lookup by member name.  A string that names no
    member, and any other hashable value, is a [KeyError]; a list or a
    dictionary is unhashable, a [TypeError]. *)
Definition OCPPCommands_getitem (v : value) : Result OCPPCommands :=
  match v with
  | VStr s => match assoc_member s OCPPCommands_members with
              | Some c => Ok c
              | None => Raise KeyError
              end
  | VList _ | VDict _ => Raise TypeError
  | _ => Raise KeyError
  end.

(** The enums whose members map to the string of the same name. *)
Definition enum_member (cls member : string) : value :=
  VEnum cls member (VStr member).

Definition AuthorizationStatus_Accepted := enum_member "AuthorizationStatus" "Accepted".
Definition RegistrationStatus_Accepted := enum_member "RegistrationStatus" "Accepted".
Definition DataTransferStatus_Accepted := enum_member "DataTransferStatus" "Accepted".
Definition ChargingRateUnitType_W := enum_member "ChargingRateUnitType" "W".
Definition ChargingRateUnitType_A := enum_member "ChargingRateUnitType" "A".

(** ** [ocpp_lib/types.py] *)

(** [OcppType.__init__]: the keyword arguments whose value is not [None]
    become the instance's [__data]. *)
Definition OcppType_init (cls : string) (kwargs : dict) : value :=
  VOcpp cls (filter (fun kv => negb (is_None (snd kv))) kwargs).

(** A dictionary comprehension [{k: f(v) for k, v in d.items()}] whose
    body can raise. *)
Definition dict_comprehension (f : value -> Result value) : dict -> Result dict :=
  fix go (d : dict) : Result dict :=
    match d with
    | [] => Ok []
    | (k, v) :: r =>
        (y <~ f v ;; ys <~ go r ;; Ok ((k, y) :: ys))%result
    end.

(** [single_value_serialize], the function local to [serialize].  The
    branch for lists iterates over the builtin [list] type itself, which
    is not iterable: it raises [TypeError] whatever the list holds. *)
Fixpoint single_value_serialize (v : value) : Result value :=
  match v with
  | VEnum _ _ x => Ok x
  | VDateTime t => Ok (VStr (isoformat t))
  | VDate y m d => Ok (VStr (date_isoformat y m d))
  | VOcpp _ data =>
      (d <~ dict_comprehension single_value_serialize data ;; Ok (VDict d))%result
  | VInt _ | VFloat _ | VBool _ | VStr _ => Ok v
  | VList _ => Raise TypeError
  | VNone | VDict _ => Raise ValueError
  end.

(** [OcppType.serialize] on the [__data] of an instance. *)
Definition OcppType_serialize (data : dict) : Result value :=
  (d <~ dict_comprehension single_value_serialize data ;; Ok (VDict d))%result.

(** [v.serialize()]: only [OcppType] instances have the method. *)
Definition method_serialize (v : value) : Result value :=
  match v with
  | VOcpp _ data => OcppType_serialize data
  | _ => Raise AttributeError
  end.

Definition is_list (v : value) : bool :=
  match v with VList _ => true | _ => false end.

(** [x if isinstance(x, list) else [x]]. *)
Definition as_list (v : value) : value :=
  if is_list v then v else VList [v].

Definition IdToken (IdToken : value) : value :=
  OcppType_init "IdToken" [("IdToken", IdToken)].

Definition IdTagInfo (status parentIdTag expiryDate : value) : value :=
  OcppType_init "IdTagInfo"
    [("status", status); ("parentIdTag", parentIdTag); ("expiryDate", expiryDate)].

Definition ChargingSchedulePeriod (startPeriod limit numberPhases : value) : value :=
  OcppType_init "ChargingSchedulePeriod"
    [("startPeriod", startPeriod); ("limit", limit); ("numberPhases", numberPhases)].

Definition ChargingSchedule
  (chargingRateUnit chargingSchedulePeriod duration startSchedule minChargingRate : value)
  : value :=
  let chargingSchedulePeriod := as_list chargingSchedulePeriod in
  OcppType_init "ChargingSchedule"
    [("chargingRateUnit", chargingRateUnit);
     ("chargingSchedulePeriod", chargingSchedulePeriod);
     ("duration", duration); ("startSchedule", startSchedule);
     ("minChargingRate", minChargingRate)].

Definition GetConfiguration_Req (key : value) : value :=
  let key := as_list key in
  OcppType_init "GetConfiguration_Req" [("key", key)].

Definition Authorize_Conf (idTagInfo : value) : value :=
  OcppType_init "Authorize_Conf" [("idTagInfo", idTagInfo)].

Definition BootNotification_Conf (currentTime interval status : value) : value :=
  OcppType_init "BootNotification_Conf"
    [("currentTime", currentTime); ("interval", interval); ("status", status)].

Definition StatusNotification_Conf : value :=
  OcppType_init "StatusNotification_Conf" [].

Definition StartTransaction_Conf (idTagInfo transactionId : value) : value :=
  OcppType_init "StartTransaction_Conf"
    [("idTagInfo", idTagInfo); ("transactionId", transactionId)].

Definition StopTransaction_Conf (idTagInfo : value) : value :=
  OcppType_init "StopTransaction_Conf" [("idTagInfo", idTagInfo)].

Definition MeterValues_Conf : value := OcppType_init "MeterValues_Conf" [].

Definition Heartbeat_Conf (currentTime : value) : value :=
  OcppType_init "Heartbeat_Conf" [("currentTime", currentTime)].

Definition DataTransfer_Conf (status data : value) : value :=
  OcppType_init "DataTransfer_Conf" [("status", status); ("data", data)].

Definition DiagnosticsStatusNotification_Conf : value :=
  OcppType_init "DiagnosticsStatusNotification_Conf" [].

Definition FirmwareStatusNotification_Conf : value :=
  OcppType_init "FirmwareStatusNotification_Conf" [].

Definition RemoteStartTransaction_Req (idTag chargingProfile connectorId : value) : value :=
  OcppType_init "RemoteStartTransaction_Req"
    [("idTag", idTag); ("chargingProfile", chargingProfile); ("connectorId", connectorId)].

Definition ChargingProfile
  (chargingProfileId stackLevel chargingProfilePurpose chargingProfileKind chargingSchedule
   transactionId recurrencyKind validFrom validTo : value) : value :=
  OcppType_init "ChargingProfile"
    [("chargingProfileId", chargingProfileId); ("stackLevel", stackLevel);
     ("chargingProfilePurpose", chargingProfilePurpose);
     ("chargingProfileKind", chargingProfileKind);
     ("chargingSchedule", chargingSchedule); ("transactionId", transactionId);
     ("recurrencyKind", recurrencyKind); ("validFrom", validFrom); ("validTo", validTo)].

Definition SetChargingProfile_Req (connectorId csChargingProfiles : value) : value :=
  OcppType_init "SetChargingProfile_Req"
    [("connectorId", connectorId); ("csChargingProfiles", csChargingProfiles)].

(** ** [api/models.py]: the two tables

    A model instance and a stored row are the same record; [pk] is [None]
    until the first [save].  The [CharField] and [TextField] columns hold
    strings and are NOT NULL: what is assigned to them is stored as its
    [str()], and [None] cannot be stored.  The length bound of a
    [CharField] is not enforced.  [sent_at] is [auto_now_add]: the
    database layer overwrites it on insertion and no code reads it, so the
    rows leave it out.  Each [OneToOneField] is a nullable foreign key with
    a uniqueness constraint. *)

Record CallObj : Type := mk_Call {
  c_pk : option nat;
  c_message_type_id : Z;
  c_message_id : string;
  c_action : string;
  c_payload : string;
  c_charger_id : string;
  c_direction : string;
  c_call_result_obj : option nat
}.

Record CallResultObj : Type := mk_CallResult {
  r_pk : option nat;
  r_message_type_id : Z;
  r_message_id : string;
  r_payload : string;
  r_charger_id : string;
  r_direction : string;
  r_call_obj : option nat
}.

Definition c_set_pk (i : nat) (c : CallObj) : CallObj :=
  mk_Call (Some i) (c_message_type_id c) (c_message_id c) (c_action c) (c_payload c)
          (c_charger_id c) (c_direction c) (c_call_result_obj c).

Definition c_set_call_result_obj (l : option nat) (c : CallObj) : CallObj :=
  mk_Call (c_pk c) (c_message_type_id c) (c_message_id c) (c_action c) (c_payload c)
          (c_charger_id c) (c_direction c) l.

Definition r_set_pk (i : nat) (r : CallResultObj) : CallResultObj :=
  mk_CallResult (Some i) (r_message_type_id r) (r_message_id r) (r_payload r)
                (r_charger_id r) (r_direction r) (r_call_obj r).

Definition r_set_call_obj (l : option nat) (r : CallResultObj) : CallResultObj :=
  mk_CallResult (r_pk r) (r_message_type_id r) (r_message_id r) (r_payload r)
                (r_charger_id r) (r_direction r) l.

Definition opt_nat_eqb (a b : option nat) : bool :=
  match a, b with
  | Some x, Some y => Nat.eqb x y
  | None, None => true
  | _, _ => false
  end.

(** [Model.save()] on a table with an integer primary key and one
    one-to-one column. *)
Section Table.
Variable R : Type.
Variable pk : R -> option nat.
Variable set_pk : nat -> R -> R.
Variable link : R -> option nat.

Definition pk_or_0 (r : R) : nat :=
  match pk r with Some i => i | None => 0 end.

(** The key the database gives to an inserted row. *)
Definition next_pk (t : list R) : nat := S (list_max (map pk_or_0 t)).

Definition has_pk (i : nat) (r : R) : bool := opt_nat_eqb (pk r) (Some i).

(** Another row already refers to the same related row. *)
Definition link_taken (t : list R) (o : R) : bool :=
  match link o with
  | None => false
  | Some _ =>
      existsb (fun r => opt_nat_eqb (link r) (link o) && negb (opt_nat_eqb (pk r) (pk o))) t
  end.

(** An instance without a key is inserted under a fresh key; one with a
    key updates the row of that key, or is inserted when there is none.
    A violated uniqueness constraint is an [IntegrityError] and leaves
    the table as it was. *)
Definition table_save (o : R) (t : list R) : Result (R * list R) :=
  if link_taken t o then Raise IntegrityError
  else match pk o with
       | None => let o' := set_pk (next_pk t) o in Ok (o', t ++ [o'])
       | Some i =>
           if existsb (has_pk i) t
           then Ok (o, map (fun r => if has_pk i r then o else r) t)
           else Ok (o, t ++ [o])
       end.
End Table.
Arguments pk_or_0 {R} pk r.
Arguments next_pk {R} pk t.
Arguments has_pk {R} pk i r.
Arguments link_taken {R} pk link t o.
Arguments table_save {R} pk set_pk link o t.

(** ** The world the protocol code acts on *)

Inductive level : Type := INFO | WARNING | ERROR | CRITICAL.

Record World : Type := mk_World {
  db_calls : list CallObj;               (* the table of api.models.Call *)
  db_results : list CallResultObj;       (* the table of api.models.CallResult *)
  sent : list (string * value);          (* group_send: group name and frame *)
  logged : list (level * string);        (* the records of the 'ocpp' logger *)
  clock_reads : nat;                     (* how often utcnow() was called *)
  random_draws : nat                     (* how often random_message_id() was called *)
}.

(** What the code takes from its runtime: the builtin [str] (the coercion
    of the character columns), the clock, the random generator, and the
    steps the rest of the event loop takes while a coroutine sleeps. *)
Record Env : Type := mk_Env {
  py_str : value -> string;
  utcnow_at : nat -> datetime;
  random_at : nat -> string;
  elsewhere : nat -> World -> World
}.

(** State and exceptions: a computation maps a world to a result and the
    world it leaves, also when it raises. *)
Definition M (A : Type) : Type := World -> Result A * World.

Definition ret {A} (a : A) : M A := fun w => (Ok a, w).

Definition raise {A} (e : exn) : M A := fun w => (Raise e, w).

Definition bind {A B} (m : M A) (k : A -> M B) : M B :=
  fun w => match m w with
           | (Ok a, w') => k a w'
           | (Raise e, w') => (Raise e, w')
           end.

Definition lift {A} (r : Result A) : M A := fun w => (r, w).

(** [try: body / except: handler / else: orelse]. *)
Definition try_except_else {A B} (body : M A) (handler : exn -> M B) (orelse : A -> M B) : M B :=
  fun w => match body w with
           | (Ok a, w') => orelse a w'
           | (Raise e, w') => handler e w'
           end.

Definition try_except {A} (body : M A) (handler : exn -> M A) : M A :=
  try_except_else body handler ret.

Declare Scope monad_scope.
Delimit Scope monad_scope with monad.
Notation "x <- m ;; k" := (bind m (fun x => k))
  (at level 61, m at next level, right associativity) : monad_scope.
Notation "m ;;; k" := (bind m (fun _ => k))
  (at level 61, right associativity) : monad_scope.
Local Open Scope monad_scope.

Definition logger (l : level) (msg : string) : M unit :=
  fun w => (Ok tt, mk_World (db_calls w) (db_results w) (sent w)
                            (logged w ++ [(l, msg)]) (clock_reads w) (random_draws w)).

(** [channel_layer.group_send(group, {'type': 'send_ocpp_message',
    'message': json.dumps(frame)})]. *)
Definition group_send (group : string) (frame : value) : M unit :=
  text <- lift (json_dumps frame) ;;
  fun w => (Ok tt, mk_World (db_calls w) (db_results w) (sent w ++ [(group, text)])
                            (logged w) (clock_reads w) (random_draws w)).

Definition Call_save (o : CallObj) : M CallObj :=
  fun w => match table_save c_pk c_set_pk c_call_result_obj o (db_calls w) with
           | Ok (o', t) => (Ok o', mk_World t (db_results w) (sent w) (logged w)
                                            (clock_reads w) (random_draws w))
           | Raise e => (Raise e, w)
           end.

Definition CallResult_save (o : CallResultObj) : M CallResultObj :=
  fun w => match table_save r_pk r_set_pk r_call_obj o (db_results w) with
           | Ok (o', t) => (Ok o', mk_World (db_calls w) t (sent w) (logged w)
                                            (clock_reads w) (random_draws w))
           | Raise e => (Raise e, w)
           end.

(** ** Python strings and calls *)

(** [s.split(c)] for a one-character separator. *)
Fixpoint split_char (c : ascii) (s : string) : list string :=
  match s with
  | EmptyString => [EmptyString]
  | String a r =>
      if Ascii.eqb a c then EmptyString :: split_char c r
      else match split_char c r with
           | [] => [String a EmptyString]
           | h :: t => String a h :: t
           end
  end.

Definition ascii_in (a : ascii) (cs : list ascii) : bool := existsb (Ascii.eqb a) cs.

Fixpoint lstrip (cs : list ascii) (s : string) : string :=
  match s with
  | EmptyString => EmptyString
  | String a r => if ascii_in a cs then lstrip cs r else s
  end.

Fixpoint rstrip (cs : list ascii) (s : string) : string :=
  match s with
  | EmptyString => EmptyString
  | String a r =>
      match rstrip cs r with
      | EmptyString => if ascii_in a cs then EmptyString else String a EmptyString
      | r' => String a r'
      end
  end.

(** [s.strip(cs)]. *)
Definition strip (cs : list ascii) (s : string) : string := rstrip cs (lstrip cs s).

(** [str(type(v))]. *)
Definition type_repr (v : value) : string :=
  match v with
  | VNone => "<class 'NoneType'>"
  | VBool _ => "<class 'bool'>"
  | VInt _ => "<class 'int'>"
  | VFloat _ => "<class 'float'>"
  | VStr _ => "<class 'str'>"
  | VList _ => "<class 'list'>"
  | VDict _ => "<class 'dict'>"
  | VEnum cls _ _ => ("<enum '" ++ cls ++ "'>")%string
  | VDateTime _ => "<class 'datetime.datetime'>"
  | VDate _ _ _ => "<class 'datetime.date'>"
  | VOcpp cls _ => ("<class 'ocpp_lib.types." ++ cls ++ "'>")%string
  end.

(** [str(type(request)).split('.')[-1].strip("'>").split('_')[0]]. *)
Definition action_of_request (request : value) : string :=
  hd EmptyString
     (split_char "_" (strip ["'"%char; ">"%char]
                            (last (split_char "." (type_repr request)) EmptyString))).

(** [request.__class__.split('.')[-1]].  A class object has the attributes
    of its class body, of its bases and of [type]; among the classes of the
    values above only [str] has a [split], and [str.split('.')] is
    ['.'.split()], the list [['.']].  Every other class raises
    [AttributeError]. *)
Definition class_split_last (request : value) : Result string :=
  match request with
  | VStr _ => Ok "."
  | _ => Raise AttributeError
  end.

(** The names bound in the module [ocpp_lib.types]: its imports and its
    classes. *)
Definition ocpp_types_names : list string :=
  [ "Any"; "Union"; "List"; "datetime"; "json"; "enum";
    "AuthorizationStatus"; "AvailabilityType"; "ChargingProfileKindType";
    "ChargingProfilePurposeType"; "ChargingRateUnitType"; "DataTransferStatus";
    "MessageTrigger"; "RegistrationStatus"; "RemoteStartStopStatus";
    "RecurrencyKindType"; "UpdateType";
    "OcppType"; "IdToken"; "IdTagInfo"; "ChargingSchedulePeriod"; "ChargingSchedule";
    "ChargingProfile"; "AuthorizationData";
    "Authorize_Conf"; "BootNotification_Conf"; "StatusNotification_Conf";
    "StartTransaction_Conf"; "StopTransaction_Conf"; "MeterValues_Conf";
    "Heartbeat_Conf"; "DataTransfer_Conf"; "DiagnosticsStatusNotification_Conf";
    "FirmwareStatusNotification_Conf";
    "RemoteStartTransaction_Req"; "RemoteStopTransaction_Req"; "GetLocalListVersion_Req";
    "ReserveNow_Req"; "CancelReservation_Req"; "ChangeAvailability_Req";
    "ChangeConfiguration_Req"; "ClearChargingProfile_Req"; "ClearCache_Req";
    "DataTransfer_Req"; "SetChargingProfile_Req"; "TriggerMessage_Req";
    "UpdateFirmware_Req"; "UnlockConnector_Req"; "GetCompositeSchedule_Req";
    "GetConfiguration_Req"; "GetDiagnostics_Req"; "SendLocalList_Req" ].

(** [getattr(ocpp_types, name)], for its success only. *)
Definition ocpp_types_getattr (name : string) : Result unit :=
  if str_in name ocpp_types_names then Ok tt else Raise AttributeError.

(** Binding the arguments of a call to a function whose parameters are
    [names], none with a default: too many positional arguments, a keyword
    that is no parameter or is already bound, and a parameter left unbound
    are each a [TypeError]. *)
Definition bind_args (names : list string) (args : list value) (kwargs : dict)
  : Result dict :=
  if Nat.ltb (List.length names) (List.length args) then Raise TypeError
  else
    let rest := skipn (List.length args) names in
    if existsb (fun kv => negb (str_in (fst kv) rest)) kwargs then Raise TypeError
    else if forallb (fun n => str_in n (dict_keys kwargs)) rest
         then Ok (combine names args ++ kwargs)
         else Raise TypeError.

(** ** Numbers *)

Definition is_zero (f : spec_float) : bool :=
  match f with S754_zero _ => true | _ => false end.

Definition is_infinity (f : spec_float) : bool :=
  match f with S754_infinity _ => true | _ => false end.

(** The integer of an [int] or a [bool]. *)
Definition int_operand (v : value) : option Z :=
  match v with
  | VInt z => Some z
  | VBool b => Some (if b then 1 else 0)%Z
  | _ => None
  end.

(** [a / b] on two integers: the exact quotient rounded once to the
    nearest float. *)
Definition int_truediv (a b : Z) : Result spec_float :=
  if (b =? 0)%Z then Raise ZeroDivisionError
  else if (a =? 0)%Z then Ok (S754_zero (b <? 0)%Z)
  else
    let '(q, e, l) := SFdiv_core_binary prec emax (Z.abs a) 0 (Z.abs b) 0 in
    let f := binary_round_aux prec emax (xorb (a <? 0)%Z (b <? 0)%Z) q e l in
    if is_infinity f then Raise OverflowError else Ok f.

(** The float operand of a mixed division: a float is itself, an integer
    is converted, and an integer beyond the range of floats is an
    [OverflowError]. *)
Definition float_operand (v : value) : Result spec_float :=
  match v with
  | VFloat f => Ok f
  | _ => match int_operand v with
         | Some z => let f := float_of_Z z in
                     if is_infinity f then Raise OverflowError else Ok f
         | None => Raise TypeError
         end
  end.

(** [a / b], Python's true division of numbers. *)
Definition truediv (a b : value) : Result spec_float :=
  match int_operand a, int_operand b with
  | Some x, Some y => int_truediv x y
  | _, _ =>
      (x <~ float_operand a ;;
       y <~ float_operand b ;;
       if is_zero y then Raise ZeroDivisionError else Ok (float_div x y))%result
  end.

(** [asyncio.sleep(delay)] up to the suspension of the coroutine.  A
    delay that is not above zero is not scheduled: the coroutine yields to
    the event loop once.  A delay above zero is added to the clock of the
    event loop, a float, which raises [OverflowError] for an integer
    beyond the range of floats.  A value that cannot be compared with [0]
    is a [TypeError].  (A float delay of [+inf] never ends, and what
    happens on NaN depends on the interpreter: [__await_response] sleeps
    on neither, lemma [slept_float_is_finite].) *)
Definition sleep_delay (delay : value) : Result unit :=
  match delay with
  | VFloat _ => Ok tt
  | _ => match int_operand delay with
         | Some z => if (0 <? z)%Z && is_infinity (float_of_Z z)
                     then Raise OverflowError else Ok tt
         | None => Raise TypeError
         end
  end.

Section Runtime.
Variable env : Env.

(** [datetime.datetime.utcnow()]. *)
Definition utcnow : M datetime :=
  fun w => (Ok (utcnow_at env (clock_reads w)),
            mk_World (db_calls w) (db_results w) (sent w) (logged w)
                     (S (clock_reads w)) (random_draws w)).

(** [utils.random_message_id()]. *)
Definition random_message_id : M value :=
  fun w => (Ok (VStr (random_at env (random_draws w))),
            mk_World (db_calls w) (db_results w) (sent w) (logged w)
                     (clock_reads w) (S (random_draws w))).

(** [asyncio.sleep(delay)]: when the delay is accepted the coroutine is
    suspended and the rest of the event loop runs; [i] counts the sleeps
    of the awaiting call. *)
Definition sleep (i : nat) (delay : value) : M unit :=
  _ <- lift (sleep_delay delay) ;;
  fun w => (Ok tt, elsewhere env i w).

(** What a character column holds for the value assigned to it: [None]
    is NULL, any other value is stored as its [str()]. *)
Definition char_field (v : value) : option string :=
  if is_None v then None else Some (py_str env v).

(** The lookup [column = m] on a stored string: NULL equals no stored
    string, the columns being NOT NULL. *)
Definition column_is (stored : string) (m : value) : bool :=
  match char_field m with
  | Some s => String.eqb stored s
  | None => false
  end.

(** A model instance before it is saved: its row, or the exception that
    [save()] raises for it, [IntegrityError] for NULL in a column that is
    NOT NULL. *)
Definition not_null (c : option string) : Result string :=
  match c with
  | Some s => Ok s
  | None => Raise IntegrityError
  end.

(** The value an [IntegerField] stores for what [receive] assigns to it:
    the integer at the head of a response frame. *)
Definition integer_field (v : value) : Result Z :=
  match int_operand v with
  | Some z => Ok z
  | None => Raise TypeError
  end.

(** [ocpp_models.Call(...)]. *)
Definition Call_new (message_type_id message_id action payload : value)
  (charger_id direction : string) : Result CallObj :=
  (t <~ integer_field message_type_id ;;
   m <~ not_null (char_field message_id) ;;
   a <~ not_null (char_field action) ;;
   p <~ not_null (char_field payload) ;;
   Ok (mk_Call None t m a p charger_id direction None))%result.

(** [ocpp_models.CallResult(...)]. *)
Definition CallResult_new (message_type_id message_id payload : value)
  (charger_id direction : string) (call_obj : option nat) : Result CallResultObj :=
  (t <~ integer_field message_type_id ;;
   m <~ not_null (char_field message_id) ;;
   p <~ not_null (char_field payload) ;;
   Ok (mk_CallResult None t m p charger_id direction call_obj))%result.

(** [instance.save()]. *)
Definition save_instance {R} (save : R -> M R) (instance : Result R) : M R :=
  match instance with
  | Ok r => save r
  | Raise e => raise e
  end.

(** [Call.objects.filter(message_id = m)], in key order. *)
Definition Call_objects_filter (m : value) : M (list CallObj) :=
  fun w => (Ok (filter (fun c => column_is (c_message_id c) m) (db_calls w)), w).

(** [CallResult.objects.get(message_id = m)]. *)
Definition CallResult_objects_get (m : value) : M CallResultObj :=
  fun w => (match filter (fun r => column_is (r_message_id r) m) (db_results w) with
            | [] => Raise DoesNotExist
            | [r] => Ok r
            | _ => Raise MultipleObjectsReturned
            end, w).

(** ** [ocpp_lib/decorators.py] *)

(** A Python function called with positional and keyword arguments. *)
Definition function : Type := list value -> dict -> M value.

(** [call_result_message_decorator(function)], that is [inner]. *)
Definition call_result_message_decorator (f : function) : function :=
  fun args kwargs =>
    payload <- try_except
                 (v <- f args kwargs ;; lift (method_serialize v))
                 (fun _ => f args kwargs) ;;
    if negb (is_dict payload) then raise ValueError
    else if negb (str_in "message_id" (dict_keys kwargs)) then raise KeyError
    else ret (VList [ VInt (OCPPMessageType_value CALL_RESULT);
                      match dict_get kwargs "message_id" with
                      | Some m => m
                      | None => VNone
                      end;
                      payload ]).

(** ** [ocpp_lib/call.py]: [Call.Callbacks] *)

Definition callback_params : list string := ["message_id"; "call_payload"].

(** The functions under the decorator. *)
Definition Authorize_fn : function :=
  fun args kwargs =>
    _ <- lift (bind_args callback_params args kwargs) ;;
    ret (Authorize_Conf (IdTagInfo AuthorizationStatus_Accepted VNone VNone)).

Definition BootNotification_fn : function :=
  fun args kwargs =>
    _ <- lift (bind_args callback_params args kwargs) ;;
    now <- utcnow ;;
    ret (BootNotification_Conf (VDateTime now) (VInt 10) RegistrationStatus_Accepted).

Definition StatusNotification_fn : function :=
  fun args kwargs =>
    _ <- lift (bind_args callback_params args kwargs) ;;
    ret StatusNotification_Conf.

Definition StartTransaction_fn : function :=
  fun args kwargs =>
    _ <- lift (bind_args callback_params args kwargs) ;;
    ret (StartTransaction_Conf (IdTagInfo AuthorizationStatus_Accepted VNone VNone) (VInt 1)).

Definition StopTransaction_fn : function :=
  fun args kwargs =>
    _ <- lift (bind_args callback_params args kwargs) ;;
    ret (StopTransaction_Conf VNone).

Definition MeterValues_fn : function :=
  fun args kwargs =>
    _ <- lift (bind_args callback_params args kwargs) ;;
    ret MeterValues_Conf.

Definition Heartbeat_fn : function :=
  fun args kwargs =>
    _ <- lift (bind_args callback_params args kwargs) ;;
    now <- utcnow ;;
    ret (Heartbeat_Conf (VDateTime now)).

Definition FirmwareStatusNotification_fn : function :=
  fun args kwargs =>
    _ <- lift (bind_args callback_params args kwargs) ;;
    ret FirmwareStatusNotification_Conf.

Definition DiagnosticsStatusNotification_fn : function :=
  fun args kwargs =>
    _ <- lift (bind_args callback_params args kwargs) ;;
    ret DiagnosticsStatusNotification_Conf.

Definition DataTransfer_fn : function :=
  fun args kwargs =>
    _ <- lift (bind_args callback_params args kwargs) ;;
    ret (DataTransfer_Conf DataTransferStatus_Accepted VNone).

(** [getattr(Call.Callbacks, action.name)]: the ten decorated static
    methods of the class; the other actions of the registry name no
    attribute of it. *)
Definition Callbacks_getattr (action : OCPPCommands) : Result function :=
  match action with
  | Authorize => Ok (call_result_message_decorator Authorize_fn)
  | BootNotification => Ok (call_result_message_decorator BootNotification_fn)
  | StatusNotification => Ok (call_result_message_decorator StatusNotification_fn)
  | StartTransaction => Ok (call_result_message_decorator StartTransaction_fn)
  | StopTransaction => Ok (call_result_message_decorator StopTransaction_fn)
  | MeterValues => Ok (call_result_message_decorator MeterValues_fn)
  | Heartbeat => Ok (call_result_message_decorator Heartbeat_fn)
  | FirmwareStatusNotification =>
      Ok (call_result_message_decorator FirmwareStatusNotification_fn)
  | DiagnosticsStatusNotification =>
      Ok (call_result_message_decorator DiagnosticsStatusNotification_fn)
  | DataTransfer => Ok (call_result_message_decorator DataTransfer_fn)
  | _ => Raise AttributeError
  end.

(** [getattr(Call.Callbacks, action.name)(message_id = m, call_payload = p)]. *)
Definition Callbacks_call (action : OCPPCommands) (m p : value) : M value :=
  f <- lift (Callbacks_getattr action) ;;
  f [] [("message_id", m); ("call_payload", p)].

(** ** [ocpp_lib/call.py]: [Call.CallHandler] *)

(** [__save_call]: the stored action is [action.value], the number
    [auto()] gave the member. *)
Definition CallHandler_save_call (message_type : OCPPMessageType) (message_id : value)
  (action : OCPPCommands) (payload : value) (charger_id : string) : M CallObj :=
  _ <- utcnow ;;
  save_instance Call_save
    (Call_new (VInt (OCPPMessageType_value message_type)) message_id
              (VInt (OCPPCommands_value action)) payload charger_id "S2C").

(** What [__await_response] returns on a match:
    [(message_type_id, message_id, payload)] of the stored row. *)
Definition answer : Type := Z * string * string.

(** The [for] loop of [__await_response] with [n] iterations left, at
    iteration [i].  Next to the answer it returns the number of calls of
    [CallResult.objects.get] it made. *)
Fixpoint await_loop (message_id await_interval : value) (n i : nat)
  : M (option answer * nat) :=
  match n with
  | O => ret (None, i)
  | S n' =>
      try_except_else
        (CallResult_objects_get message_id)
        (fun _ => sleep i await_interval ;;; await_loop message_id await_interval n' (S i))
        (fun o => ret (Some (r_message_type_id o, r_message_id o, r_payload o), S i))
  end.

Definition await_response_counted (message_id await_period await_interval : value)
  : M (option answer * nat) :=
  q <- lift (truediv await_period await_interval) ;;
  await_cycles <- lift (int_of_float q) ;;
  r <- await_loop message_id await_interval (Z.to_nat await_cycles) 0 ;;
  match fst r with
  | Some _ => ret r
  | None => logger WARNING "no call result was recieved back" ;;; ret r
  end.

(** [__await_response]. *)
Definition CallHandler_await_response (message_id await_period await_interval : value)
  : M (option answer) :=
  r <- await_response_counted message_id await_period await_interval ;;
  ret (fst r).

(** [issue_command]. *)
Definition CallHandler_issue_command (charger_id : string) (request : value)
  (shouldAwait : bool) (await_period await_interval : value) : M (option answer) :=
  _ <- try_except
         (lift (name <~ class_split_last request ;; ocpp_types_getattr name)%result)
         (fun _ => raise OCPPInvalidType) ;;
  message_id <- random_message_id ;;
  payload <- lift (method_serialize request) ;;
  let ocpp_message :=
    VList [ VInt (OCPPMessageType_value CALL); message_id;
            VStr (action_of_request request); payload ] in
  message_type <- lift (OCPPMessageType_call (VInt (OCPPMessageType_value CALL))) ;;
  action <- lift (OCPPCommands_getitem (VStr (action_of_request request))) ;;
  _ <- CallHandler_save_call message_type message_id action payload charger_id ;;
  group_send ("ocpp_" ++ charger_id)%string ocpp_message ;;;
  if shouldAwait
  then CallHandler_await_response message_id await_period await_interval
  else ret None.

(** ** [api/consumers.py]: [OcppConsumer] *)

(** [save_and_link_call_and_result]. *)
Definition save_and_link_call_and_result (call_obj : Result CallObj)
  (call_result_obj : Result CallResultObj) : M unit :=
  call_obj <- save_instance Call_save call_obj ;;
  call_result_obj <- save_instance CallResult_save call_result_obj ;;
  let call_obj := c_set_call_result_obj (r_pk call_result_obj) call_obj in
  let call_result_obj := r_set_call_obj (c_pk call_obj) call_result_obj in
  _ <- Call_save call_obj ;;
  _ <- CallResult_save call_result_obj ;;
  ret tt.

(** Reading a local variable that may not have been assigned. *)
Definition read_local {A} (x : option A) : M A :=
  match x with
  | Some a => ret a
  | None => raise UnboundLocalError
  end.

(** The branch of [receive] for a Call frame.  The handler class is
    looked up when the frame is handled: [callbacks action m p] stands
    for [getattr(Call.Callbacks, action.name)(message_id = m,
    call_payload = p)], with whatever class the name [Call.Callbacks] is
    bound to. *)
Definition receive_call_of (callbacks : OCPPCommands -> value -> value -> M value)
  (charger_id : string) (message_type_id : OCPPMessageType)
  (message : value) : M unit :=
  logger INFO "sent a Call message" ;;;
  message_id <- lift (subscript message 1) ;;
  action <- lift (subscript message 2) ;;
  payload <- lift (subscript message 3) ;;
  try_except_else
    (lift (OCPPCommands_getitem action))
    (fun _ =>
       logger CRITICAL "sent a Call message with an invalid OCPP action" ;;;
       ret tt)
    (fun action =>
       try_except_else
         (response <- callbacks action message_id payload ;;
          logger INFO "created the response" ;;;
          ret response)
         (fun e =>
            match e with
            | AttributeError =>
                logger WARNING "sent an action which the server could not handle"
            | _ =>
                logger ERROR "sent an action which the server could not handle"
            end)
         (fun response =>
            group_send ("ocpp_" ++ charger_id)%string response ;;;
            logger INFO "Creating the linkage" ;;;
            _ <- utcnow ;;
            let call_obj :=
              Call_new (VInt (OCPPMessageType_value message_type_id)) message_id
                       (VStr (OCPPCommands_name action)) payload charger_id "C2S" in
            r0 <- lift (subscript response 0) ;;
            r1 <- lift (subscript response 1) ;;
            r2 <- lift (subscript response 2) ;;
            _ <- utcnow ;;
            let call_result_obj := CallResult_new r0 r1 r2 charger_id "S2C" None in
            save_and_link_call_and_result call_obj call_result_obj)).

(** The branch for a Call frame with the class of [call.py]. *)
Definition receive_call : string -> OCPPMessageType -> value -> M unit :=
  receive_call_of Callbacks_call.

(** The branch of [receive] for a CallResult frame. *)
Definition receive_call_result (charger_id : string) (message_type_id : OCPPMessageType)
  (message : value) : M unit :=
  logger INFO "sent a Call Result message" ;;;
  rest <- lift (slice_from_1 message) ;;
  p <- lift (unpack2 rest) ;;
  let '(message_id, payload) := p in
  call_obj <- Call_objects_filter message_id ;;
  match call_obj with
  | c :: _ =>
      _ <- utcnow ;;
      let call_result_obj :=
        CallResult_new (VInt (OCPPMessageType_value message_type_id)) message_id payload
                       charger_id "C2S" (c_pk c) in
      save_and_link_call_and_result (Ok c) call_result_obj
  | [] =>
      logger CRITICAL "Attempted to find a call message but was not able to find any"
  end.

(** [OcppConsumer.receive], from the decoded [message] on;
    [charger_id] is [self.charger_id]. *)
Definition OcppConsumer_receive_of (callbacks : OCPPCommands -> value -> value -> M value)
  (charger_id : string) (message : value) : M unit :=
  logger INFO "Received a message" ;;;
  message_type_id <-
    try_except
      (v <- lift (subscript message 0) ;;
       t <- lift (OCPPMessageType_call v) ;;
       ret (Some t))
      (fun _ =>
         _ <- lift (subscript message 0) ;;
         logger CRITICAL "sent an unknown OCPP message type" ;;;
         ret None) ;;
  t <- read_local message_type_id ;;
  if OCPPMessageType_eqb t CALL then receive_call_of callbacks charger_id t message
  else if OCPPMessageType_eqb t CALL_RESULT then receive_call_result charger_id t message
  else if OCPPMessageType_eqb t CALL_ERROR then logger INFO "sent a Call Error message"
  else ret tt.

(** [receive] with the class of [call.py]. *)
Definition OcppConsumer_receive : string -> value -> M unit :=
  OcppConsumer_receive_of Callbacks_call.

(** ** [receive] up to the save it awaits

    [receive] is a coroutine, and every consumer of the process runs on
    one event loop: at [await self.save_and_link_call_and_result(...)]
    other consumers take their turns before the rows are saved.  What
    [receive] holds at that await are the two instances it has built: in
    the CallResult branch the call is the row it has read, as it stood
    when it was read.  The definitions below are [receive] cut at that
    await; [receive_awaits_save] shows that the two parts make up
    [receive]. *)
Definition pending : Type := (Result CallObj * Result CallResultObj)%type.

Definition receive_call_upto_save (charger_id : string) (message_type_id : OCPPMessageType)
  (message : value) : M (option pending) :=
  logger INFO "sent a Call message" ;;;
  message_id <- lift (subscript message 1) ;;
  action <- lift (subscript message 2) ;;
  payload <- lift (subscript message 3) ;;
  try_except_else
    (lift (OCPPCommands_getitem action))
    (fun _ =>
       logger CRITICAL "sent a Call message with an invalid OCPP action" ;;;
       ret None)
    (fun action =>
       try_except_else
         (response <- Callbacks_call action message_id payload ;;
          logger INFO "created the response" ;;;
          ret response)
         (fun e =>
            match e with
            | AttributeError =>
                logger WARNING "sent an action which the server could not handle"
            | _ =>
                logger ERROR "sent an action which the server could not handle"
            end ;;;
            ret None)
         (fun response =>
            group_send ("ocpp_" ++ charger_id)%string response ;;;
            logger INFO "Creating the linkage" ;;;
            _ <- utcnow ;;
            let call_obj :=
              Call_new (VInt (OCPPMessageType_value message_type_id)) message_id
                       (VStr (OCPPCommands_name action)) payload charger_id "C2S" in
            r0 <- lift (subscript response 0) ;;
            r1 <- lift (subscript response 1) ;;
            r2 <- lift (subscript response 2) ;;
            _ <- utcnow ;;
            let call_result_obj := CallResult_new r0 r1 r2 charger_id "S2C" None in
            ret (Some (call_obj, call_result_obj)))).

Definition receive_call_result_upto_save (charger_id : string)
  (message_type_id : OCPPMessageType) (message : value) : M (option pending) :=
  logger INFO "sent a Call Result message" ;;;
  rest <- lift (slice_from_1 message) ;;
  p <- lift (unpack2 rest) ;;
  let '(message_id, payload) := p in
  call_obj <- Call_objects_filter message_id ;;
  match call_obj with
  | c :: _ =>
      _ <- utcnow ;;
      let call_result_obj :=
        CallResult_new (VInt (OCPPMessageType_value message_type_id)) message_id payload
                       charger_id "C2S" (c_pk c) in
      ret (Some (Ok c, call_result_obj))
  | [] =>
      logger CRITICAL "Attempted to find a call message but was not able to find any" ;;;
      ret None
  end.

Definition OcppConsumer_receive_upto_save (charger_id : string) (message : value)
  : M (option pending) :=
  logger INFO "Received a message" ;;;
  message_type_id <-
    try_except
      (v <- lift (subscript message 0) ;;
       t <- lift (OCPPMessageType_call v) ;;
       ret (Some t))
      (fun _ =>
         _ <- lift (subscript message 0) ;;
         logger CRITICAL "sent an unknown OCPP message type" ;;;
         ret None) ;;
  t <- read_local message_type_id ;;
  if OCPPMessageType_eqb t CALL then receive_call_upto_save charger_id t message
  else if OCPPMessageType_eqb t CALL_RESULT
       then receive_call_result_upto_save charger_id t message
  else if OCPPMessageType_eqb t CALL_ERROR
       then logger INFO "sent a Call Error message" ;;; ret None
  else ret None.

(** The rest of [receive]: the save, when [receive] got that far. *)
Definition await_save (p : option pending) : M unit :=
  match p with
  | Some (call_obj, call_result_obj) =>
      save_and_link_call_and_result call_obj call_result_obj
  | None => ret tt
  end.

End Runtime.

(** ** [ocpp_lib/decorators.py]: [call_message_decorator] *)

(** [call_message_decorator(function)], that is [inner]; [name] is
    [function.__name__].  The payload is checked before the name, and the
    message id is drawn once both checks have passed. *)
Definition call_message_decorator (env : Env) (name : string) (f : function) : function :=
  fun args kwargs =>
    payload <- try_except
                 (v <- f args kwargs ;; lift (method_serialize v))
                 (fun _ => f args kwargs) ;;
    if negb (is_dict payload) then raise ValueError
    else
      _ <- try_except
             (if negb (String.eqb name "serialize")
              then _ <- lift (OCPPCommands_getitem (VStr name)) ;; ret tt
              else ret tt)
             (fun _ => raise OCPPInvalidCommand) ;;
      message_id <- random_message_id env ;;
      ret (VList [ VInt (OCPPMessageType_value CALL); message_id; VStr name; payload ]).

(** ** [ocpp_lib/utils.py]: the characters of a message id

    [random_at] of the runtime stands for the strings that
    [random_message_id] returns; this is how one of them is made. *)

Definition string_ascii_uppercase : string := "ABCDEFGHIJKLMNOPQRSTUVWXYZ".
Definition string_ascii_lowercase : string := "abcdefghijklmnopqrstuvwxyz".
Definition string_digits : string := "0123456789".

(** [random.choice(seq)] on a string: the character at the index that the
    generator draws below [len(seq)]; [draw] is what the generator yields,
    reduced to that range.  The empty sequence is an [IndexError]. *)
Definition random_choice (seq : string) (draw : nat) : Result ascii :=
  match String.get (draw mod String.length seq) seq with
  | Some c => Ok c
  | None => Raise IndexError
  end.

(** [[random.choice(seq) for _ in range(n)]], joined; the [j]-th draw of
    the generator is [draws j]. *)
Fixpoint random_chars (draws : nat -> nat) (seq : string) (n j : nat) : Result string :=
  match n with
  | O => Ok EmptyString
  | S n' =>
      (c <~ random_choice seq (draws j) ;;
       r <~ random_chars draws seq n' (S j) ;;
       Ok (String c r))%result
  end.

(** The body of [random_message_id(length)]; [range] of a negative length
    is empty. *)
Definition random_message_id_chars (draws : nat -> nat) (length : Z) : Result string :=
  random_chars draws
    (string_ascii_uppercase ++ string_ascii_lowercase ++ string_digits)%string
    (Z.to_nat length) 0.

(** ** A concrete runtime for the examples

    [str_of_value] is Python's [str] on [None], booleans, integers,
    strings, and the lists and dictionaries of these, for strings that
    need no escape beyond the quote; the values of the other kinds never
    reach a character column in the examples and are given their type. *)

Definition has_char (c : ascii) (s : string) : bool :=
  existsb (Ascii.eqb c) (list_ascii_of_string s).

Definition double_quote : ascii := ascii_of_N 34.
Definition backslash : ascii := ascii_of_N 92.

(** Backslashes and the quote [q] are escaped. *)
Fixpoint escape (q : ascii) (s : string) : string :=
  match s with
  | EmptyString => EmptyString
  | String a r =>
      if Ascii.eqb a q || Ascii.eqb a backslash
      then String backslash (String a (escape q r))
      else String a (escape q r)
  end.

(** [repr(s)] of a string: in double quotes when it holds a single quote
    and no double quote, in single quotes otherwise. *)
Definition repr_str (s : string) : string :=
  let q := if has_char "'"%char s && negb (has_char double_quote s)
           then double_quote else "'"%char in
  String q (escape q s ++ String q EmptyString)%string.

Definition join_comma (l : list string) : string :=
  String.concat ", " l.

Fixpoint repr_value (v : value) : string :=
  match v with
  | VNone => "None"
  | VBool b => if b then "True" else "False"
  | VInt z => DecimalString.NilZero.string_of_int (Z.to_int z)
  | VStr s => repr_str s
  | VList l => ("[" ++ join_comma (map repr_value l) ++ "]")%string
  | VDict d =>
      ("{" ++ join_comma (map (fun kv => (repr_str (fst kv) ++ ": " ++ repr_value (snd kv))%string) d)
           ++ "}")%string
  | other => type_repr other
  end.

Definition str_of_value (v : value) : string :=
  match v with
  | VStr s => s
  | _ => repr_value v
  end.

Definition noon : datetime := mk_datetime 2021 6 12 12 0 0 0.

(** The float [0.2]. *)
Definition float_0_2 : spec_float := S754_finite false 7205759403792794 (-55).

(** A runtime whose clock stands at [noon], whose random identifiers are
    all ["aaaaaaaaaaaaaaaa"], and in which nothing else happens while a
    call is awaited. *)
Definition env0 : Env :=
  mk_Env str_of_value (fun _ => noon) (fun _ => "aaaaaaaaaaaaaaaa") (fun _ w => w).

Definition empty_world : World := mk_World [] [] [] [] 0 0.

(** ** Notions used in the statements *)

(** The world in which [receive] calls the handler of a Call frame: two
    records have been logged. *)
Definition handler_world (w : World) : World :=
  mk_World (db_calls w) (db_results w) (sent w)
           ((logged w ++ [(INFO, "Received a message")]) ++ [(INFO, "sent a Call message")])
           (clock_reads w) (random_draws w).

(** A frame whose head is the integer 4. *)
Definition is_call_error (frame : value) : bool :=
  match frame with
  | VList (t :: _) => eq_int t 4
  | _ => false
  end.

(** The specification's words on the frames its [decode] rejects, as a
    predicate on decoded JSON: the discriminator is missing or is not one
    of 2, 3 and 4, or the number of elements after it is not 3 for a Call,
    2 for a CallResult, 4 for a CallError. *)
Definition spec_decode_fails (message : value) : bool :=
  match message with
  | VList (t :: rest) =>
      match OCPPMessageType_call t with
      | Ok CALL => negb (Nat.eqb (List.length rest) 3)
      | Ok CALL_RESULT => negb (Nat.eqb (List.length rest) 2)
      | Ok CALL_ERROR => negb (Nat.eqb (List.length rest) 4)
      | Raise _ => true
      end
  | _ => true
  end.

(** A Call frame with more than four elements. *)
Definition long_call (message : value) : bool :=
  match message with
  | VList (t :: rest) =>
      match OCPPMessageType_call t with
      | Ok CALL => Nat.ltb 3 (List.length rest)
      | _ => false
      end
  | _ => false
  end.

Definition answer_of (o : CallResultObj) : answer :=
  (r_message_type_id o, r_message_id o, r_payload o).

(** The stored results that the lookup of message id [m] matches. *)
Definition results_of (env : Env) (m : value) (w : World) : list CallResultObj :=
  filter (fun r => column_is env (r_message_id r) m) (db_results w).

(** What [__await_response] has returned in the world [w] it leaves:
    nothing, on a timeout, or the fields of the one row that is stored
    under the awaited message id in that world, which is the world of its
    last lookup. *)
Definition timeout_or_match (env : Env) (message_id : value) (w : World)
  (r : option answer) : Prop :=
  r = None \/
  exists o : CallResultObj,
    r = Some (answer_of o) /\ results_of env message_id w = [o].

(** The key invariants of the two tables: a stored call is identified by
    its primary key, and the result a stored call refers to is a stored
    result. *)
Definition db_consistent (w : World) : Prop :=
  (forall x y, In x (db_calls w) -> In y (db_calls w) -> c_pk x = c_pk y -> x = y)
  /\ (forall x j, In x (db_calls w) -> c_call_result_obj x = Some j ->
                  exists r, In r (db_results w) /\ r_pk r = Some j).

(** The result a call refers to, if any, is a stored result. *)
Definition link_resolves (w : World) (c : CallObj) : Prop :=
  forall j, c_call_result_obj c = Some j ->
            exists r, In r (db_results w) /\ r_pk r = Some j.

(** A computation that keeps the key invariants, however it ends. *)
Definition keeps {A} (m : M A) : Prop :=
  forall w, db_consistent w -> db_consistent (snd (m w)).

(** The enum members met on the way through the fields of an [OcppType]
    instance have values that [json.dumps] accepts; the members of the
    enums of [enums.py] are strings and integers. *)
Fixpoint enum_values_json (v : value) : bool :=
  match v with
  | VEnum _ _ x => json_serializable x
  | VOcpp _ data => forallb (fun kv => enum_values_json (snd kv)) data
  | _ => true
  end.

(** A letter of the ASCII alphabet or a decimal digit. *)
Definition is_alnum (c : ascii) : bool :=
  let n := N_of_ascii c in
  (N.leb 48 n && N.leb n 57) || (N.leb 65 n && N.leb n 90) || (N.leb 97 n && N.leb n 122).

(** While the call awaiting [m] sleeps, the rest of the system does not
    bring the number of stored results of [m] to one. *)
Definition stays_unanswered (env : Env) (m : value) : Prop :=
  forall (i : nat) (w : World),
    List.length (results_of env m w) <> 1 ->
    List.length (results_of env m (elsewhere env i w)) <> 1.

(** A number that is zero: [0], [False], [0.0] or [-0.0]. *)
Definition zero_number (v : value) : bool :=
  match v with
  | VFloat f => is_zero f
  | _ => match int_operand v with
         | Some z => (z =? 0)%Z
         | None => false
         end
  end.

(** Every stored row has a primary key, and the call a stored result
    refers to is a stored call. *)
Definition db_keyed (w : World) : Prop :=
  (forall c, In c (db_calls w) -> c_pk c <> None)
  /\ (forall r, In r (db_results w) -> r_pk r <> None)
  /\ (forall r i, In r (db_results w) -> r_call_obj r = Some i ->
                  exists c, In c (db_calls w) /\ c_pk c = Some i).

(** Referential integrity on top of the key invariants. *)
Definition db_integrity (w : World) : Prop := db_consistent w /\ db_keyed w.

(** A computation that keeps [db_keyed], however it ends. *)
Definition keeps_keyed {A} (m : M A) : Prop :=
  forall w, db_keyed w -> db_keyed (snd (m w)).

(** The call that a result refers to, if any, is a stored call. *)
Definition call_resolves (w : World) (r : CallResultObj) : Prop :=
  forall i, r_call_obj r = Some i -> exists c, In c (db_calls w) /\ c_pk c = Some i.

(** Calls and results refer to each other: a stored result is identified
    by its key, the result that a stored call refers to refers back to
    that call, and the call that a stored result refers to refers back to
    that result. *)
Definition db_linked (w : World) : Prop :=
  (forall r s, In r (db_results w) -> In s (db_results w) -> r_pk r = r_pk s -> r = s)
  /\ (forall x j, In x (db_calls w) -> c_call_result_obj x = Some j ->
                  exists r, In r (db_results w) /\ r_pk r = Some j
                            /\ r_call_obj r = c_pk x)
  /\ (forall r i, In r (db_results w) -> r_call_obj r = Some i ->
                  exists x, In x (db_calls w) /\ c_pk x = Some i
                            /\ c_call_result_obj x = r_pk r).

(** What a step of the protocol code can do to the tables: nothing, add
    a call without a result, add a call and its result, or add the result
    of a stored call that had none. *)
Inductive db_step (w w' : World) : Prop :=
| step_same :
    db_calls w' = db_calls w -> db_results w' = db_results w -> db_step w w'
| step_new_call (c : CallObj) :
    c_pk c = None -> c_call_result_obj c = None ->
    db_calls w' = db_calls w ++ [c_set_pk (next_pk c_pk (db_calls w)) c] ->
    db_results w' = db_results w ->
    db_step w w'
| step_new_pair (c : CallObj) (r : CallResultObj) :
    c_pk c = None -> c_call_result_obj c = None ->
    r_pk r = None -> r_call_obj r = None ->
    db_calls w'
    = db_calls w ++ [c_set_call_result_obj (Some (next_pk r_pk (db_results w)))
                       (c_set_pk (next_pk c_pk (db_calls w)) c)] ->
    db_results w'
    = db_results w ++ [r_set_call_obj (Some (next_pk c_pk (db_calls w)))
                         (r_set_pk (next_pk r_pk (db_results w)) r)] ->
    db_step w w'
| step_new_result (c : CallObj) (i : nat) (r : CallResultObj) :
    In c (db_calls w) -> c_pk c = Some i -> c_call_result_obj c = None ->
    r_pk r = None -> r_call_obj r = Some i ->
    db_calls w'
    = map (fun x => if has_pk c_pk i x
                    then c_set_call_result_obj (Some (next_pk r_pk (db_results w))) c
                    else x) (db_calls w) ->
    db_results w' = db_results w ++ [r_set_pk (next_pk r_pk (db_results w)) r] ->
    db_step w w'.

(** The worlds that the protocol code reaches from empty tables when it
    handles one frame at a time: each [receive] runs to its end, its save
    included, before the next frame is taken up, and so does the storing
    of an outbound call. *)
Inductive handled_in_turn (env : Env) : World -> Prop :=
| in_turn_start (w : World) :
    db_calls w = [] -> db_results w = [] -> handled_in_turn env w
| in_turn_receive (charger_id : string) (message : value) (w : World) :
    handled_in_turn env w ->
    handled_in_turn env (snd (OcppConsumer_receive env charger_id message w))
| in_turn_save_call (message_type : OCPPMessageType) (message_id : value)
    (action : OCPPCommands) (payload : value) (charger_id : string) (w : World) :
    handled_in_turn env w ->
    handled_in_turn env (snd (CallHandler_save_call env message_type message_id action
                                payload charger_id w)).

(** The consumers of a process, each handling the frames of its charger,
    take turns at their awaits.  [running env w ps] is a state of such a
    run from empty tables: [w] is the world, and [ps] holds, for every
    [receive] that has reached its save and not made it yet, the two
    instances it is about to save.  A step is the part of a [receive] up to
    that await, the save of any of the waiting consumers, or the storing
    of an outbound call.  The awaits that come earlier in [receive] cut
    it between steps that touch no table (logging, sending to a group,
    reading the clock): such steps of other consumers may fall anywhere,
    and [running_other] lets them change the world in any way that leaves
    the two tables as they are. *)
Inductive running (env : Env) : World -> list pending -> Prop :=
| running_start (w : World) :
    db_calls w = [] -> db_results w = [] -> running env w []
| running_receive (charger_id : string) (message : value) (w : World) (ps : list pending) :
    running env w ps ->
    running env (snd (OcppConsumer_receive_upto_save env charger_id message w))
      (match fst (OcppConsumer_receive_upto_save env charger_id message w) with
       | Ok (Some p) => p :: ps
       | _ => ps
       end)
| running_save (call_obj : Result CallObj) (call_result_obj : Result CallResultObj)
    (w : World) (ps1 ps2 : list pending) :
    running env w (ps1 ++ (call_obj, call_result_obj) :: ps2) ->
    running env (snd (save_and_link_call_and_result call_obj call_result_obj w))
      (ps1 ++ ps2)
| running_save_call (message_type : OCPPMessageType) (message_id : value)
    (action : OCPPCommands) (payload : value) (charger_id : string) (w : World)
    (ps : list pending) :
    running env w ps ->
    running env (snd (CallHandler_save_call env message_type message_id action payload
                        charger_id w)) ps
| running_other (w w' : World) (ps : list pending) :
    running env w ps ->
    db_calls w' = db_calls w -> db_results w' = db_results w ->
    running env w' ps.

(** The worlds that the protocol code reaches from empty tables: by
    handling inbound frames of any charger, several of them at a time,
    and by storing outbound calls. *)
Definition reachable (env : Env) (w : World) : Prop :=
  exists ps : list pending, running env w ps.

(** The instances that a waiting [receive] is about to save refer to
    stored rows only. *)
Definition pending_ok (w : World) (p : pending) : Prop :=
  (forall c, fst p = Ok c -> link_resolves w c)
  /\ (forall r, snd p = Ok r -> call_resolves w r).

(** No key of a stored row is lost from [w] to [w']. *)
Definition keys_kept (w w' : World) : Prop :=
  (forall c, In c (db_calls w) -> exists c', In c' (db_calls w') /\ c_pk c' = c_pk c)
  /\ (forall r, In r (db_results w) -> exists r', In r' (db_results w') /\ r_pk r' = r_pk r).

(** The two rows that the handling of an answered Call stores: the call
    as the charger sent it and the result the server made, each referring
    to the other. *)
Definition recorded_call (env : Env) (charger_id : string) (message_id payload : value)
  (action : OCPPCommands) (k j : nat) : CallObj :=
  mk_Call (Some k) 2 (py_str env message_id) (py_str env (VStr (OCPPCommands_name action)))
          (py_str env payload) charger_id "C2S" (Some j).

Definition recorded_result (env : Env) (charger_id : string) (message_id response : value)
  (k j : nat) : CallResultObj :=
  mk_CallResult (Some j) 3 (py_str env message_id) (py_str env response)
                charger_id "S2C" (Some k).

(** ** Worlds of the examples *)

(** The serialized request of the remote start scenario. *)
Definition remote_start_payload : value :=
  VDict [("idTag", VDict [("IdToken", VStr "abc")]); ("connectorId", VInt 1)].

(** The world after [__save_call] has stored the remote start of message
    id ["X"] for charger ["CP1"]. *)
Definition world_issued : World :=
  snd (CallHandler_save_call env0 CALL (VStr "X") RemoteStartTransaction
         remote_start_payload "CP1" empty_world).

(** Two calls are outstanding: ["A1"] to charger ["CP1"] and ["B2"] to
    charger ["CP2"]. *)
Definition world_two_calls : World :=
  snd (CallHandler_save_call env0 CALL (VStr "B2") RemoteStartTransaction
         remote_start_payload "CP2"
         (snd (CallHandler_save_call env0 CALL (VStr "A1") RemoteStartTransaction
                 remote_start_payload "CP1" empty_world))).

(** The rows of these two calls. *)
Definition stored_call_A1 : CallObj :=
  mk_Call (Some 1) 2 "A1" "17" "{'idTag': {'IdToken': 'abc'}, 'connectorId': 1}"
          "CP1" "S2C" None.

Definition stored_call_B2 : CallObj :=
  mk_Call (Some 2) 2 "B2" "17" "{'idTag': {'IdToken': 'abc'}, 'connectorId': 1}"
          "CP2" "S2C" None.

(** The world after charger ["CP1"] has answered the call ["A1"]. *)
Definition world_answered : World :=
  snd (OcppConsumer_receive env0 "CP1"
         (VList [VInt 3; VStr "A1"; VDict [("status", VStr "Accepted")]]) world_two_calls).

(** Two consumers are each handed a result of the call ["A1"], and both
    have read the call, which has no result yet, before either saves.
    [pending_A1] is what each of them holds at its save, [world_raced] the
    world after both saves. *)
Definition result_frame_A1 : value :=
  VList [VInt 3; VStr "A1"; VDict [("status", VStr "Accepted")]].

Definition pending_A1 : pending :=
  (Ok stored_call_A1,
   Ok (mk_CallResult None 3 "A1" "{'status': 'Accepted'}" "CP1" "C2S" (Some 1))).

Definition world_read_twice : World :=
  snd (OcppConsumer_receive_upto_save env0 "CP1" result_frame_A1
         (snd (OcppConsumer_receive_upto_save env0 "CP1" result_frame_A1 world_two_calls))).

Definition world_saved_once : World :=
  snd (save_and_link_call_and_result (fst pending_A1) (snd pending_A1) world_read_twice).

Definition world_raced : World :=
  snd (save_and_link_call_and_result (fst pending_A1) (snd pending_A1) world_saved_once).



(** * Properties *)

(** Unfolds [receive] down to its branches. *)
Ltac unfold_receive :=
  unfold OcppConsumer_receive, OcppConsumer_receive_of;
  repeat match goal with
         | |- context [receive_call_of ?e (Callbacks_call ?e)] =>
             change (receive_call_of e (Callbacks_call e)) with (receive_call e)
         end.


(** ** Running the monad *)

Lemma bind_ok {A B} (m : M A) (k : A -> M B) w a w' :
  m w = (Ok a, w') -> bind m k w = k a w'.
Proof. intros H. unfold bind. rewrite H. reflexivity. Qed.

(** ** Serialization: [OcppType.serialize] *)

Lemma dict_comprehension_list_field (data : dict) (k : string) (l : list value) :
  In (k, VList l) data ->
  exists e, dict_comprehension single_value_serialize data = Raise e.
Proof.
  induction data as [|[k' v] r IH]; intros Hin.
  - contradiction.
  - destruct Hin as [Heq | Hin].
    + inversion Heq; subst. simpl. eexists; reflexivity.
    + destruct (IH Hin) as [e He]. simpl.
      destruct (single_value_serialize v) as [y|e'].
      * simpl. rewrite He. eexists; reflexivity.
      * eexists; reflexivity.
Qed.

(** Whatever else the instance holds, one list-valued field is enough for
    [serialize] to raise: it never returns a dictionary. *)
Lemma serialize_list_field_raises (data : dict) (k : string) (l : list value) :
  In (k, VList l) data ->
  exists e, OcppType_serialize data = Raise e.
Proof.
  intros Hin. unfold OcppType_serialize.
  destruct (dict_comprehension_list_field data k l Hin) as [e He].
  rewrite He. eexists; reflexivity.
Qed.

(** C9.  [ChargingSchedule(chargingRateUnit = A, chargingSchedulePeriod =
    [ChargingSchedulePeriod(startPeriod = 0, limit = 16.0)]).serialize()]
    raises [TypeError]: the list-valued field is not serialized
    element-wise, and no dictionary is produced. *)
Theorem serialize_ChargingSchedule_raises :
  method_serialize
    (ChargingSchedule ChargingRateUnitType_A
       (VList [ChargingSchedulePeriod (VInt 0) (VFloat (float_of_Z 16)) VNone])
       VNone VNone VNone)
  = Raise TypeError.
Proof. reflexivity. Qed.

(** ** The decorator *)

(** C10.  When [message_id] is not among the keyword arguments, the
    wrapper raises [KeyError] as soon as the wrapped function yields a
    dictionary: either it returns a value whose [serialize()] is a
    dictionary, or it returns a dictionary as it is (the wrapper then calls
    it a second time).  The exception is raised in the world the wrapped
    function left, so also when the function itself succeeded with the
    message id passed in position. *)
Theorem decorator_message_id_keyword_only
  (f : function) (args : list value) (kwargs : dict) (w : World) :
  str_in "message_id" (dict_keys kwargs) = false ->
  (forall (v : value) (d : dict) (w' : World),
      f args kwargs w = (Ok v, w') ->
      method_serialize v = Ok (VDict d) ->
      call_result_message_decorator f args kwargs w = (Raise KeyError, w'))
  /\ (forall (d d' : dict) (w' w'' : World),
         f args kwargs w = (Ok (VDict d), w') ->
         f args kwargs w' = (Ok (VDict d'), w'') ->
         call_result_message_decorator f args kwargs w = (Raise KeyError, w'')).
Proof.
  intros Hk. split.
  - intros v d w' Hf Hs.
    unfold call_result_message_decorator, try_except, try_except_else, bind, lift, ret.
    rewrite Hf, Hs. simpl. rewrite Hk. reflexivity.
  - intros d d' w' w'' Hf Hf'.
    unfold call_result_message_decorator, try_except, try_except_else, bind, lift, ret.
    rewrite Hf. simpl. rewrite Hf'. simpl. rewrite Hk. reflexivity.
Qed.

(** The handler of [Heartbeat] called with its two arguments in position
    succeeds, and its wrapper raises [KeyError]; so does the wrapper of a
    function that returns the empty dictionary. *)
Lemma decorator_message_id_keyword_only_witness :
  Heartbeat_fn env0 [VStr "msg1"; VDict []] [] empty_world
    = (Ok (Heartbeat_Conf (VDateTime noon)), mk_World [] [] [] [] 1 0)
  /\ call_result_message_decorator (Heartbeat_fn env0) [VStr "msg1"; VDict []] [] empty_world
    = (Raise KeyError, mk_World [] [] [] [] 1 0)
  /\ call_result_message_decorator (fun _ _ => ret (VDict [])) [VStr "msg1"] [] empty_world
    = (Raise KeyError, empty_world).
Proof.
  split; [reflexivity|]. split.
  - exact (proj1 (decorator_message_id_keyword_only (Heartbeat_fn env0)
                    [VStr "msg1"; VDict []] [] empty_world eq_refl)
             (Heartbeat_Conf (VDateTime noon)) [("currentTime", VStr "2021-06-12T12:00:00")]
             (mk_World [] [] [] [] 1 0) eq_refl eq_refl).
  - exact (proj2 (decorator_message_id_keyword_only (fun _ _ => ret (VDict []))
                    [VStr "msg1"] [] empty_world eq_refl)
             [] [] empty_world empty_world eq_refl eq_refl).
Defined.

(** ** Outbound calls: [issue_command] *)

(** The guard at the head of [issue_command] raises for every request:
    no class has the attribute the guard reads, and where [str] has it
    the name looked up in [ocpp_lib.types] is not bound there. *)
Lemma issue_command_always_raises (env : Env) (charger_id : string) (request : value)
  (shouldAwait : bool) (await_period await_interval : value) (w : World) :
  CallHandler_issue_command env charger_id request shouldAwait await_period await_interval w
  = (Raise OCPPInvalidType, w).
Proof. destruct request; reflexivity. Qed.

(** C1.  The remote start of the scenario raises [OCPPInvalidType] and
    leaves the world as it was: no frame is sent, no call is stored and
    nothing is awaited. *)
Theorem issue_command_remote_start_raises (env : Env) (w : World) :
  CallHandler_issue_command env "CP1"
    (RemoteStartTransaction_Req (IdToken (VStr "abc")) VNone (VInt 1))
    true (VInt 10) (VFloat float_0_2) w
  = (Raise OCPPInvalidType, w).
Proof. reflexivity. Qed.

(** ** Timestamps *)

Lemma is_digit_digit (n : N) : is_digit (digit n) = true.
Proof.
  unfold is_digit, digit.
  assert (H : (n mod 10 < 10)%N) by (apply N.mod_lt; discriminate).
  rewrite N_ascii_embedding by lia.
  apply andb_true_intro; split; apply N.leb_le.
  - apply N.le_add_r.
  - change 57%N with (48 + 9)%N. apply N.add_le_mono_l, N.lt_succ_r. exact H.
Qed.

Lemma digit_value_digit (n : N) : digit_value (digit n) = Some (n mod 10)%N.
Proof.
  unfold digit_value. rewrite is_digit_digit. unfold digit.
  assert (H : (n mod 10 < 10)%N) by (apply N.mod_lt; discriminate).
  rewrite N_ascii_embedding by lia. f_equal.
  generalize (n mod 10)%N. intros k. lia.
Qed.

Lemma number_pad2 (n : N) :
  (n < 100)%N -> number_from 0 [digit (n / 10); digit n] = Some n.
Proof.
  intros H. cbn [number_from]. rewrite !digit_value_digit. f_equal.
  zify. Z.to_euclidean_division_equations. lia.
Qed.

Lemma number_pad4 (n : N) :
  (n < 10000)%N ->
  number_from 0 [digit (n / 1000); digit (n / 100); digit (n / 10); digit n] = Some n.
Proof.
  intros H. cbn [number_from]. rewrite !digit_value_digit. f_equal.
  zify. Z.to_euclidean_division_equations. lia.
Qed.

Lemma number_pad6 (n : N) :
  (n < 1000000)%N ->
  number_from 0 [digit (n / 100000); digit (n / 10000); digit (n / 1000);
                 digit (n / 100); digit (n / 10); digit n] = Some n.
Proof.
  intros H. cbn [number_from]. rewrite !digit_value_digit. f_equal.
  zify. Z.to_euclidean_division_equations. lia.
Qed.

Lemma days_in_month_le (y m : N) : (days_in_month y m <= 31)%N.
Proof.
  unfold days_in_month.
  repeat match goal with
         | |- context [match ?x with _ => _ end] => destruct x
         end; apply N.leb_le; reflexivity.
Qed.

(** [isoformat] writes a datetime as the ISO-8601 string that denotes
    it. *)
Lemma isoformat_parses (t : datetime) :
  valid_datetime t = true -> parse_iso8601 (isoformat t) = Some t.
Proof.
  destruct t as [y mo d h mi sec us]. intros Hv.
  assert (Hr : (y < 10000 /\ mo < 100 /\ d < 100 /\ h < 100 /\ mi < 100 /\ sec < 100
                /\ us < 1000000)%N).
  { unfold valid_datetime in Hv. cbn [year month day hour minute second microsecond] in Hv.
    repeat (apply andb_prop in Hv; destruct Hv as [Hv ?]).
    repeat match goal with H : N.leb _ _ = true |- _ => apply N.leb_le in H end.
    pose proof (days_in_month_le y mo). lia. }
  destruct Hr as (Hy & Hmo & Hd & Hh & Hmi & Hsec & Hus).
  unfold parse_iso8601, isoformat, date_isoformat, pad6, pad4, pad2.
  cbn [year month day hour minute second microsecond].
  destruct (N.eqb us 0) eqn:E.
  - apply N.eqb_eq in E. subst us.
    cbn -[digit number_from valid_datetime N.div].
    rewrite (number_pad4 y Hy), (number_pad2 mo Hmo), (number_pad2 d Hd),
      (number_pad2 h Hh), (number_pad2 mi Hmi), (number_pad2 sec Hsec).
    rewrite Hv. reflexivity.
  - cbn -[digit number_from valid_datetime N.div].
    rewrite (number_pad4 y Hy), (number_pad2 mo Hmo), (number_pad2 d Hd),
      (number_pad2 h Hh), (number_pad2 mi Hmi), (number_pad2 sec Hsec).
    replace (us / 10000 / 10)%N with (us / 100000)%N
      by (zify; Z.to_euclidean_division_equations; lia).
    rewrite (number_pad6 us Hus), Hv. reflexivity.
Qed.

(** Strings of the right shape that denote no date and time are no
    timestamps: a month 0 or 99, a day the month does not have, an hour
    99; the 29th of February is one in leap years only. *)
Example parse_iso8601_checks_the_fields :
  parse_iso8601 "0000-00-00T00:00:00" = None
  /\ parse_iso8601 "9999-99-99T99:99:99.999999" = None
  /\ parse_iso8601 "2021-13-01T00:00:00" = None
  /\ parse_iso8601 "2021-04-31T00:00:00" = None
  /\ parse_iso8601 "2021-02-29T00:00:00" = None
  /\ parse_iso8601 "1900-02-29T00:00:00" = None
  /\ parse_iso8601 "2021-06-12T24:00:00" = None
  /\ parse_iso8601 "2021-06-12 12:00:00" = None
  /\ parse_iso8601 "2021-06-12T12:00:00.5" = None
  /\ parse_iso8601 "2020-02-29T23:59:59.000001" = Some (mk_datetime 2020 2 29 23 59 59 1)
  /\ parse_iso8601 "2000-02-29T00:00:00" = Some (mk_datetime 2000 2 29 0 0 0 0).
Proof. repeat split; reflexivity. Qed.

(** ** What saving leaves alone *)

Lemma Call_save_frame (o : CallObj) (w : World) :
  let w' := snd (Call_save o w) in
  sent w' = sent w /\ logged w' = logged w /\ db_results w' = db_results w.
Proof.
  unfold Call_save.
  destruct (table_save c_pk c_set_pk c_call_result_obj o (db_calls w)) as [[o' t]|e];
    simpl; auto.
Qed.

Lemma CallResult_save_frame (o : CallResultObj) (w : World) :
  let w' := snd (CallResult_save o w) in
  sent w' = sent w /\ logged w' = logged w /\ db_calls w' = db_calls w.
Proof.
  unfold CallResult_save.
  destruct (table_save r_pk r_set_pk r_call_obj o (db_results w)) as [[o' t]|e];
    simpl; auto.
Qed.

Lemma bind_snd_frame {A B} (P : World -> World -> Prop) (m : M A) (k : A -> M B) (w : World) :
  (forall w1 w2 w3, P w1 w2 -> P w2 w3 -> P w1 w3) ->
  P w (snd (m w)) ->
  (forall a w1, P w1 (snd (k a w1))) ->
  P w (snd (bind m k w)).
Proof.
  intros Ht Hm Hk. unfold bind.
  destruct (m w) as [[a|e] w1] eqn:E; simpl in *.
  - eapply Ht; [exact Hm | apply Hk].
  - exact Hm.
Qed.

Lemma save_instance_Call_sent (o : Result CallObj) (w : World) :
  sent (snd (save_instance Call_save o w)) = sent w.
Proof. destruct o as [c|e]; [apply Call_save_frame | reflexivity]. Qed.

Lemma save_instance_CallResult_sent (o : Result CallResultObj) (w : World) :
  sent (snd (save_instance CallResult_save o w)) = sent w.
Proof. destruct o as [r|e]; [apply CallResult_save_frame | reflexivity]. Qed.

Lemma save_and_link_sent (c : Result CallObj) (r : Result CallResultObj) (w : World) :
  sent (snd (save_and_link_call_and_result c r w)) = sent w.
Proof.
  unfold save_and_link_call_and_result.
  apply (bind_snd_frame (fun w1 w2 => sent w2 = sent w1));
    [intros; congruence | apply save_instance_Call_sent | intros].
  apply (bind_snd_frame (fun w1 w2 => sent w2 = sent w1));
    [intros; congruence | apply save_instance_CallResult_sent | intros].
  apply (bind_snd_frame (fun w1 w2 => sent w2 = sent w1));
    [intros; congruence | apply Call_save_frame | intros].
  apply (bind_snd_frame (fun w1 w2 => sent w2 = sent w1));
    [intros; congruence | apply CallResult_save_frame | intros].
  reflexivity.
Qed.

(** ** The dispatcher on Call frames *)

(** C8.  On [[2, "msg1", "BootNotification", {}]] the dispatcher sends to
    the group of the charger exactly one frame, [[3, "msg1", p]], where
    [p] has the keys [currentTime], [interval] and [status] in this order,
    [interval] is 10, [status] is ["Accepted"], and [currentTime] is an
    ISO-8601 timestamp: the string that [isoformat] gives the reading of
    the clock, which denotes that date and time.  The clock gives a
    datetime, whose fields are a date of the calendar and a time of the
    day. *)
Theorem boot_notification_scenario (env : Env) (charger_id : string) (w : World) :
  valid_datetime (utcnow_at env (clock_reads w)) = true ->
  exists (r : Result unit) (w' : World),
    OcppConsumer_receive env charger_id
      (VList [VInt 2; VStr "msg1"; VStr "BootNotification"; VDict []]) w = (r, w')
    /\ sent w' = sent w ++
         [(("ocpp_" ++ charger_id)%string,
           VList [VInt 3; VStr "msg1";
                  VDict [("currentTime", VStr (isoformat (utcnow_at env (clock_reads w))));
                         ("interval", VInt 10);
                         ("status", VStr "Accepted")]])]
    /\ parse_iso8601 (isoformat (utcnow_at env (clock_reads w)))
       = Some (utcnow_at env (clock_reads w))
    /\ iso8601_datetime (isoformat (utcnow_at env (clock_reads w))) = true.
Proof.
  intros Hv.
  unfold OcppConsumer_receive, OcppConsumer_receive_of, receive_call_of.
  cbn -[save_and_link_call_and_result isoformat String.append parse_iso8601
        iso8601_datetime].
  match goal with
  | |- context [save_and_link_call_and_result ?c ?r ?w0] =>
      pose proof (save_and_link_sent c r w0) as Hs;
      destruct (save_and_link_call_and_result c r w0) as [res w'] eqn:E
  end.
  exists res, w'.
  split; [reflexivity|]. split; [exact Hs|].
  unfold iso8601_datetime. rewrite (isoformat_parses _ Hv). split; reflexivity.
Qed.

(** At noon of 12 June 2021 the charger ["CP1"] is answered the
    timestamp ["2021-06-12T12:00:00"]. *)
Lemma boot_notification_scenario_witness :
  exists (r : Result unit) (w' : World),
    OcppConsumer_receive env0 "CP1"
      (VList [VInt 2; VStr "msg1"; VStr "BootNotification"; VDict []]) empty_world = (r, w')
    /\ sent w' = sent empty_world ++
         [("ocpp_CP1"%string,
           VList [VInt 3; VStr "msg1";
                  VDict [("currentTime", VStr "2021-06-12T12:00:00");
                         ("interval", VInt 10);
                         ("status", VStr "Accepted")]])]
    /\ parse_iso8601 "2021-06-12T12:00:00" = Some noon
    /\ iso8601_datetime "2021-06-12T12:00:00" = true.
Proof.
  exact (boot_notification_scenario env0 "CP1" empty_world eq_refl).
Defined.

(** A handler reads the clock at most: it sends nothing and stores
    nothing, whether it succeeds or fails. *)
Lemma Callbacks_call_frame (env : Env) (action : OCPPCommands) (m p : value) (w : World) :
  let w' := snd (Callbacks_call env action m p w) in
  sent w' = sent w /\ db_calls w' = db_calls w /\ db_results w' = db_results w
  /\ logged w' = logged w /\ random_draws w' = random_draws w.
Proof. destruct action; cbn; auto. Qed.

(** C4, as the code has it.  A Call frame whose action is not in the
    registry is logged at the critical level and dropped: [receive]
    returns normally, no frame is sent, and the tables are unchanged. *)
Theorem unknown_action_is_dropped (env : Env) (charger_id : string)
  (message_id action payload : value) (e : exn) (w : World) :
  OCPPCommands_getitem action = Raise e ->
  OcppConsumer_receive env charger_id (VList [VInt 2; message_id; action; payload]) w
  = (Ok tt,
     mk_World (db_calls w) (db_results w) (sent w)
              (logged (handler_world w)
                 ++ [(CRITICAL, "sent a Call message with an invalid OCPP action")])
              (clock_reads w) (random_draws w)).
Proof.
  intros H. unfold OcppConsumer_receive, OcppConsumer_receive_of, receive_call_of.
  cbn. unfold try_except_else, lift. rewrite H. reflexivity.
Qed.

(** The frame [[2, "m1", "Foo", {}]] is dropped. *)
Lemma unknown_action_is_dropped_witness :
  OCPPCommands_getitem (VStr "Foo") = Raise KeyError
  /\ OcppConsumer_receive env0 "CP1" (VList [VInt 2; VStr "m1"; VStr "Foo"; VDict []]) empty_world
     = (Ok tt,
        mk_World [] [] []
                 [(INFO, "Received a message"); (INFO, "sent a Call message");
                  (CRITICAL, "sent a Call message with an invalid OCPP action")] 0 0).
Proof.
  split; [reflexivity|].
  exact (unknown_action_is_dropped env0 "CP1" (VStr "m1") (VStr "Foo") (VDict []) KeyError
           empty_world eq_refl).
Defined.

(** C4, as the specification states it, fails: the Call frame
    [[2, "m1", "Foo", {}]] names no action of the registry, and the
    charger is sent no CallError, indeed nothing at all. *)
Lemma unknown_action_gets_no_call_error :
  OCPPCommands_getitem (VStr "Foo") = Raise KeyError
  /\ sent (snd (OcppConsumer_receive env0 "CP1"
                  (VList [VInt 2; VStr "m1"; VStr "Foo"; VDict []]) empty_world)) = []
  /\ existsb (fun gf => is_call_error (snd gf))
       (sent (snd (OcppConsumer_receive env0 "CP1"
                     (VList [VInt 2; VStr "m1"; VStr "Foo"; VDict []]) empty_world))) = false.
Proof. repeat split. Qed.




(** With the class of [call.py] itself the invocation fails for the
    actions without a handler only, at [getattr], with [AttributeError]:
    such a frame is logged with a warning and left unanswered, and the
    world is otherwise as it was. *)
Lemma missing_handler_is_logged (env : Env) (charger_id : string)
  (message_id action_name payload : value) (action : OCPPCommands) (e : exn) (w w1 : World) :
  OCPPCommands_getitem action_name = Ok action ->
  Callbacks_call env action message_id payload (handler_world w) = (Raise e, w1) ->
  e = AttributeError
  /\ OcppConsumer_receive env charger_id
       (VList [VInt 2; message_id; action_name; payload]) w
     = (Ok tt,
        mk_World (db_calls w) (db_results w) (sent w)
                 (logged (handler_world w)
                    ++ [(WARNING, "sent an action which the server could not handle")])
                 (clock_reads w) (random_draws w)).
Proof.
  intros Ha Hc.
  assert (He : e = AttributeError /\ w1 = handler_world w).
  { destruct action; cbn in Hc; try discriminate; injection Hc as <- <-; split; reflexivity. }
  destruct He as [-> ->].
  split; [reflexivity|].
  unfold OcppConsumer_receive, OcppConsumer_receive_of, receive_call_of.
  cbn -[Callbacks_call]. unfold try_except_else, lift. rewrite Ha.
  unfold bind. unfold handler_world in Hc. rewrite Hc. reflexivity.
Qed.

(** ** Frames that the specification's [decode] rejects *)

Lemma rejected_frame_is_not_answered (env : Env) (charger_id : string)
  (message : value) (w : World) :
  spec_decode_fails message = true ->
  long_call message = false ->
  let w' := snd (OcppConsumer_receive env charger_id message w) in
  sent w' = sent w /\ db_calls w' = db_calls w /\ db_results w' = db_results w.
Proof.
  intros Hd Hl.
  destruct message as [| b | z | f | s | l | d | c m v | t | y m d | c d];
    try (cbn; auto; fail).
  - destruct s; cbn; auto.
  - destruct l as [|t rest]; [cbn; auto|].
    unfold spec_decode_fails, long_call in Hd, Hl.
    unfold_receive.
    cbn -[OCPPMessageType_call receive_call receive_call_result].
    unfold try_except, try_except_else, bind, lift, ret.
    destruct (OCPPMessageType_call t) as [[| |]|e] eqn:E.
    + destruct rest as [|a [|b [|c [|x r]]]]; try discriminate; cbn; auto.
    + destruct rest as [|a [|b [|c r]]]; try discriminate; cbn; auto.
    + cbn; auto.
    + cbn; auto.
Qed.

Lemma long_call_is_dispatched (env : Env) (charger_id : string)
  (t m a p x : value) (rest : list value) (w : World) :
  OCPPMessageType_call t = Ok CALL ->
  OcppConsumer_receive env charger_id (VList (t :: m :: a :: p :: x :: rest)) w
  = OcppConsumer_receive env charger_id (VList [t; m; a; p]) w.
Proof. intros H. reflexivity. Qed.

(** C6, as the code has it.  A frame that [decode] rejects gets no reply
    and changes no table, unless it is a Call frame with more than four
    elements: such a frame is dispatched on its first four elements like
    the Call frame they make. *)
Theorem rejected_frames (env : Env) (charger_id : string) (w : World) :
  (forall message : value,
      spec_decode_fails message = true ->
      long_call message = false ->
      sent (snd (OcppConsumer_receive env charger_id message w)) = sent w
      /\ db_calls (snd (OcppConsumer_receive env charger_id message w)) = db_calls w
      /\ db_results (snd (OcppConsumer_receive env charger_id message w)) = db_results w)
  /\ (forall (t m a p x : value) (rest : list value),
         OCPPMessageType_call t = Ok CALL ->
         OcppConsumer_receive env charger_id (VList (t :: m :: a :: p :: x :: rest)) w
         = OcppConsumer_receive env charger_id (VList [t; m; a; p]) w).
Proof.
  split.
  - intros message Hd Hl. exact (rejected_frame_is_not_answered env charger_id message w Hd Hl).
  - intros. apply long_call_is_dispatched. assumption.
Qed.

(** [[5, "x"]] gets no reply and changes no table;
    [[2, "m1", "Heartbeat", {}, "extra"]] is dispatched like
    [[2, "m1", "Heartbeat", {}]]. *)
Lemma rejected_frames_witness :
  (sent (snd (OcppConsumer_receive env0 "CP1" (VList [VInt 5; VStr "x"]) empty_world)) = []
   /\ db_calls (snd (OcppConsumer_receive env0 "CP1" (VList [VInt 5; VStr "x"]) empty_world)) = []
   /\ db_results (snd (OcppConsumer_receive env0 "CP1" (VList [VInt 5; VStr "x"]) empty_world)) = [])
  /\ OcppConsumer_receive env0 "CP1"
       (VList [VInt 2; VStr "m1"; VStr "Heartbeat"; VDict []; VStr "extra"]) empty_world
     = OcppConsumer_receive env0 "CP1"
         (VList [VInt 2; VStr "m1"; VStr "Heartbeat"; VDict []]) empty_world.
Proof.
  destruct (rejected_frames env0 "CP1" empty_world) as [Hdrop Hlong].
  split.
  - exact (Hdrop (VList [VInt 5; VStr "x"]) eq_refl eq_refl).
  - exact (Hlong (VInt 2) (VStr "m1") (VStr "Heartbeat") (VDict []) (VStr "extra") [] eq_refl).
Defined.

(** C6, as the specification states it, fails: the frame
    [[2, "m1", "Heartbeat", {}, "extra"]] has five elements, [decode]
    rejects it, and the charger is sent a CallResult for it. *)
Lemma long_call_frame_is_answered :
  spec_decode_fails (VList [VInt 2; VStr "m1"; VStr "Heartbeat"; VDict []; VStr "extra"]) = true
  /\ sent (snd (OcppConsumer_receive env0 "CP1"
                  (VList [VInt 2; VStr "m1"; VStr "Heartbeat"; VDict []; VStr "extra"])
                  empty_world))
     = [("ocpp_CP1",
         VList [VInt 3; VStr "m1"; VDict [("currentTime", VStr "2021-06-12T12:00:00")]])].
Proof. split; reflexivity. Qed.

(** After the critical record for an unknown message type [receive] goes
    on to read [message_type_id], which was never assigned. *)
Lemma unknown_message_type_raises (env : Env) (charger_id : string)
  (t : value) (rest : list value) (e : exn) (w : World) :
  OCPPMessageType_call t = Raise e ->
  OcppConsumer_receive env charger_id (VList (t :: rest)) w
  = (Raise UnboundLocalError,
     mk_World (db_calls w) (db_results w) (sent w)
              ((logged w ++ [(INFO, "Received a message")])
                 ++ [(CRITICAL, "sent an unknown OCPP message type")])
              (clock_reads w) (random_draws w)).
Proof.
  intros H. unfold_receive.
  cbn -[OCPPMessageType_call]. unfold try_except, try_except_else, bind, lift.
  rewrite H. reflexivity.
Qed.

(** ** Call results without a stored call *)

Lemma filter_none {A} (f : A -> bool) (l : list A) :
  (forall x, In x l -> f x = false) -> filter f l = [].
Proof.
  induction l as [|a l IH]; intros H; [reflexivity|].
  simpl. rewrite (H a (or_introl eq_refl)). apply IH.
  intros x Hx. apply H. right. exact Hx.
Qed.

(** C7, as the code has it.  A CallResult frame whose message id is the
    message id of no stored Call is logged at the critical level and
    discarded, and a CallError frame is logged and discarded whatever it
    holds: [receive] returns normally, sends nothing and leaves the tables
    unchanged. *)
Theorem unmatched_results_are_discarded (env : Env) (charger_id : string) (w : World) :
  (forall message_id payload : value,
      (forall c, In c (db_calls w) -> column_is env (c_message_id c) message_id = false) ->
      OcppConsumer_receive env charger_id (VList [VInt 3; message_id; payload]) w
      = (Ok tt,
         mk_World (db_calls w) (db_results w) (sent w)
                  (((logged w ++ [(INFO, "Received a message")])
                      ++ [(INFO, "sent a Call Result message")])
                     ++ [(CRITICAL,
                          "Attempted to find a call message but was not able to find any")])
                  (clock_reads w) (random_draws w)))
  /\ (forall rest : list value,
         OcppConsumer_receive env charger_id (VList (VInt 4 :: rest)) w
         = (Ok tt,
            mk_World (db_calls w) (db_results w) (sent w)
                     ((logged w ++ [(INFO, "Received a message")])
                        ++ [(INFO, "sent a Call Error message")])
                     (clock_reads w) (random_draws w))).
Proof.
  split.
  - intros message_id payload H.
    unfold OcppConsumer_receive, OcppConsumer_receive_of, receive_call_result.
    cbn -[filter]. unfold Call_objects_filter, bind. cbn -[filter].
    rewrite filter_none; [reflexivity | exact H].
  - intros rest. reflexivity.
Qed.

(** With the call ["X"] stored, a CallResult of the unknown id
    ["unknown-id"] and a CallError are logged and discarded. *)
Lemma unmatched_results_are_discarded_witness :
  OcppConsumer_receive env0 "CP1" (VList [VInt 3; VStr "unknown-id"; VDict []]) world_issued
  = (Ok tt,
     mk_World (db_calls world_issued) [] []
              [(INFO, "Received a message"); (INFO, "sent a Call Result message");
               (CRITICAL, "Attempted to find a call message but was not able to find any")]
              1 0)
  /\ OcppConsumer_receive env0 "CP1"
       (VList [VInt 4; VStr "unknown-id"; VStr "InternalError"; VStr "failed"; VDict []])
       world_issued
     = (Ok tt,
        mk_World (db_calls world_issued) [] []
                 [(INFO, "Received a message"); (INFO, "sent a Call Error message")] 1 0).
Proof.
  destruct (unmatched_results_are_discarded env0 "CP1" world_issued) as [Hres Herr].
  split.
  - apply (Hres (VStr "unknown-id") (VDict [])).
    intros c [<-|[]]. reflexivity.
  - apply (Herr [VStr "unknown-id"; VStr "InternalError"; VStr "failed"; VDict []]).
Defined.

(** C7, as the specification states it, fails for a call that has timed
    out: the call of message id ["X"] is awaited for 10 seconds and times
    out; the CallResult that arrives afterwards is not discarded but
    stored and linked to the call. *)
Lemma late_call_result_is_stored :
  fst (CallHandler_await_response env0 (VStr "X") (VInt 10) (VFloat float_0_2) world_issued)
  = Ok None
  /\ db_results
       (snd (CallHandler_await_response env0 (VStr "X") (VInt 10) (VFloat float_0_2)
               world_issued)) = []
  /\ fst (OcppConsumer_receive env0 "CP1"
            (VList [VInt 3; VStr "X"; VDict [("status", VStr "Accepted")]])
            (snd (CallHandler_await_response env0 (VStr "X") (VInt 10) (VFloat float_0_2)
                    world_issued)))
     = Ok tt
  /\ db_results
       (snd (OcppConsumer_receive env0 "CP1"
               (VList [VInt 3; VStr "X"; VDict [("status", VStr "Accepted")]])
               (snd (CallHandler_await_response env0 (VStr "X") (VInt 10) (VFloat float_0_2)
                       world_issued))))
     = [mk_CallResult (Some 1) 3 "X" "{'status': 'Accepted'}" "CP1" "C2S" (Some 1)].
Proof. repeat split. Qed.

(** ** The awaiting loop *)

Lemma get_ok_unique (env : Env) (m : value) (w : World) (o : CallResultObj) (w' : World) :
  CallResult_objects_get env m w = (Ok o, w') ->
  w' = w /\ results_of env m w = [o].
Proof.
  unfold CallResult_objects_get, results_of. intros H.
  destruct (filter (fun r => column_is env (r_message_id r) m) (db_results w))
    as [|o1 [|o2 l]] eqn:E; try discriminate.
  injection H as Ho Hw. subst o1. symmetry in Hw. subst w'. split; reflexivity.
Qed.

(** With an interval that [asyncio.sleep] accepts the loop returns,
    whatever the rest of the system does meanwhile, after at most [n] more
    lookups. *)
Lemma await_loop_bounded (env : Env) (message_id await_interval : value) (n : nat) :
  sleep_delay await_interval = Ok tt ->
  forall (i : nat) (w : World),
  exists (r : option answer) (k : nat) (w' : World),
    await_loop env message_id await_interval n i w = (Ok (r, k), w')
    /\ k <= i + n
    /\ timeout_or_match env message_id w' r.
Proof.
  intros Hs. induction n as [|n IH]; intros i w.
  - exists None, i, w. split; [reflexivity|]. split; [lia | left; reflexivity].
  - cbn [await_loop]. unfold try_except_else.
    destruct (CallResult_objects_get env message_id w) as [[o|e] w1] eqn:E.
    + apply get_ok_unique in E. destruct E as (-> & Ho).
      exists (Some (answer_of o)), (S i), w.
      split; [reflexivity|]. split; [lia|].
      right. exists o. split; [reflexivity | exact Ho].
    + unfold sleep, lift. rewrite Hs. unfold bind.
      destruct (IH (S i) (elsewhere env i w1)) as (r & k & w' & Hl & Hk & Hr).
      exists r, k, w'. split; [exact Hl|]. split; [lia | exact Hr].
Qed.

(** ** The number of iterations *)

Lemma Some_inj {A} (a b : A) : Some a = Some b -> a = b.
Proof. congruence. Qed.

(** [int] truncates toward zero and [math.floor] rounds down: on a
    finite float they differ below zero only, where the loop does not
    run. *)
Lemma int_of_float_within_floor (q : spec_float) (n : Z) :
  float_floor q = Some n ->
  exists z, int_of_float q = Ok z /\ (Z.of_nat (Z.to_nat z) <= Z.max 0 n)%Z.
Proof.
  destruct q as [s|s| |s m e]; unfold float_floor, int_of_float; try discriminate.
  - intros H. apply Some_inj in H. subst n. exists 0%Z. split; [reflexivity | lia].
  - intros H. apply Some_inj in H. subst n.
    destruct e as [|p|p]; eexists; (split; [reflexivity|]); try lia.
    assert (Hp : (0 < 2 ^ Z.pos p)%Z) by (apply Z.pow_pos_nonneg; lia).
    destruct s.
    + assert (Hq : (Z.quot (Z.neg m) (2 ^ Z.pos p) <= 0)%Z).
      { change (Z.neg m) with (- Z.pos m)%Z. rewrite Z.quot_opp_l by lia.
        assert (0 <= Z.quot (Z.pos m) (2 ^ Z.pos p))%Z by (apply Z.quot_pos; lia). lia. }
      lia.
    + rewrite Z.quot_div_nonneg by lia. lia.
Qed.

(** C3, as the code has it.  Let the quotient [await_period /
    await_interval] be a finite float, of floor [n], and let
    [await_interval] be a delay that [asyncio.sleep] accepts.  Then
    [__await_response] returns: either [None], the timeout result, or
    the fields of the one CallResult that is stored under the awaited
    message id in the world it returns in; and it has looked the database
    up at most [n] times, not at all when [n] is negative, whatever the
    rest of the system does while it sleeps. *)
Theorem await_response_is_bounded (env : Env)
  (message_id await_period await_interval : value) (q : spec_float) (n : Z) (w : World) :
  truediv await_period await_interval = Ok q ->
  float_floor q = Some n ->
  sleep_delay await_interval = Ok tt ->
  exists (r : option answer) (k : nat) (w' : World),
    await_response_counted env message_id await_period await_interval w = (Ok (r, k), w')
    /\ CallHandler_await_response env message_id await_period await_interval w = (Ok r, w')
    /\ (Z.of_nat k <= Z.max 0 n)%Z
    /\ timeout_or_match env message_id w' r.
Proof.
  intros Hdiv Hfl Hs.
  destruct (int_of_float_within_floor q n Hfl) as (z & Hint & Hz).
  assert (Hc : exists r k w',
             await_response_counted env message_id await_period await_interval w
               = (Ok (r, k), w')
             /\ (Z.of_nat k <= Z.max 0 n)%Z /\ timeout_or_match env message_id w' r).
  { unfold await_response_counted, bind, lift. rewrite Hdiv, Hint.
    destruct (await_loop_bounded env message_id await_interval (Z.to_nat z) Hs 0 w)
      as (r & k & w' & Hl & Hk & Hr).
    rewrite Hl. destruct r as [a|]; cbn [fst].
    - exists (Some a), k, w'. split; [reflexivity|]. split; [lia | exact Hr].
    - eexists None, k, _. split; [reflexivity|]. split; [lia | left; reflexivity]. }
  destruct Hc as (r & k & w' & Hl & Hk & Hr).
  exists r, k, w'. split; [exact Hl|]. split; [|split; assumption].
  unfold CallHandler_await_response, bind. rewrite Hl. reflexivity.
Qed.

(** Ten seconds awaited in steps of 0.2 seconds: at most 50 lookups. *)
Lemma await_response_is_bounded_witness :
  exists (r : option answer) (k : nat) (w' : World),
    await_response_counted env0 (VStr "X") (VInt 10) (VFloat float_0_2) world_issued
      = (Ok (r, k), w')
    /\ CallHandler_await_response env0 (VStr "X") (VInt 10) (VFloat float_0_2) world_issued
      = (Ok r, w')
    /\ (Z.of_nat k <= Z.max 0 50)%Z
    /\ timeout_or_match env0 (VStr "X") w' r.
Proof.
  exact (await_response_is_bounded env0 (VStr "X") (VInt 10) (VFloat float_0_2)
           (float_div (float_of_Z 10) float_0_2) 50 world_issued
           eq_refl eq_refl eq_refl).
Defined.

(** C3, as the specification states it, fails: with the positive interval
    of one second, a timeout of [10 ** 400] seconds makes the division
    raise [OverflowError], and so does the timeout [float("inf")] with the
    interval 0.2, at the conversion of the quotient; with the timeout
    [10 ** 400] and the positive interval [10 ** 399] the quotient is 10,
    and [asyncio.sleep] raises [OverflowError] after the first lookup.  The
    caller is given no return value. *)
Lemma await_of_huge_numbers_raises :
  CallHandler_await_response env0 (VStr "X") (VInt (10 ^ 400)) (VInt 1) world_issued
  = (Raise OverflowError, world_issued)
  /\ CallHandler_await_response env0 (VStr "X") (VFloat (S754_infinity false))
       (VFloat float_0_2) world_issued
     = (Raise OverflowError, world_issued)
  /\ truediv (VInt (10 ^ 400)) (VInt (10 ^ 399)) = Ok (float_of_Z 10)
  /\ CallHandler_await_response env0 (VStr "X") (VInt (10 ^ 400)) (VInt (10 ^ 399))
       world_issued
     = (Raise OverflowError, world_issued).
Proof. repeat split; vm_compute; reflexivity. Qed.

(** A float on which [__await_response] sleeps is finite: with an
    interval of [+inf] or NaN the quotient is zero or NaN, and no
    iteration runs. *)
Lemma slept_float_is_finite (await_period : value) (f q : spec_float) (n : Z) :
  truediv await_period (VFloat f) = Ok q ->
  int_of_float q = Ok n ->
  (0 < n)%Z ->
  exists s m e, f = S754_finite s m e.
Proof.
  unfold truediv.
  assert (Hmixed : (x <~ float_operand await_period ;;
                    y <~ float_operand (VFloat f) ;;
                    if is_zero y then Raise ZeroDivisionError else Ok (float_div x y))%result
                   = Ok q ->
                   int_of_float q = Ok n -> (0 < n)%Z -> exists s m e, f = S754_finite s m e).
  { destruct (float_operand await_period) as [x|]; [|discriminate]. cbn [rbind float_operand].
    destruct f as [s|s| |s m e]; cbn [is_zero]; try discriminate.
    - intros H. injection H as <-.
      destruct x as [sx|sx| |sx mx ex]; cbn; intros H Hn;
        try discriminate H; injection H as <-; lia.
    - intros H. injection H as <-.
      destruct x as [sx|sx| |sx mx ex]; cbn; intros H Hn; discriminate H.
    - intros _ _ _. exists s, m, e. reflexivity. }
  destruct (int_operand await_period); cbn [int_operand]; exact Hmixed.
Qed.

(** ** Saving rows *)

Lemma existsb_false {A} (f : A -> bool) (l : list A) :
  (forall x, In x l -> f x = false) -> existsb f l = false.
Proof.
  induction l as [|a l IH]; intros H; [reflexivity|].
  simpl. rewrite (H a (or_introl eq_refl)). apply IH.
  intros x Hx. apply H. right. exact Hx.
Qed.

Lemma map_replace_same {A} (f : A -> bool) (c : A) (l : list A) :
  (forall x, In x l -> f x = true -> x = c) ->
  map (fun x => if f x then c else x) l = l.
Proof.
  induction l as [|a l IH]; intros H; [reflexivity|].
  simpl. rewrite IH by (intros x Hx; apply H; right; exact Hx).
  destruct (f a) eqn:E; [|reflexivity].
  rewrite (H a (or_introl eq_refl) E). reflexivity.
Qed.

Lemma map_replace_none {A} (f : A -> bool) (c : A) (l : list A) :
  (forall x, In x l -> f x = false) ->
  map (fun x => if f x then c else x) l = l.
Proof.
  intros H. apply map_replace_same. intros x Hx E. rewrite (H x Hx) in E. discriminate.
Qed.

Lemma opt_nat_eqb_eq (a b : option nat) : opt_nat_eqb a b = true <-> a = b.
Proof.
  destruct a as [x|], b as [y|]; simpl; split; intros H;
    try discriminate; try reflexivity.
  - apply Nat.eqb_eq in H. congruence.
  - injection H as ->. apply Nat.eqb_refl.
Qed.

Lemma opt_nat_eqb_neq (a b : option nat) : opt_nat_eqb a b = false <-> a <> b.
Proof.
  split.
  - intros H E. apply opt_nat_eqb_eq in E. congruence.
  - intros H. destruct (opt_nat_eqb a b) eqn:E; [|reflexivity].
    apply opt_nat_eqb_eq in E. contradiction.
Qed.

(** The key of an inserted row is the key of no stored row. *)
Lemma next_pk_fresh {R} (pk : R -> option nat) (t : list R) (x : R) :
  In x t -> has_pk pk (next_pk pk t) x = false.
Proof.
  intros Hin. unfold has_pk. apply opt_nat_eqb_neq. intros E.
  assert (Hle : pk_or_0 pk x <= list_max (map (pk_or_0 pk) t)).
  { assert (Hall : Forall (fun k => k <= list_max (map (pk_or_0 pk) t)) (map (pk_or_0 pk) t))
      by (apply list_max_le; lia).
    rewrite Forall_forall in Hall. apply Hall. apply in_map. exact Hin. }
  unfold next_pk in E. unfold pk_or_0 at 1 in Hle. rewrite E in Hle. lia.
Qed.

Lemma Call_save_update (o : CallObj) (i : nat) (w : World) :
  c_pk o = Some i ->
  link_taken c_pk c_call_result_obj (db_calls w) o = false ->
  existsb (has_pk c_pk i) (db_calls w) = true ->
  Call_save o w
  = (Ok o, mk_World (map (fun x => if has_pk c_pk i x then o else x) (db_calls w))
                    (db_results w) (sent w) (logged w) (clock_reads w) (random_draws w)).
Proof.
  intros Hpk Hl He. unfold Call_save, table_save. rewrite Hl, Hpk, He. reflexivity.
Qed.

Lemma CallResult_save_insert (o : CallResultObj) (w : World) :
  r_pk o = None ->
  link_taken r_pk r_call_obj (db_results w) o = false ->
  CallResult_save o w
  = (Ok (r_set_pk (next_pk r_pk (db_results w)) o),
     mk_World (db_calls w) (db_results w ++ [r_set_pk (next_pk r_pk (db_results w)) o])
              (sent w) (logged w) (clock_reads w) (random_draws w)).
Proof.
  intros Hpk Hl. unfold CallResult_save, table_save. rewrite Hl, Hpk. reflexivity.
Qed.

Lemma CallResult_save_update (o : CallResultObj) (i : nat) (w : World) :
  r_pk o = Some i ->
  link_taken r_pk r_call_obj (db_results w) o = false ->
  existsb (has_pk r_pk i) (db_results w) = true ->
  CallResult_save o w
  = (Ok o, mk_World (db_calls w)
                    (map (fun x => if has_pk r_pk i x then o else x) (db_results w))
                    (sent w) (logged w) (clock_reads w) (random_draws w)).
Proof.
  intros Hpk Hl He. unfold CallResult_save, table_save. rewrite Hl, Hpk, He. reflexivity.
Qed.

(** Linking a new result to a stored call that has none: the result is
    inserted under a fresh key, the call gets that key, and no other row
    of either table changes. *)
Lemma save_and_link_new_result (c : CallObj) (r : CallResultObj) (i : nat) (w : World) :
  In c (db_calls w) ->
  c_pk c = Some i ->
  (forall x, In x (db_calls w) -> c_pk x = Some i -> x = c) ->
  c_call_result_obj c = None ->
  r_pk r = None ->
  r_call_obj r = Some i ->
  (forall x, In x (db_results w) -> r_call_obj x <> Some i) ->
  (forall x, In x (db_calls w) -> c_call_result_obj x <> Some (next_pk r_pk (db_results w))) ->
  save_and_link_call_and_result (Ok c) (Ok r) w
  = (Ok tt,
     mk_World (map (fun x => if has_pk c_pk i x
                             then c_set_call_result_obj (Some (next_pk r_pk (db_results w))) c
                             else x) (db_calls w))
              (db_results w ++ [r_set_pk (next_pk r_pk (db_results w)) r])
              (sent w) (logged w) (clock_reads w) (random_draws w)).
Proof.
  intros Hin Hpk Huniq Hpend Hrpk Hrlink Hnores Hfresh.
  set (k := next_pk r_pk (db_results w)).
  assert (Hex : existsb (has_pk c_pk i) (db_calls w) = true).
  { apply existsb_exists. exists c. split; [exact Hin|].
    unfold has_pk. apply opt_nat_eqb_eq. exact Hpk. }
  assert (Hsame : map (fun x => if has_pk c_pk i x then c else x) (db_calls w) = db_calls w).
  { apply map_replace_same. intros x Hx E. apply Huniq; [exact Hx|].
    unfold has_pk in E. apply opt_nat_eqb_eq in E. exact E. }
  unfold save_and_link_call_and_result, save_instance.
  (* call_obj.save() *)
  rewrite (bind_ok _ _ w _ _ (Call_save_update c i w Hpk
             ltac:(unfold link_taken; rewrite Hpend; reflexivity) Hex)).
  rewrite Hsame.
  (* call_result_obj.save() *)
  erewrite bind_ok.
  2:{ apply CallResult_save_insert; [exact Hrpk|].
      unfold link_taken. rewrite Hrlink. apply existsb_false.
      intros x Hx. cbn [db_results] in Hx.
      apply andb_false_intro1. apply opt_nat_eqb_neq. apply Hnores. exact Hx. }
  cbn [db_calls db_results sent logged clock_reads random_draws]. fold k.
  (* call_obj.save(), linked *)
  erewrite bind_ok.
  2:{ apply (Call_save_update _ i).
      - cbn. exact Hpk.
      - unfold link_taken. cbn [c_call_result_obj c_set_call_result_obj r_pk r_set_pk].
        apply existsb_false. intros x Hx. cbn [db_calls] in Hx.
        apply andb_false_intro1. apply opt_nat_eqb_neq. apply Hfresh. exact Hx.
      - cbn [db_calls]. exact Hex. }
  cbn [db_calls db_results sent logged clock_reads random_draws].
  (* call_result_obj.save(), linked *)
  erewrite bind_ok.
  2:{ apply (CallResult_save_update _ k).
      - reflexivity.
      - unfold link_taken.
        cbn [db_results r_call_obj r_set_call_obj r_pk r_set_pk c_pk c_set_call_result_obj].
        rewrite Hpk. rewrite existsb_app. apply orb_false_intro.
        + apply existsb_false. intros x Hx.
          apply andb_false_intro1. apply opt_nat_eqb_neq. apply Hnores. exact Hx.
        + cbn. rewrite Nat.eqb_refl. rewrite andb_false_r. reflexivity.
      - cbn [db_results]. rewrite existsb_app. apply orb_true_intro. right.
        cbn. rewrite Nat.eqb_refl. reflexivity. }
  cbn [db_calls db_results sent logged clock_reads random_draws].
  unfold ret. f_equal. f_equal.
  rewrite map_app.
  rewrite map_replace_none by (intros x Hx; apply next_pk_fresh; exact Hx).
  cbn [map]. unfold has_pk at 1. cbn [r_pk r_set_pk opt_nat_eqb]. fold k.
  rewrite Nat.eqb_refl.
  cbn [r_set_call_obj r_set_pk r_pk r_message_type_id r_message_id r_payload r_charger_id
       r_direction r_call_obj c_pk c_set_call_result_obj].
  rewrite Hpk. unfold r_set_pk. rewrite Hrlink. reflexivity.
Qed.

(** ** Correlation *)

Lemma get_other_id_unchanged (env : Env) (m' : value) (o : CallResultObj) (w w' : World) :
  db_results w' = db_results w ++ [o] ->
  column_is env (r_message_id o) m' = false ->
  fst (CallResult_objects_get env m' w') = fst (CallResult_objects_get env m' w).
Proof.
  intros Hr Hne. unfold CallResult_objects_get. cbn [fst]. rewrite Hr, filter_app.
  cbn [filter]. rewrite Hne, app_nil_r. reflexivity.
Qed.

Lemma get_new_id (env : Env) (m : value) (o : CallResultObj) (w w' : World) :
  db_results w' = db_results w ++ [o] ->
  column_is env (r_message_id o) m = true ->
  (forall x, In x (db_results w) -> column_is env (r_message_id x) m = false) ->
  fst (CallResult_objects_get env m w') = Ok o.
Proof.
  intros Hr He Hno. unfold CallResult_objects_get. cbn [fst]. rewrite Hr, filter_app.
  rewrite filter_none by exact Hno.
  cbn [filter app]. rewrite He. reflexivity.
Qed.

(** C2, as the code has it.  An inbound CallResult of correlation id [m],
    from whichever charger, is linked to exactly one stored call: the
    first stored Call whose message id is [m], whatever charger it was
    issued to, provided that call has no result yet, the payload is not
    [None] and the tables are consistent.  The result is
    stored under the charger that sent it, no other stored call changes,
    the lookups of every other message id answer as before, and the
    lookup of [m] finds the new result when no result of that id was
    stored before: stored calls and lookups are keyed by the correlation
    id alone. *)
Theorem call_result_links_first_call_of_id (env : Env) (charger_id : string)
  (message_id payload : value) (c : CallObj) (others : list CallObj) (i : nat) (w : World) :
  db_consistent w ->
  filter (fun x => column_is env (c_message_id x) message_id) (db_calls w) = c :: others ->
  is_None payload = false ->
  c_pk c = Some i ->
  c_call_result_obj c = None ->
  (forall x, In x (db_results w) -> r_call_obj x <> Some i) ->
  let k := next_pk r_pk (db_results w) in
  let result :=
    mk_CallResult (Some k) 3 (py_str env message_id) (py_str env payload)
                  charger_id "C2S" (Some i) in
  exists w' : World,
    OcppConsumer_receive env charger_id (VList [VInt 3; message_id; payload]) w = (Ok tt, w')
    /\ db_results w' = db_results w ++ [result]
    /\ db_calls w'
       = map (fun x => if has_pk c_pk i x then c_set_call_result_obj (Some k) c else x)
             (db_calls w)
    /\ (forall x, In x (db_calls w) -> x <> c -> In x (db_calls w'))
    /\ sent w' = sent w
    /\ (forall m' : value,
           column_is env (py_str env message_id) m' = false ->
           fst (CallResult_objects_get env m' w') = fst (CallResult_objects_get env m' w))
    /\ ((forall x, In x (db_results w) -> column_is env (r_message_id x) message_id = false) ->
        fst (CallResult_objects_get env message_id w') = Ok result).
Proof.
  intros [Hkeys Hlinks] Hf Hpay Hpk Hpend Hnores k result.
  assert (Hin : In c (db_calls w) /\ column_is env (c_message_id c) message_id = true).
  { assert (H : In c (filter (fun x => column_is env (c_message_id x) message_id)
                             (db_calls w))) by (rewrite Hf; left; reflexivity).
    apply filter_In in H. exact H. }
  destruct Hin as [Hin Hcol].
  assert (Huniq : forall x, In x (db_calls w) -> c_pk x = Some i -> x = c).
  { intros x Hx Hxi. apply Hkeys; [exact Hx | exact Hin | congruence]. }
  assert (Hfresh : forall x, In x (db_calls w) -> c_call_result_obj x <> Some k).
  { intros x Hx E. destruct (Hlinks x k Hx E) as (r & Hr & Hrk).
    pose proof (next_pk_fresh r_pk (db_results w) r Hr) as Hn.
    unfold has_pk in Hn. apply opt_nat_eqb_neq in Hn. contradiction. }
  assert (Hmid : char_field env message_id = Some (py_str env message_id)).
  { unfold column_is in Hcol. unfold char_field in *.
    destruct (is_None message_id); [discriminate | reflexivity]. }
  assert (Hp : char_field env payload = Some (py_str env payload)).
  { unfold char_field. rewrite Hpay. reflexivity. }
  eexists. split.
  { unfold OcppConsumer_receive, OcppConsumer_receive_of, receive_call_result.
    cbn -[filter save_and_link_call_and_result column_is CallResult_new].
    unfold Call_objects_filter, bind.
    cbn -[filter save_and_link_call_and_result column_is CallResult_new]. rewrite Hf.
    cbn -[save_and_link_call_and_result char_field].
    rewrite Hmid, Hp. cbn -[save_and_link_call_and_result].
    apply (save_and_link_new_result c _ i); cbn; try assumption; reflexivity. }
  cbn [db_calls db_results sent logged clock_reads random_draws].
  unfold r_set_pk.
  cbn [r_pk r_message_type_id r_message_id r_payload r_charger_id r_direction r_call_obj
       OCPPMessageType_value].
  rewrite Hpk. fold k. fold result.
  split; [reflexivity|]. split; [reflexivity|]. split.
  { intros x Hx Hne. apply in_map_iff. exists x. split; [|exact Hx].
    destruct (has_pk c_pk i x) eqn:E; [|reflexivity].
    exfalso. apply Hne. apply Huniq; [exact Hx|].
    unfold has_pk in E. apply opt_nat_eqb_eq in E. exact E. }
  split; [reflexivity|]. split.
  - intros m' Hne. apply (get_other_id_unchanged env m' result w); [reflexivity | exact Hne].
  - intros Hno. apply (get_new_id env message_id result w); [reflexivity | | exact Hno].
    unfold column_is. rewrite Hmid. apply String.eqb_refl.
Qed.

(** With ["A1"] and ["B2"] outstanding, the result of ["A1"] is linked to
    the call ["A1"] and the call ["B2"] is unchanged. *)
Lemma call_result_links_first_call_of_id_witness :
  exists w' : World,
    OcppConsumer_receive env0 "CP2"
      (VList [VInt 3; VStr "A1"; VDict [("status", VStr "Accepted")]]) world_two_calls
      = (Ok tt, w')
    /\ db_results w'
       = [mk_CallResult (Some 1) 3 "A1" "{'status': 'Accepted'}" "CP2" "C2S" (Some 1)]
    /\ db_calls w' = [c_set_call_result_obj (Some 1) stored_call_A1; stored_call_B2].
Proof.
  destruct (call_result_links_first_call_of_id env0 "CP2" (VStr "A1")
              (VDict [("status", VStr "Accepted")]) stored_call_A1 [] 1 world_two_calls)
    as (w' & Hr & Hres & Hcalls & _).
  - split.
    + intros x y [<-|[<-|[]]] [<-|[<-|[]]] H; try reflexivity; discriminate H.
    + intros x j [<-|[<-|[]]] H; discriminate H.
  - reflexivity.
  - reflexivity.
  - reflexivity.
  - reflexivity.
  - intros x [].
  - exists w'. split; [exact Hr|]. split; [exact Hres | exact Hcalls].
Defined.

(** C2, as the specification states it, fails: with the calls ["A1"] to
    ["CP1"] and ["B2"] to ["CP2"] outstanding, the CallResult
    [[3, "A1", {"status": "Accepted"}]] that charger ["CP2"] sends resolves
    the call issued to ["CP1"]: that call is linked to the result stored
    under ["CP2"], and the caller awaiting ["A1"] is given it. *)
Lemma call_result_of_another_charger_resolves :
  map (fun c => (c_message_id c, c_charger_id c, c_call_result_obj c))
      (db_calls (snd (OcppConsumer_receive env0 "CP2"
                        (VList [VInt 3; VStr "A1"; VDict [("status", VStr "Accepted")]])
                        world_two_calls)))
  = [("A1", "CP1", Some 1); ("B2", "CP2", None)]
  /\ map (fun r => (r_pk r, r_message_id r, r_charger_id r))
         (db_results (snd (OcppConsumer_receive env0 "CP2"
                             (VList [VInt 3; VStr "A1"; VDict [("status", VStr "Accepted")]])
                             world_two_calls)))
     = [(Some 1, "A1", "CP2")]
  /\ fst (CallHandler_await_response env0 (VStr "A1") (VInt 10) (VFloat float_0_2)
            (snd (OcppConsumer_receive env0 "CP2"
                    (VList [VInt 3; VStr "A1"; VDict [("status", VStr "Accepted")]])
                    world_two_calls)))
     = Ok (Some (3%Z, "A1", "{'status': 'Accepted'}")).
Proof. repeat split. Qed.

(** ** The key invariants are kept *)

Lemma db_consistent_same_db (w w' : World) :
  db_calls w' = db_calls w -> db_results w' = db_results w ->
  db_consistent w -> db_consistent w'.
Proof. unfold db_consistent. intros -> ->. exact (fun H => H). Qed.

Lemma Call_save_consistent (o : CallObj) (w : World) :
  db_consistent w -> link_resolves w o -> db_consistent (snd (Call_save o w)).
Proof.
  intros [Hkeys Hlinks] Ho. unfold Call_save, table_save.
  destruct (link_taken c_pk c_call_result_obj (db_calls w) o); [split; assumption|].
  destruct (c_pk o) as [i|] eqn:Epk.
  - destruct (existsb (has_pk c_pk i) (db_calls w)) eqn:Eex; cbn [snd]; split; cbn.
    + intros x y Hx Hy Hxy.
      apply in_map_iff in Hx. destruct Hx as (x0 & <- & Hx0).
      apply in_map_iff in Hy. destruct Hy as (y0 & <- & Hy0).
      destruct (has_pk c_pk i x0) eqn:Ex, (has_pk c_pk i y0) eqn:Ey; try reflexivity.
      * exfalso. rewrite Epk in Hxy. symmetry in Hxy.
        apply opt_nat_eqb_eq in Hxy. unfold has_pk in Ey. congruence.
      * exfalso. rewrite Epk in Hxy.
        apply opt_nat_eqb_eq in Hxy. unfold has_pk in Ex. congruence.
      * apply Hkeys; assumption.
    + intros x j Hx Hj.
      apply in_map_iff in Hx. destruct Hx as (x0 & <- & Hx0).
      destruct (has_pk c_pk i x0); [apply Ho; exact Hj | apply (Hlinks x0); assumption].
    + intros x y Hx Hy Hxy.
      assert (Hnone : forall z, In z (db_calls w) -> c_pk z <> Some i).
      { intros z Hz E. 
        assert (Hex : existsb (has_pk c_pk i) (db_calls w) = true).
        { apply existsb_exists. exists z. split; [exact Hz|].
          unfold has_pk. apply opt_nat_eqb_eq. exact E. }
        congruence. }
      apply in_app_or in Hx. apply in_app_or in Hy.
      destruct Hx as [Hx|[<-|[]]], Hy as [Hy|[<-|[]]]; try reflexivity.
      * apply Hkeys; assumption.
      * exfalso. apply (Hnone x Hx). congruence.
      * exfalso. apply (Hnone y Hy). congruence.
    + intros x j Hx Hj. apply in_app_or in Hx.
      destruct Hx as [Hx|[<-|[]]]; [apply (Hlinks x); assumption | apply Ho; exact Hj].
  - cbn [snd]. split; cbn.
    + intros x y Hx Hy Hxy.
      assert (Hfresh : forall z, In z (db_calls w) ->
                                 c_pk z <> Some (next_pk c_pk (db_calls w))).
      { intros z Hz. pose proof (next_pk_fresh c_pk (db_calls w) z Hz) as Hn.
        unfold has_pk in Hn. apply opt_nat_eqb_neq in Hn. exact Hn. }
      apply in_app_or in Hx. apply in_app_or in Hy.
      destruct Hx as [Hx|[<-|[]]], Hy as [Hy|[<-|[]]]; try reflexivity.
      * apply Hkeys; assumption.
      * exfalso. apply (Hfresh x Hx). exact Hxy.
      * exfalso. apply (Hfresh y Hy). symmetry. exact Hxy.
    + intros x j Hx Hj. apply in_app_or in Hx.
      destruct Hx as [Hx|[<-|[]]]; [apply (Hlinks x); assumption | apply Ho; exact Hj].
Qed.

Lemma CallResult_save_consistent (o : CallResultObj) (w : World) :
  db_consistent w -> db_consistent (snd (CallResult_save o w)).
Proof.
  intros [Hkeys Hlinks]. unfold CallResult_save, table_save.
  destruct (link_taken r_pk r_call_obj (db_results w) o); [split; assumption|].
  assert (Hgrow : forall o', db_consistent
                    (mk_World (db_calls w) (db_results w ++ [o']) (sent w) (logged w)
                              (clock_reads w) (random_draws w))).
  { intros o'. split; cbn; [exact Hkeys|].
    intros x j Hx Hj. destruct (Hlinks x j Hx Hj) as (r & Hr & Hrj).
    exists r. split; [apply in_or_app; left; exact Hr | exact Hrj]. }
  destruct (r_pk o) as [i|] eqn:Epk; [|apply Hgrow].
  destruct (existsb (has_pk r_pk i) (db_results w)); [|apply Hgrow].
  cbn [snd]. split; cbn; [exact Hkeys|].
  intros x j Hx Hj. destruct (Hlinks x j Hx Hj) as (r & Hr & Hrj).
  destruct (has_pk r_pk i r) eqn:E.
  - exists o. split.
    + apply in_map_iff. exists r. rewrite E. split; [reflexivity | exact Hr].
    + unfold has_pk in E. apply opt_nat_eqb_eq in E. congruence.
  - exists r. split; [|exact Hrj].
    apply in_map_iff. exists r. rewrite E. split; [reflexivity | exact Hr].
Qed.

(** A saved result is a stored row, under the key it carries. *)
Lemma CallResult_save_stored (o o' : CallResultObj) (w w' : World) :
  CallResult_save o w = (Ok o', w') -> In o' (db_results w').
Proof.
  unfold CallResult_save, table_save.
  destruct (link_taken r_pk r_call_obj (db_results w) o); [discriminate|].
  destruct (r_pk o) as [i|] eqn:Epk.
  - destruct (existsb (has_pk r_pk i) (db_results w)) eqn:Eex;
      intros H; injection H as <- <-; cbn.
    + apply existsb_exists in Eex. destruct Eex as (r & Hr & Hri).
      apply in_map_iff. exists r. rewrite Hri. split; [reflexivity | exact Hr].
    + apply in_or_app. right. left. reflexivity.
  - intros H. injection H as <- <-. cbn. apply in_or_app. right. left. reflexivity.
Qed.

(** Saving the two instances and linking them keeps the invariants. *)
Lemma save_and_link_consistent (oc : Result CallObj) (orr : Result CallResultObj)
  (w : World) :
  db_consistent w ->
  (forall c, oc = Ok c -> link_resolves w c) ->
  db_consistent (snd (save_and_link_call_and_result oc orr w)).
Proof.
  intros Hw Hoc. unfold save_and_link_call_and_result, bind.
  destruct oc as [c|e]; [|exact Hw]. cbn [save_instance].
  pose proof (Call_save_consistent c w Hw (Hoc c eq_refl)) as H1.
  destruct (Call_save c w) as [[c1|e1] w1]; cbn [snd] in H1; [|exact H1].
  destruct orr as [r|e]; [|exact H1]. cbn [save_instance].
  pose proof (CallResult_save_consistent r w1 H1) as H2.
  destruct (CallResult_save r w1) as [[r1|e2] w2] eqn:E2; cbn [snd] in H2; [|exact H2].
  assert (Hres : link_resolves w2 (c_set_call_result_obj (r_pk r1) c1)).
  { intros j Hj. cbn in Hj. exists r1. split; [|exact Hj].
    apply (CallResult_save_stored r r1 w1 w2 E2). }
  pose proof (Call_save_consistent _ w2 H2 Hres) as H3.
  destruct (Call_save (c_set_call_result_obj (r_pk r1) c1) w2) as [[c3|e3] w3];
    cbn [snd] in H3; [|exact H3].
  pose proof (CallResult_save_consistent
                (r_set_call_obj (c_pk (c_set_call_result_obj (r_pk r1) c1)) r1) w3 H3) as H4.
  destruct (CallResult_save _ w3) as [[r4|e4] w4]; cbn [snd] in H4; exact H4.
Qed.

Lemma keeps_ret {A} (a : A) : keeps (ret a).
Proof. intros w H. exact H. Qed.

Lemma keeps_raise {A} (e : exn) : keeps (@raise A e).
Proof. intros w H. exact H. Qed.

Lemma keeps_lift {A} (r : Result A) : keeps (lift r).
Proof. intros w H. exact H. Qed.

Lemma keeps_logger (l : level) (msg : string) : keeps (logger l msg).
Proof. intros w H. exact H. Qed.

Lemma keeps_utcnow (env : Env) : keeps (utcnow env).
Proof. intros w H. exact H. Qed.

Lemma keeps_bind {A B} (m : M A) (k : A -> M B) :
  keeps m -> (forall a, keeps (k a)) -> keeps (bind m k).
Proof.
  intros Hm Hk w Hw. unfold bind. specialize (Hm w Hw).
  destruct (m w) as [[a|e] w1]; cbn [snd] in Hm; [apply Hk; exact Hm | exact Hm].
Qed.

Lemma keeps_try_except_else {A B} (body : M A) (handler : exn -> M B) (orelse : A -> M B) :
  keeps body -> (forall e, keeps (handler e)) -> (forall a, keeps (orelse a)) ->
  keeps (try_except_else body handler orelse).
Proof.
  intros Hb Hh Ho w Hw. unfold try_except_else. specialize (Hb w Hw).
  destruct (body w) as [[a|e] w1]; cbn [snd] in Hb; [apply Ho | apply Hh]; exact Hb.
Qed.

Lemma keeps_group_send (group : string) (frame : value) : keeps (group_send group frame).
Proof.
  unfold group_send. apply keeps_bind; [apply keeps_lift|].
  intros text w H. exact H.
Qed.

Lemma keeps_Callbacks_call (env : Env) (action : OCPPCommands) (m p : value) :
  keeps (Callbacks_call env action m p).
Proof.
  intros w H.
  destruct (Callbacks_call_frame env action m p w) as (_ & Hc & Hr & _).
  exact (db_consistent_same_db w _ Hc Hr H).
Qed.

Lemma Call_new_unlinked (env : Env) (t m a p : value) (cid dir : string) (c : CallObj) :
  Call_new env t m a p cid dir = Ok c -> c_call_result_obj c = None.
Proof.
  unfold Call_new.
  destruct (integer_field t); [|discriminate].
  destruct (not_null (char_field env m)); [|discriminate].
  destruct (not_null (char_field env a)); [|discriminate].
  destruct (not_null (char_field env p)); [|discriminate].
  cbn. intros H. injection H as <-. reflexivity.
Qed.

Lemma keeps_save_and_link_unlinked (oc : Result CallObj) (orr : Result CallResultObj) :
  (forall c, oc = Ok c -> c_call_result_obj c = None) ->
  keeps (save_and_link_call_and_result oc orr).
Proof.
  intros Hoc w Hw. apply save_and_link_consistent; [exact Hw|].
  intros c Hc j Hj. rewrite (Hoc c Hc) in Hj. discriminate.
Qed.

Lemma keeps_receive_call (env : Env) (charger_id : string) (t : OCPPMessageType)
  (message : value) : keeps (receive_call env charger_id t message).
Proof.
  unfold receive_call, receive_call_of.
  repeat first
    [ apply keeps_save_and_link_unlinked; intros c Hc;
      exact (Call_new_unlinked _ _ _ _ _ _ _ _ Hc)
    | apply keeps_logger | apply keeps_lift | apply keeps_utcnow | apply keeps_ret
    | apply keeps_group_send | apply keeps_Callbacks_call
    | apply keeps_bind; [|intros ?]
    | apply keeps_try_except_else; [| intros [] | intros ?] ].
Qed.

Lemma keeps_receive_call_result (env : Env) (charger_id : string) (t : OCPPMessageType)
  (message : value) : keeps (receive_call_result env charger_id t message).
Proof.
  intros w Hw. unfold receive_call_result, bind, logger, lift. cbn [snd fst].
  destruct (slice_from_1 message) as [rest|e]; [|exact Hw].
  destruct (unpack2 rest) as [[message_id payload]|e]; [|exact Hw].
  unfold Call_objects_filter. cbn [db_calls].
  destruct (filter (fun c => column_is env (c_message_id c) message_id) (db_calls w))
    as [|c others] eqn:E; [exact Hw|].
  unfold utcnow.
  apply save_and_link_consistent; [exact Hw|].
  intros c' Hc'. injection Hc' as <-.
  assert (Hin : In c (db_calls w)).
  { assert (H : In c (filter (fun c => column_is env (c_message_id c) message_id)
                             (db_calls w))) by (rewrite E; left; reflexivity).
    apply filter_In in H. apply H. }
  intros j Hj. destruct Hw as [_ Hlinks]. exact (Hlinks c j Hin Hj).
Qed.

(** Whatever frame arrives, [receive] leaves the tables consistent: the
    invariants hold in every world that the handling of frames reaches
    from the empty tables. *)
Lemma receive_keeps_consistency (env : Env) (charger_id : string) (message : value) :
  keeps (OcppConsumer_receive env charger_id message).
Proof.
  unfold_receive.
  apply keeps_bind; [apply keeps_logger | intros _].
  apply keeps_bind.
  - unfold try_except. apply keeps_try_except_else.
    + apply keeps_bind; [apply keeps_lift | intros v].
      apply keeps_bind; [apply keeps_lift | intros t]. apply keeps_ret.
    + intros e. apply keeps_bind; [apply keeps_lift | intros _].
      apply keeps_bind; [apply keeps_logger | intros _]. apply keeps_ret.
    + intros a. apply keeps_ret.
  - intros [t|]; (apply keeps_bind; [unfold read_local; first [apply keeps_ret | apply keeps_raise] | intros t']).
    + destruct t'; cbn [OCPPMessageType_eqb];
        [apply keeps_receive_call | apply keeps_receive_call_result | apply keeps_logger].
    + destruct t'; cbn [OCPPMessageType_eqb];
        [apply keeps_receive_call | apply keeps_receive_call_result | apply keeps_logger].
Qed.

Lemma save_call_keeps_consistency (env : Env) (message_type : OCPPMessageType)
  (message_id : value) (action : OCPPCommands) (payload : value) (charger_id : string) :
  keeps (CallHandler_save_call env message_type message_id action payload charger_id).
Proof.
  unfold CallHandler_save_call.
  apply keeps_bind; [apply keeps_utcnow | intros _].
  intros w Hw. destruct (Call_new env _ _ _ _ _ _) as [c|e] eqn:E; [|exact Hw].
  cbn [save_instance]. apply Call_save_consistent; [exact Hw|].
  intros j Hj. rewrite (Call_new_unlinked _ _ _ _ _ _ _ _ E) in Hj. discriminate.
Qed.

Lemma empty_world_consistent : db_consistent empty_world.
Proof. split; [intros x y [] | intros x j []]. Qed.

(** The worlds of the examples are consistent: they are reached from the
    empty tables by [__save_call]. *)
Lemma world_two_calls_consistent : db_consistent world_two_calls.
Proof.
  unfold world_two_calls.
  apply save_call_keeps_consistency, save_call_keeps_consistency, empty_world_consistent.
Qed.

(** * Further properties of the code *)

(** ** The enums *)

Lemma float_is_Z_functional (f : spec_float) (a b : Z) :
  float_is_Z f a = true -> float_is_Z f b = true -> a = b.
Proof.
  destruct f as [s|s| |s m e]; cbn [float_is_Z]; try discriminate.
  - intros Ha Hb. apply Z.eqb_eq in Ha, Hb. congruence.
  - destruct e as [|p|p]; intros Ha Hb; apply Z.eqb_eq in Ha, Hb.
    + congruence.
    + congruence.
    + rewrite Ha in Hb. rewrite !Z.shiftl_mul_pow2 in Hb by lia.
      apply Z.mul_reg_r in Hb; [exact Hb|].
      apply Z.pow_nonzero; lia.
Qed.

Lemma eq_int_functional (v : value) (a b : Z) :
  eq_int v a = true -> eq_int v b = true -> a = b.
Proof.
  destruct v as [|u|z|g|s|l|d|c m x|t|y m d|c d]; simpl; try discriminate.
  - intros Ha Hb. apply Z.eqb_eq in Ha, Hb. congruence.
  - intros Ha Hb. apply Z.eqb_eq in Ha, Hb. congruence.
  - apply float_is_Z_functional.
Qed.

(** X1.  [OCPPMessageType(v)] succeeds exactly on the values that compare
    equal to 2, 3 or 4 and gives the member of that value: the integers,
    and also the floats [2.0], [3.0] and [4.0]; no boolean and no string
    is a message type. *)
Theorem OCPPMessageType_call_by_value (v : value) (t : OCPPMessageType) :
  (OCPPMessageType_call v = Ok t <-> eq_int v (OCPPMessageType_value t) = true)
  /\ OCPPMessageType_call (VInt (OCPPMessageType_value t)) = Ok t
  /\ OCPPMessageType_call (VFloat (float_of_Z (OCPPMessageType_value t))) = Ok t
  /\ (forall b, OCPPMessageType_call (VBool b) = Raise ValueError)
  /\ (forall s, OCPPMessageType_call (VStr s) = Raise ValueError).
Proof.
  split; [|split; [|split; [|split]]].
  - unfold OCPPMessageType_call. split.
    + destruct (eq_int v 2) eqn:E2; [intros H; injection H as <-; exact E2|].
      destruct (eq_int v 3) eqn:E3; [intros H; injection H as <-; exact E3|].
      destruct (eq_int v 4) eqn:E4; [intros H; injection H as <-; exact E4|].
      discriminate.
    + intros H.
      destruct (eq_int v 2) eqn:E2.
      { pose proof (eq_int_functional v _ _ E2 H) as E. destruct t; try discriminate E.
        reflexivity. }
      destruct (eq_int v 3) eqn:E3.
      { pose proof (eq_int_functional v _ _ E3 H) as E. destruct t; try discriminate E.
        reflexivity. }
      destruct (eq_int v 4) eqn:E4.
      { pose proof (eq_int_functional v _ _ E4 H) as E. destruct t; try discriminate E.
        reflexivity. }
      destruct t; simpl in H; congruence.
  - destruct t; reflexivity.
  - destruct t; reflexivity.
  - intros []; reflexivity.
  - intros s. reflexivity.
Qed.

(** X2.  The action registry: [OCPPCommands[v]] succeeds exactly on the
    27 member names, spelled as declared, and gives the member of that
    name; the values that [auto()] gives the members are the numbers 1 to
    27, different for different members. *)
Theorem OCPPCommands_registry (v : value) (a b : OCPPCommands) :
  (OCPPCommands_getitem v = Ok a <-> v = VStr (OCPPCommands_name a))
  /\ (1 <= OCPPCommands_value a <= 27)%Z
  /\ (OCPPCommands_value a = OCPPCommands_value b <-> a = b).
Proof.
  split; [|split].
  - split.
    + destruct v as [|u|z|g|s|l|d|c m x|t|y m d|c d]; try discriminate.
      cbn [OCPPCommands_getitem assoc_member OCPPCommands_members].
      repeat match goal with
             | |- context [String.eqb ?n s] =>
                 let E := fresh "E" in
                 destruct (String.eqb n s) eqn:E;
                 [ apply String.eqb_eq in E; subst s; intros H; injection H as <-; reflexivity
                 | clear E ]
             end.
      discriminate.
    + intros ->. destruct a; reflexivity.
  - destruct a; vm_compute; split; discriminate.
  - split; [|intros ->; reflexivity].
    destruct a; destruct b; intros H; try reflexivity; vm_compute in H; discriminate H.
Qed.

(** ** Serialization *)

(** Induction on values, through the lists and dictionaries they hold. *)
Lemma value_nested_ind (P : value -> Prop) :
  P VNone ->
  (forall b, P (VBool b)) ->
  (forall z, P (VInt z)) ->
  (forall f, P (VFloat f)) ->
  (forall s, P (VStr s)) ->
  (forall l, Forall P l -> P (VList l)) ->
  (forall d, Forall (fun kv => P (snd kv)) d -> P (VDict d)) ->
  (forall cls member x, P x -> P (VEnum cls member x)) ->
  (forall t, P (VDateTime t)) ->
  (forall y m d, P (VDate y m d)) ->
  (forall cls data, Forall (fun kv => P (snd kv)) data -> P (VOcpp cls data)) ->
  forall v, P v.
Proof.
  intros HNone HBool HInt HFloat HStr HList HDict HEnum HDateTime HDate HOcpp.
  fix IH 1. intros v.
  destruct v as [|b|z|g|s|l|d|c m x|t|y m d|c d].
  - exact HNone.
  - apply HBool.
  - apply HInt.
  - apply HFloat.
  - apply HStr.
  - apply HList.
    exact ((fix go (l : list value) : Forall P l :=
              match l with
              | [] => Forall_nil P
              | x :: r => Forall_cons x (IH x) (go r)
              end) l).
  - apply HDict.
    exact ((fix go (d : list (string * value)) : Forall (fun kv => P (snd kv)) d :=
              match d with
              | [] => Forall_nil _
              | kv :: r => Forall_cons kv (IH (snd kv)) (go r)
              end) d).
  - apply HEnum. apply IH.
  - apply HDateTime.
  - apply HDate.
  - apply HOcpp.
    exact ((fix go (d : list (string * value)) : Forall (fun kv => P (snd kv)) d :=
              match d with
              | [] => Forall_nil _
              | kv :: r => Forall_cons kv (IH (snd kv)) (go r)
              end) d).
Qed.

Lemma dict_comprehension_keys (f : value -> Result value) (data d : dict) :
  dict_comprehension f data = Ok d -> dict_keys d = dict_keys data.
Proof.
  revert d. induction data as [|[k v] r IH]; intros d H.
  - injection H as <-. reflexivity.
  - simpl in H. destruct (f v) as [y|e]; [|discriminate]. simpl in H.
    destruct (dict_comprehension f r) as [ys|e]; [|discriminate]. simpl in H.
    injection H as <-. simpl. f_equal. apply IH. reflexivity.
Qed.

Lemma dict_comprehension_values (f : value -> Result value) (Q : value -> Prop)
  (data d : dict) :
  (forall k v y, In (k, v) data -> f v = Ok y -> Q y) ->
  dict_comprehension f data = Ok d ->
  forall k y, In (k, y) d -> Q y.
Proof.
  revert d. induction data as [|[k v] r IH]; intros d Hq H k' y' Hin.
  - injection H as <-. contradiction.
  - simpl in H. destruct (f v) as [y|e] eqn:Ef; [|discriminate]. simpl in H.
    destruct (dict_comprehension f r) as [ys|e]; [|discriminate]. simpl in H.
    injection H as <-. destruct Hin as [Heq|Hin].
    + injection Heq as _ <-. apply (Hq k v y); [left; reflexivity | exact Ef].
    + refine (IH ys _ eq_refl k' y' Hin).
      intros k0 v0 y0 H0. apply (Hq k0 v0 y0). right. exact H0.
Qed.

Lemma single_value_serialize_json (v : value) :
  forall x, enum_values_json v = true -> single_value_serialize v = Ok x ->
            json_serializable x = true.
Proof.
  induction v as [|b|z|g|s|l IH|d IH|c m v IH|t|y m d|c data IH] using value_nested_ind;
    intros x He Hs; simpl in Hs; try discriminate;
    try (injection Hs as <-; reflexivity).
  - injection Hs as <-. exact He.
  - destruct (dict_comprehension single_value_serialize data) as [d|e] eqn:E; [|discriminate].
    simpl in Hs. injection Hs as <-. simpl.
    apply forallb_forall. intros [k y] Hin. cbn [snd].
    refine (dict_comprehension_values single_value_serialize
              (fun y => json_serializable y = true) data d _ E k y Hin).
    intros k0 v0 y0 H0 Hf. rewrite Forall_forall in IH.
    apply (IH (k0, v0) H0 y0); [|exact Hf].
    simpl in He. rewrite forallb_forall in He. apply (He (k0, v0) H0).
Qed.

(** X3.  What [serialize()] returns can be sent: it is a dictionary with
    the keys of the instance's data in their order, it holds no instance,
    enum member or date any more, and [json.dumps] accepts it, the members
    of the enums having JSON values. *)
Theorem serialize_gives_json (v x : value) :
  enum_values_json v = true ->
  method_serialize v = Ok x ->
  exists (cls : string) (data d : dict),
    v = VOcpp cls data /\ x = VDict d /\ dict_keys d = dict_keys data
    /\ json_dumps x = Ok x.
Proof.
  intros He Hs.
  destruct v as [|b|z|g|s|l|d0|c m v|t|y m d0|cls data]; try discriminate.
  pose proof (single_value_serialize_json (VOcpp cls data) x He Hs) as Hj.
  cbn [method_serialize] in Hs. unfold OcppType_serialize in Hs.
  destruct (dict_comprehension single_value_serialize data) as [d|e] eqn:E; [|discriminate].
  simpl in Hs. injection Hs as <-.
  exists cls, data, d. split; [reflexivity|]. split; [reflexivity|]. split.
  - apply (dict_comprehension_keys single_value_serialize). exact E.
  - unfold json_dumps. rewrite Hj. reflexivity.
Qed.

(** The response of the [StartTransaction] handler serializes to a
    dictionary that [json.dumps] accepts. *)
Lemma serialize_gives_json_witness :
  exists (cls : string) (data d : dict),
    StartTransaction_Conf (IdTagInfo AuthorizationStatus_Accepted VNone VNone) (VInt 1)
      = VOcpp cls data
    /\ VDict [("idTagInfo", VDict [("status", VStr "Accepted")]); ("transactionId", VInt 1)]
       = VDict d
    /\ dict_keys d = dict_keys data
    /\ json_dumps
         (VDict [("idTagInfo", VDict [("status", VStr "Accepted")]); ("transactionId", VInt 1)])
       = Ok (VDict [("idTagInfo", VDict [("status", VStr "Accepted")]);
                    ("transactionId", VInt 1)]).
Proof.
  exact (serialize_gives_json
           (StartTransaction_Conf (IdTagInfo AuthorizationStatus_Accepted VNone VNone) (VInt 1))
           (VDict [("idTagInfo", VDict [("status", VStr "Accepted")]); ("transactionId", VInt 1)])
           eq_refl eq_refl).
Defined.

(** X4.  An optional field that is [None] is left out: the keys of the
    serialized instance are the names of the constructor arguments that
    are not [None], in the order of the arguments. *)
Theorem serialize_omits_None_fields (cls : string) (kwargs d : dict) :
  method_serialize (OcppType_init cls kwargs) = Ok (VDict d) ->
  dict_keys d = dict_keys (filter (fun kv => negb (is_None (snd kv))) kwargs)
  /\ (forall k, dict_get kwargs k = Some VNone -> NoDup (dict_keys kwargs) ->
                dict_get d k = None).
Proof.
  intros Hs. cbn [method_serialize OcppType_init] in Hs. unfold OcppType_serialize in Hs.
  destruct (dict_comprehension single_value_serialize
              (filter (fun kv => negb (is_None (snd kv))) kwargs)) as [d'|e] eqn:E;
    [|discriminate].
  simpl in Hs. injection Hs as <-.
  pose proof (dict_comprehension_keys single_value_serialize _ _ E) as Hk.
  split; [exact Hk|].
  intros k Hget Hnd.
  assert (Hnot : ~ In k (dict_keys d')).
  { rewrite Hk. clear E Hk d'. unfold dict_keys. intros Hin.
    apply in_map_iff in Hin. destruct Hin as ([k' v] & Hfst & Hin). cbn in Hfst. subst k'.
    apply filter_In in Hin. destruct Hin as [Hin Hv]. cbn in Hv.
    induction kwargs as [|[k0 v0] r IH]; [contradiction|].
    cbn in Hget, Hnd. inversion Hnd as [|? ? Hnotin Hnd']; subst.
    destruct (String.eqb k0 k) eqn:Ek.
    - apply String.eqb_eq in Ek. subst k0. injection Hget as ->.
      destruct Hin as [Heq|Hin].
      + injection Heq as <-. discriminate Hv.
      + apply Hnotin. apply in_map_iff. exists (k, v). split; [reflexivity | exact Hin].
    - destruct Hin as [Heq|Hin].
      + injection Heq as -> ->. rewrite String.eqb_refl in Ek. discriminate.
      + apply IH; assumption. }
  clear Hk E. induction d' as [|[k0 v0] r IH]; [reflexivity|].
  cbn. destruct (String.eqb k0 k) eqn:Ek.
  - exfalso. apply Hnot. left. apply String.eqb_eq in Ek. exact Ek.
  - apply IH. intros Hin. apply Hnot. right. exact Hin.
Qed.

(** [IdTagInfo(status = Accepted)], without parent and expiry, serializes
    to the one key [status]. *)
Lemma serialize_omits_None_fields_witness :
  dict_keys [("status", VStr "Accepted")]
  = dict_keys (filter (fun kv => negb (is_None (snd kv)))
                 [("status", AuthorizationStatus_Accepted); ("parentIdTag", VNone);
                  ("expiryDate", VNone)])
  /\ (forall k,
         dict_get [("status", AuthorizationStatus_Accepted); ("parentIdTag", VNone);
                   ("expiryDate", VNone)] k = Some VNone ->
         NoDup (dict_keys [("status", AuthorizationStatus_Accepted); ("parentIdTag", VNone);
                           ("expiryDate", VNone)]) ->
         dict_get [("status", VStr "Accepted")] k = None).
Proof.
  exact (serialize_omits_None_fields "IdTagInfo"
           [("status", AuthorizationStatus_Accepted); ("parentIdTag", VNone);
            ("expiryDate", VNone)]
           [("status", VStr "Accepted")] eq_refl).
Defined.

Lemma dict_comprehension_field_raises (data : dict) (k : string) (v : value) (e : exn) :
  In (k, v) data -> single_value_serialize v = Raise e ->
  exists e', dict_comprehension single_value_serialize data = Raise e'.
Proof.
  induction data as [|[k' v'] r IH]; intros Hin Hv.
  - contradiction.
  - destruct Hin as [Heq | Hin].
    + injection Heq as -> ->. simpl. rewrite Hv. eexists; reflexivity.
    + destruct (IH Hin Hv) as [e' He']. simpl.
      destruct (single_value_serialize v') as [y|e0].
      * simpl. rewrite He'. eexists; reflexivity.
      * eexists; reflexivity.
Qed.

(** An instance built with a field that is not [None] and cannot be
    serialized cannot be serialized. *)
Lemma init_field_raises (cls : string) (kwargs : dict) (k : string) (v : value) (e : exn) :
  In (k, v) kwargs -> is_None v = false -> single_value_serialize v = Raise e ->
  exists e', single_value_serialize (OcppType_init cls kwargs) = Raise e'.
Proof.
  intros Hin Hnn Hv.
  destruct (dict_comprehension_field_raises
              (filter (fun kv => negb (is_None (snd kv))) kwargs) k v e) as [e' He'].
  - apply filter_In. split; [exact Hin|]. cbn. rewrite Hnn. reflexivity.
  - exact Hv.
  - cbn [OcppType_init single_value_serialize]. rewrite He'. eexists; reflexivity.
Qed.

Lemma as_list_raises (v : value) : single_value_serialize (as_list v) = Raise TypeError.
Proof. destruct v; reflexivity. Qed.

(** X5.  The types whose constructor turns an argument into a list can
    never be serialized, whatever they are built from: [ChargingSchedule]
    and [GetConfiguration_Req] raise on every call of [serialize()], and
    so does every [ChargingProfile] that holds such a schedule and every
    [SetChargingProfile_Req] and [RemoteStartTransaction_Req] that holds
    such a profile. *)
Theorem list_typed_requests_never_serialize
  (chargingRateUnit chargingSchedulePeriod duration startSchedule minChargingRate key
   chargingProfileId stackLevel chargingProfilePurpose chargingProfileKind
   transactionId recurrencyKind validFrom validTo connectorId idTag : value) :
  let schedule :=
    ChargingSchedule chargingRateUnit chargingSchedulePeriod duration startSchedule
                     minChargingRate in
  let profile :=
    ChargingProfile chargingProfileId stackLevel chargingProfilePurpose chargingProfileKind
                    schedule transactionId recurrencyKind validFrom validTo in
  (exists e, method_serialize schedule = Raise e)
  /\ (exists e, method_serialize (GetConfiguration_Req key) = Raise e)
  /\ (exists e, method_serialize profile = Raise e)
  /\ (exists e, method_serialize (SetChargingProfile_Req connectorId profile) = Raise e)
  /\ (exists e, method_serialize (RemoteStartTransaction_Req idTag profile connectorId)
                = Raise e).
Proof.
  intros schedule profile.
  assert (Hs : exists e, single_value_serialize schedule = Raise e).
  { apply (init_field_raises "ChargingSchedule" _ "chargingSchedulePeriod"
             (as_list chargingSchedulePeriod) TypeError);
      [right; left; reflexivity | destruct chargingSchedulePeriod; reflexivity
      | apply as_list_raises]. }
  assert (Hp : exists e, single_value_serialize profile = Raise e).
  { destruct Hs as [e He].
    apply (init_field_raises "ChargingProfile" _ "chargingSchedule" schedule e);
      [do 4 right; left; reflexivity | reflexivity | exact He]. }
  split; [exact Hs|]. split; [|split; [exact Hp|split]].
  - apply (init_field_raises "GetConfiguration_Req" _ "key" (as_list key) TypeError);
      [left; reflexivity | destruct key; reflexivity | apply as_list_raises].
  - destruct Hp as [e He].
    apply (init_field_raises "SetChargingProfile_Req" _ "csChargingProfiles" profile e);
      [right; left; reflexivity | reflexivity | exact He].
  - destruct Hp as [e He].
    apply (init_field_raises "RemoteStartTransaction_Req" _ "chargingProfile" profile e);
      [right; left; reflexivity | reflexivity | exact He].
Qed.

(** ** The decorators *)

Lemma dict_get_key (d : dict) (k : string) (v : value) :
  dict_get d k = Some v -> str_in k (dict_keys d) = true.
Proof.
  induction d as [|[k' v'] r IH]; [discriminate|].
  cbn. rewrite (String.eqb_sym k k'). destruct (String.eqb k' k); [reflexivity|].
  intros H. apply IH. exact H.
Qed.

Lemma str_in_dict_get (d : dict) (k : string) :
  str_in k (dict_keys d) = match dict_get d k with Some _ => true | None => false end.
Proof.
  induction d as [|[k' v'] r IH]; [reflexivity|].
  cbn -[String.eqb]. rewrite (String.eqb_sym k k').
  destruct (String.eqb k' k); [reflexivity | exact IH].
Qed.

(** X6.  The wrapper of a handler gives the CallResult frame
    [[3, message_id, payload]] of the keyword argument [message_id] and
    the serialized return value, and runs the handler once. *)
Theorem call_result_decorator_frame (f : function) (args : list value) (kwargs : dict)
  (m v : value) (d : dict) (w w1 : World) :
  dict_get kwargs "message_id" = Some m ->
  f args kwargs w = (Ok v, w1) ->
  method_serialize v = Ok (VDict d) ->
  call_result_message_decorator f args kwargs w = (Ok (VList [VInt 3; m; VDict d]), w1).
Proof.
  intros Hm Hf Hs.
  unfold call_result_message_decorator, try_except, try_except_else, bind, lift, ret.
  rewrite Hf, Hs. cbn [is_dict negb].
  rewrite (dict_get_key kwargs "message_id" m Hm), Hm. reflexivity.
Qed.

(** The [Authorize] handler called as [receive] calls it. *)
Lemma call_result_decorator_frame_witness :
  call_result_message_decorator Authorize_fn []
    [("message_id", VStr "m1"); ("call_payload", VDict [("idTag", VStr "abc")])] empty_world
  = (Ok (VList [VInt 3; VStr "m1"; VDict [("idTagInfo", VDict [("status", VStr "Accepted")])]]),
     empty_world).
Proof.
  exact (call_result_decorator_frame Authorize_fn []
           [("message_id", VStr "m1"); ("call_payload", VDict [("idTag", VStr "abc")])]
           (VStr "m1") (Authorize_Conf (IdTagInfo AuthorizationStatus_Accepted VNone VNone))
           [("idTagInfo", VDict [("status", VStr "Accepted")])]
           empty_world empty_world eq_refl eq_refl eq_refl).
Defined.

(** X7.  When the first attempt of the wrapper fails, because the
    function raised or because what it returned has no [serialize] or
    cannot be serialized, the function is run a second time, in the world
    the first run left, and only this second run counts: a dictionary it
    returns is the payload as it is, any other value is a [ValueError],
    and an exception of the second run propagates. *)
Theorem decorator_runs_function_again (f : function) (args : list value) (kwargs : dict)
  (w w1 : World) :
  (exists e, f args kwargs w = (Raise e, w1))
  \/ (exists v e, f args kwargs w = (Ok v, w1) /\ method_serialize v = Raise e) ->
  call_result_message_decorator f args kwargs w
  = match f args kwargs w1 with
    | (Ok (VDict d), w2) =>
        match dict_get kwargs "message_id" with
        | Some m => (Ok (VList [VInt 3; m; VDict d]), w2)
        | None => (Raise KeyError, w2)
        end
    | (Ok _, w2) => (Raise ValueError, w2)
    | (Raise e, w2) => (Raise e, w2)
    end.
Proof.
  intros H.
  pose proof (fun _ : dict => str_in_dict_get kwargs "message_id") as Hk.
  unfold call_result_message_decorator, try_except, try_except_else, bind, lift, ret.
  destruct H as [[e Hf] | (v & e & Hf & Hs)]; rewrite Hf; [|rewrite Hs];
    (destruct (f args kwargs w1) as [[p|e'] w2]; [|reflexivity];
     destruct p as [|b|z|g|s|l|d|c m x|t|y m d|c d]; try reflexivity;
     cbn [is_dict negb]; rewrite (Hk d);
     destruct (dict_get kwargs "message_id"); reflexivity).
Qed.

(** A function that reads the clock and returns a dictionary is run
    twice: the clock has been read twice. *)
Lemma decorator_runs_function_again_witness :
  call_result_message_decorator
    (fun _ _ => (now <- utcnow env0 ;; ret (VDict [("currentTime", VStr (isoformat now))]))%monad)
    [] [("message_id", VStr "m1")] empty_world
  = (Ok (VList [VInt 3; VStr "m1"; VDict [("currentTime", VStr "2021-06-12T12:00:00")]]),
     mk_World [] [] [] [] 2 0).
Proof.
  exact (decorator_runs_function_again
           (fun _ _ => (now <- utcnow env0 ;;
                        ret (VDict [("currentTime", VStr (isoformat now))]))%monad)
           [] [("message_id", VStr "m1")] empty_world (mk_World [] [] [] [] 1 0)
           (or_intror (ex_intro _ (VDict [("currentTime", VStr "2021-06-12T12:00:00")])
                         (ex_intro _ AttributeError (conj eq_refl eq_refl))))).
Defined.

(** X8.  The wrapper for outbound calls frames a serialized payload as
    [[2, id, name, payload]], where [name] is the name of the wrapped
    function and [id] the next random message id, when the name is an
    action of the registry or is [serialize]; for any other name it raises
    [OCPPInvalidCommand], and no message id is drawn. *)
Theorem call_message_decorator_frame (env : Env) (name : string) (f : function)
  (args : list value) (kwargs : dict) (v : value) (d : dict) (w w1 : World) :
  f args kwargs w = (Ok v, w1) ->
  method_serialize v = Ok (VDict d) ->
  call_message_decorator env name f args kwargs w
  = if String.eqb name "serialize"
       || match OCPPCommands_getitem (VStr name) with Ok _ => true | Raise _ => false end
    then (Ok (VList [VInt 2; VStr (random_at env (random_draws w1)); VStr name; VDict d]),
          mk_World (db_calls w1) (db_results w1) (sent w1) (logged w1) (clock_reads w1)
                   (S (random_draws w1)))
    else (Raise OCPPInvalidCommand, w1).
Proof.
  intros Hf Hs.
  unfold call_message_decorator, try_except, try_except_else, bind, lift, ret.
  rewrite Hf, Hs. cbn [is_dict negb].
  destruct (String.eqb name "serialize"); cbn [negb orb]; [reflexivity|].
  destruct (OCPPCommands_getitem (VStr name)); reflexivity.
Qed.

(** A function named [RemoteStopTransaction] gives a Call frame; the same
    function under the name [remote_stop] is refused. *)
Lemma call_message_decorator_frame_witness :
  call_message_decorator env0 "RemoteStopTransaction"
    (fun _ _ => ret (OcppType_init "RemoteStopTransaction_Req" [("transactionId", VInt 1)]))
    [] [] empty_world
  = (Ok (VList [VInt 2; VStr "aaaaaaaaaaaaaaaa"; VStr "RemoteStopTransaction";
                VDict [("transactionId", VInt 1)]]),
     mk_World [] [] [] [] 0 1)
  /\ call_message_decorator env0 "remote_stop"
       (fun _ _ => ret (OcppType_init "RemoteStopTransaction_Req" [("transactionId", VInt 1)]))
       [] [] empty_world
     = (Raise OCPPInvalidCommand, empty_world).
Proof.
  split.
  - exact (call_message_decorator_frame env0 "RemoteStopTransaction"
             (fun _ _ => ret (OcppType_init "RemoteStopTransaction_Req"
                                [("transactionId", VInt 1)]))
             [] [] (OcppType_init "RemoteStopTransaction_Req" [("transactionId", VInt 1)])
             [("transactionId", VInt 1)] empty_world empty_world eq_refl eq_refl).
  - exact (call_message_decorator_frame env0 "remote_stop"
             (fun _ _ => ret (OcppType_init "RemoteStopTransaction_Req"
                                [("transactionId", VInt 1)]))
             [] [] (OcppType_init "RemoteStopTransaction_Req" [("transactionId", VInt 1)])
             [("transactionId", VInt 1)] empty_world empty_world eq_refl eq_refl).
Defined.

(** ** Message ids *)

Lemma random_choice_alnum (draw : nat) :
  exists c,
    random_choice (string_ascii_uppercase ++ string_ascii_lowercase ++ string_digits)%string
                  draw = Ok c
    /\ is_alnum c = true.
Proof.
  unfold random_choice.
  change (String.length (string_ascii_uppercase ++ string_ascii_lowercase ++ string_digits)%string)
    with 62.
  assert (Hlt : draw mod 62 < 62) by (apply Nat.mod_upper_bound; discriminate).
  assert (Hall : forall i, i < 62 ->
            exists c,
              match String.get i (string_ascii_uppercase ++ string_ascii_lowercase
                                    ++ string_digits)%string with
              | Some c0 => Ok c0
              | None => Raise IndexError
              end = Ok c /\ is_alnum c = true).
  { intros i Hi.
    do 62 (destruct i as [|i]; [eexists; split; reflexivity|]).
    lia. }
  apply Hall. exact Hlt.
Qed.

Lemma random_chars_alnum (draws : nat -> nat) (n : nat) :
  forall j, exists s,
    random_chars draws (string_ascii_uppercase ++ string_ascii_lowercase ++ string_digits)%string
                 n j = Ok s
    /\ String.length s = n
    /\ forallb is_alnum (list_ascii_of_string s) = true.
Proof.
  induction n as [|n IH]; intros j.
  - exists EmptyString. repeat split.
  - destruct (random_choice_alnum (draws j)) as (c & Hc & Ha).
    destruct (IH (S j)) as (s & Hs & Hl & Hf).
    exists (String c s). cbn [random_chars]. rewrite Hc. cbn [rbind]. rewrite Hs.
    cbn [rbind]. split; [reflexivity|]. split.
    + cbn. rewrite Hl. reflexivity.
    + cbn [list_ascii_of_string forallb]. rewrite Ha, Hf. reflexivity.
Qed.

(** X9.  Whatever the generator draws, [random_message_id(length)]
    returns a string of exactly [length] characters, each a letter or a
    digit, and the empty string for a length that is not positive; the 16
    characters of the default length fit the 36 of the [message_id]
    columns. *)
Theorem random_message_id_shape (draws : nat -> nat) (length : Z) :
  exists s,
    random_message_id_chars draws length = Ok s
    /\ String.length s = Z.to_nat length
    /\ forallb is_alnum (list_ascii_of_string s) = true
    /\ ((length <= 0)%Z -> s = EmptyString)
    /\ (length = 16%Z -> String.length s <= 36).
Proof.
  destruct (random_chars_alnum draws (Z.to_nat length) 0) as (s & Hs & Hl & Hf).
  exists s. split; [exact Hs|]. split; [exact Hl|]. split; [exact Hf|]. split.
  - intros Hle. destruct s; [reflexivity|].
    cbn in Hl. destruct length; try lia; discriminate Hl.
  - intros ->. rewrite Hl. cbn. lia.
Qed.

(** ** The handlers of [Call.Callbacks] *)

(** X10.  What the ten handlers answer, whatever the message id, the
    payload of the request and the state of the server: every [Authorize]
    and every [StartTransaction] is accepted, every transaction gets the
    transaction id 1, and the payload of the request is never looked
    at. *)
Theorem Callbacks_responses (env : Env) (m p : value) (w : World) :
  let now := VStr (isoformat (utcnow_at env (clock_reads w))) in
  let accepted := VDict [("status", VStr "Accepted")] in
  let reply (action : OCPPCommands) := fst (Callbacks_call env action m p w) in
  reply Authorize = Ok (VList [VInt 3; m; VDict [("idTagInfo", accepted)]])
  /\ reply BootNotification
     = Ok (VList [VInt 3; m;
                  VDict [("currentTime", now); ("interval", VInt 10);
                         ("status", VStr "Accepted")]])
  /\ reply StatusNotification = Ok (VList [VInt 3; m; VDict []])
  /\ reply StartTransaction
     = Ok (VList [VInt 3; m; VDict [("idTagInfo", accepted); ("transactionId", VInt 1)]])
  /\ reply StopTransaction = Ok (VList [VInt 3; m; VDict []])
  /\ reply MeterValues = Ok (VList [VInt 3; m; VDict []])
  /\ reply Heartbeat = Ok (VList [VInt 3; m; VDict [("currentTime", now)]])
  /\ reply FirmwareStatusNotification = Ok (VList [VInt 3; m; VDict []])
  /\ reply DiagnosticsStatusNotification = Ok (VList [VInt 3; m; VDict []])
  /\ reply DataTransfer = Ok (VList [VInt 3; m; accepted]).
Proof. repeat split. Qed.

(** A handler that exists answers with a CallResult frame of the
    request's id whose payload is a JSON dictionary; it changes nothing
    but the number of clock reads. *)
Lemma handler_response (env : Env) (action : OCPPCommands) (f : function)
  (m p : value) (w : World) :
  Callbacks_getattr env action = Ok f ->
  exists (d : dict) (n : nat),
    Callbacks_call env action m p w
    = (Ok (VList [VInt 3; m; VDict d]),
       mk_World (db_calls w) (db_results w) (sent w) (logged w) (n + clock_reads w)
                (random_draws w))
    /\ json_serializable (VDict d) = true
    /\ is_None (VDict d) = false.
Proof.
  destruct w as [dc dr se lo cl ra].
  destruct action; try discriminate; intros _;
    first [ eexists; exists 0; split; [reflexivity | split; reflexivity]
          | eexists; exists 1; split; [reflexivity | split; reflexivity] ].
Qed.

(** An action of the registry without a handler. *)
Lemma handler_missing (env : Env) (action : OCPPCommands) (e : exn) (m p : value) (w : World) :
  Callbacks_getattr env action = Raise e ->
  Callbacks_call env action m p w = (Raise AttributeError, w).
Proof. destruct action; try discriminate; reflexivity. Qed.

(** ** The dispatcher on Call frames, step by step *)

(** The world in which [receive] stores an answered Call: the response
    has been logged and sent, and the clock has been read for the two
    [sent_at] arguments. *)
Lemma receive_call_steps (env : Env) (charger_id : string) (t m a p : value)
  (rest : list value) (action : OCPPCommands) (d : dict) (w w1 : World) :
  OCPPMessageType_call t = Ok CALL ->
  OCPPCommands_getitem a = Ok action ->
  Callbacks_call env action m p (handler_world w) = (Ok (VList [VInt 3; m; VDict d]), w1) ->
  json_serializable m = true ->
  json_serializable (VDict d) = true ->
  OcppConsumer_receive env charger_id (VList (t :: m :: a :: p :: rest)) w
  = save_and_link_call_and_result
      (Call_new env (VInt 2) m (VStr (OCPPCommands_name action)) p charger_id "C2S")
      (CallResult_new env (VInt 3) m (VDict d) charger_id "S2C" None)
      (mk_World (db_calls w) (db_results w)
                (sent w ++ [(("ocpp_" ++ charger_id)%string, VList [VInt 3; m; VDict d])])
                ((logged (handler_world w) ++ [(INFO, "created the response")])
                   ++ [(INFO, "Creating the linkage")])
                (S (S (clock_reads w1))) (random_draws w)).
Proof.
  intros Ht Ha Hc Hm Hd.
  pose proof (Callbacks_call_frame env action m p (handler_world w)) as Hf.
  rewrite Hc in Hf. cbn [snd] in Hf. destruct Hf as (Hs & Hdc & Hdr & Hl & Hr).
  unfold_receive.
  cbn -[OCPPMessageType_call receive_call receive_call_result].
  unfold try_except, try_except_else, bind, lift, ret. rewrite Ht.
  cbn -[receive_call]. unfold receive_call, receive_call_of.
  cbn -[Callbacks_call save_and_link_call_and_result Call_new CallResult_new
        json_serializable String.append].
  unfold try_except_else, lift. rewrite Ha.
  unfold bind. unfold handler_world in Hc. rewrite Hc.
  unfold logger, group_send, bind, lift, json_dumps, ret.
  assert (Hj : json_serializable (VList [VInt 3; m; VDict d]) = true).
  { cbn [json_serializable forallb]. cbn [json_serializable] in Hd.
    rewrite Hm, Hd. reflexivity. }
  cbn -[save_and_link_call_and_result Call_new CallResult_new String.append
        json_serializable].
  rewrite Hj.
  cbn -[save_and_link_call_and_result Call_new CallResult_new String.append].
  cbn [handler_world logged db_calls db_results sent clock_reads random_draws] in *.
  rewrite Hs, Hdc, Hdr, Hl, Hr. reflexivity.
Qed.

(** X11.  A Call frame that names an action with a handler is answered:
    the response of the handler, a CallResult frame of the same message
    id, is sent to the group of the charger that sent the Call, and
    nothing else is sent, whatever the payload holds and whatever then
    happens when the exchange is stored. *)
Theorem handled_call_is_answered (env : Env) (charger_id : string) (m a p : value)
  (action : OCPPCommands) (f : function) (w : World) :
  OCPPCommands_getitem a = Ok action ->
  Callbacks_getattr env action = Ok f ->
  json_serializable m = true ->
  exists d : dict,
    fst (Callbacks_call env action m p (handler_world w)) = Ok (VList [VInt 3; m; VDict d])
    /\ sent (snd (OcppConsumer_receive env charger_id (VList [VInt 2; m; a; p]) w))
       = sent w ++ [(("ocpp_" ++ charger_id)%string, VList [VInt 3; m; VDict d])].
Proof.
  intros Ha Hf Hm.
  destruct (handler_response env action f m p (handler_world w) Hf) as (d & n & Hc & Hd & _).
  exists d. rewrite Hc. split; [reflexivity|].
  rewrite (receive_call_steps env charger_id (VInt 2) m a p [] action d w _
             eq_refl Ha Hc Hm Hd).
  rewrite save_and_link_sent. reflexivity.
Qed.

(** A [StatusNotification] is answered with the empty payload. *)
Lemma handled_call_is_answered_witness :
  exists d : dict,
    fst (Callbacks_call env0 StatusNotification (VStr "m7") (VDict [("status", VStr "Available")])
           (handler_world empty_world))
    = Ok (VList [VInt 3; VStr "m7"; VDict d])
    /\ sent (snd (OcppConsumer_receive env0 "CP1"
                    (VList [VInt 2; VStr "m7"; VStr "StatusNotification";
                            VDict [("status", VStr "Available")]]) empty_world))
       = [] ++ [("ocpp_CP1", VList [VInt 3; VStr "m7"; VDict d])].
Proof.
  exact (handled_call_is_answered env0 "CP1" (VStr "m7") (VStr "StatusNotification")
           (VDict [("status", VStr "Available")]) StatusNotification
           (call_result_message_decorator StatusNotification_fn) empty_world
           eq_refl eq_refl eq_refl).
Defined.

(** X12.  A Call frame whose message id or payload is JSON [null] is
    answered and then fails: the response is sent to the charger, and the
    [save()] of the received call raises [IntegrityError] out of
    [receive], with nothing stored. *)
Theorem null_call_is_answered_then_fails (env : Env) (charger_id : string) (m a p : value)
  (action : OCPPCommands) (f : function) (w : World) :
  OCPPCommands_getitem a = Ok action ->
  Callbacks_getattr env action = Ok f ->
  json_serializable m = true ->
  is_None m || is_None p = true ->
  exists (d : dict) (w' : World),
    OcppConsumer_receive env charger_id (VList [VInt 2; m; a; p]) w
    = (Raise IntegrityError, w')
    /\ sent w' = sent w ++ [(("ocpp_" ++ charger_id)%string, VList [VInt 3; m; VDict d])]
    /\ db_calls w' = db_calls w
    /\ db_results w' = db_results w.
Proof.
  intros Ha Hf Hm Hnull.
  destruct (handler_response env action f m p (handler_world w) Hf) as (d & n & Hc & Hd & _).
  exists d. eexists.
  rewrite (receive_call_steps env charger_id (VInt 2) m a p [] action d w _
             eq_refl Ha Hc Hm Hd).
  assert (Hnew : Call_new env (VInt 2) m (VStr (OCPPCommands_name action)) p charger_id "C2S"
                 = Raise IntegrityError).
  { unfold Call_new, char_field. cbn [integer_field int_operand rbind].
    destruct (is_None m); [reflexivity|]. cbn [not_null rbind is_None].
    cbn [orb] in Hnull. rewrite Hnull. reflexivity. }
  rewrite Hnew. unfold save_and_link_call_and_result, save_instance, bind, raise.
  split; [reflexivity|]. cbn. repeat split.
Qed.

(** A [Heartbeat] whose payload is [null]. *)
Lemma null_call_is_answered_then_fails_witness :
  exists (d : dict) (w' : World),
    OcppConsumer_receive env0 "CP1" (VList [VInt 2; VStr "m1"; VStr "Heartbeat"; VNone])
      empty_world
    = (Raise IntegrityError, w')
    /\ sent w' = [] ++ [("ocpp_CP1", VList [VInt 3; VStr "m1"; VDict d])]
    /\ db_calls w' = []
    /\ db_results w' = [].
Proof.
  exact (null_call_is_answered_then_fails env0 "CP1" (VStr "m1") (VStr "Heartbeat") VNone
           Heartbeat (call_result_message_decorator (Heartbeat_fn env0)) empty_world
           eq_refl eq_refl eq_refl eq_refl).
Defined.

(** ** Storing an answered call *)

Lemma Call_save_insert (o : CallObj) (w : World) :
  c_pk o = None ->
  link_taken c_pk c_call_result_obj (db_calls w) o = false ->
  Call_save o w
  = (Ok (c_set_pk (next_pk c_pk (db_calls w)) o),
     mk_World (db_calls w ++ [c_set_pk (next_pk c_pk (db_calls w)) o]) (db_results w)
              (sent w) (logged w) (clock_reads w) (random_draws w)).
Proof.
  intros Hpk Hl. unfold Call_save, table_save. rewrite Hl, Hpk. reflexivity.
Qed.

(** Saving and linking a new call and a new result: each is inserted
    under a fresh key and then refers to the other; no stored row
    changes. *)
Lemma save_and_link_new_pair (c : CallObj) (r : CallResultObj) (w : World) :
  c_pk c = None -> c_call_result_obj c = None ->
  r_pk r = None -> r_call_obj r = None ->
  (forall x, In x (db_calls w) -> c_call_result_obj x <> Some (next_pk r_pk (db_results w))) ->
  (forall x, In x (db_results w) -> r_call_obj x <> Some (next_pk c_pk (db_calls w))) ->
  save_and_link_call_and_result (Ok c) (Ok r) w
  = (Ok tt,
     mk_World (db_calls w
                 ++ [c_set_call_result_obj (Some (next_pk r_pk (db_results w)))
                       (c_set_pk (next_pk c_pk (db_calls w)) c)])
              (db_results w
                 ++ [r_set_call_obj (Some (next_pk c_pk (db_calls w)))
                       (r_set_pk (next_pk r_pk (db_results w)) r)])
              (sent w) (logged w) (clock_reads w) (random_draws w)).
Proof.
  intros Hcpk Hclink Hrpk Hrlink Hnocall Hnores.
  set (k := next_pk c_pk (db_calls w)) in *.
  set (j := next_pk r_pk (db_results w)) in *.
  unfold save_and_link_call_and_result, save_instance.
  (* call_obj.save() *)
  erewrite bind_ok.
  2:{ apply Call_save_insert; [exact Hcpk|].
      unfold link_taken. rewrite Hclink. reflexivity. }
  fold k.
  (* call_result_obj.save() *)
  erewrite bind_ok.
  2:{ apply CallResult_save_insert; [exact Hrpk|].
      unfold link_taken. rewrite Hrlink. reflexivity. }
  cbn [db_calls db_results sent logged clock_reads random_draws]. fold j.
  (* call_obj.save(), linked *)
  erewrite bind_ok.
  2:{ apply (Call_save_update _ k).
      - reflexivity.
      - unfold link_taken. cbn [c_call_result_obj c_set_call_result_obj r_pk r_set_pk db_calls].
        rewrite existsb_app. apply orb_false_intro.
        + apply existsb_false. intros x Hx.
          apply andb_false_intro1. apply opt_nat_eqb_neq. apply Hnocall. exact Hx.
        + cbn. rewrite Nat.eqb_refl. rewrite andb_false_r. reflexivity.
      - cbn [db_calls]. rewrite existsb_app. apply orb_true_intro. right.
        cbn. rewrite Nat.eqb_refl. reflexivity. }
  cbn [db_calls db_results sent logged clock_reads random_draws].
  (* call_result_obj.save(), linked *)
  erewrite bind_ok.
  2:{ apply (CallResult_save_update _ j).
      - reflexivity.
      - unfold link_taken.
        cbn [db_results r_call_obj r_set_call_obj r_pk r_set_pk c_pk c_set_call_result_obj
             c_set_pk].
        rewrite existsb_app. apply orb_false_intro.
        + apply existsb_false. intros x Hx.
          apply andb_false_intro1. apply opt_nat_eqb_neq. apply Hnores. exact Hx.
        + cbn. rewrite Nat.eqb_refl. rewrite andb_false_r. reflexivity.
      - cbn [db_results]. rewrite existsb_app. apply orb_true_intro. right.
        cbn. rewrite Nat.eqb_refl. reflexivity. }
  cbn [db_calls db_results sent logged clock_reads random_draws].
  unfold ret. f_equal. f_equal.
  - rewrite map_app.
    rewrite map_replace_none by (intros x Hx; apply next_pk_fresh; exact Hx).
    cbn [map]. unfold has_pk at 1. cbn [c_pk c_set_pk opt_nat_eqb].
    rewrite Nat.eqb_refl. reflexivity.
  - rewrite map_app.
    rewrite map_replace_none by (intros x Hx; apply next_pk_fresh; exact Hx).
    cbn [map]. unfold has_pk at 1. cbn [r_pk r_set_pk opt_nat_eqb].
    rewrite Nat.eqb_refl. reflexivity.
Qed.

(** In tables that keep their references no stored row refers to a key
    that is still to be given. *)
Lemma fresh_keys_unused (w : World) :
  db_integrity w ->
  (forall x, In x (db_calls w) -> c_call_result_obj x <> Some (next_pk r_pk (db_results w)))
  /\ (forall x, In x (db_results w) -> r_call_obj x <> Some (next_pk c_pk (db_calls w))).
Proof.
  intros ((_ & Hlinks) & _ & _ & Hback). split.
  - intros x Hx E. destruct (Hlinks x _ Hx E) as (r & Hr & Hrk).
    pose proof (next_pk_fresh r_pk (db_results w) r Hr) as Hn.
    unfold has_pk in Hn. apply opt_nat_eqb_neq in Hn. contradiction.
  - intros x Hx E. destruct (Hback x _ Hx E) as (c & Hc & Hck).
    pose proof (next_pk_fresh c_pk (db_calls w) c Hc) as Hn.
    unfold has_pk in Hn. apply opt_nat_eqb_neq in Hn. contradiction.
Qed.

(** The world that [receive] leaves after an answered Call. *)
Lemma receive_call_records (env : Env) (charger_id : string) (m a p : value)
  (action : OCPPCommands) (f : function) (w : World) :
  db_integrity w ->
  OCPPCommands_getitem a = Ok action ->
  Callbacks_getattr env action = Ok f ->
  json_serializable m = true ->
  is_None m = false ->
  is_None p = false ->
  exists (d : dict) (n : nat),
    OcppConsumer_receive env charger_id (VList [VInt 2; m; a; p]) w
    = (Ok tt,
       mk_World
         (db_calls w
            ++ [recorded_call env charger_id m p action
                  (next_pk c_pk (db_calls w)) (next_pk r_pk (db_results w))])
         (db_results w
            ++ [recorded_result env charger_id m (VDict d)
                  (next_pk c_pk (db_calls w)) (next_pk r_pk (db_results w))])
         (sent w ++ [(("ocpp_" ++ charger_id)%string, VList [VInt 3; m; VDict d])])
         ((logged (handler_world w) ++ [(INFO, "created the response")])
            ++ [(INFO, "Creating the linkage")])
         (S (S (n + clock_reads w))) (random_draws w)).
Proof.
  intros Hw Ha Hf Hm Hnm Hnp.
  destruct (handler_response env action f m p (handler_world w) Hf) as (d & n & Hc & Hd & _).
  destruct (fresh_keys_unused w Hw) as [Hnocall Hnores].
  exists d, n.
  rewrite (receive_call_steps env charger_id (VInt 2) m a p [] action d w _
             eq_refl Ha Hc Hm Hd).
  unfold Call_new, CallResult_new, char_field. rewrite Hnm, Hnp.
  cbn [integer_field int_operand rbind not_null is_None].
  rewrite save_and_link_new_pair; try reflexivity; assumption.
Qed.

(** X13.  An answered Call is recorded: when the message id and the
    payload are not [null], [receive] returns normally and has added
    exactly one row to each table, the received call (direction C2S,
    action by name) and the response it sent (direction S2C), each under a
    fresh key and each referring to the other; the rows stored before are
    unchanged. *)
Theorem answered_call_is_recorded (env : Env) (charger_id : string) (m a p : value)
  (action : OCPPCommands) (f : function) (w : World) :
  db_integrity w ->
  OCPPCommands_getitem a = Ok action ->
  Callbacks_getattr env action = Ok f ->
  json_serializable m = true ->
  is_None m = false ->
  is_None p = false ->
  exists (d : dict) (w' : World),
    OcppConsumer_receive env charger_id (VList [VInt 2; m; a; p]) w = (Ok tt, w')
    /\ sent w' = sent w ++ [(("ocpp_" ++ charger_id)%string, VList [VInt 3; m; VDict d])]
    /\ db_calls w'
       = db_calls w
           ++ [recorded_call env charger_id m p action
                 (next_pk c_pk (db_calls w)) (next_pk r_pk (db_results w))]
    /\ db_results w'
       = db_results w
           ++ [recorded_result env charger_id m (VDict d)
                 (next_pk c_pk (db_calls w)) (next_pk r_pk (db_results w))].
Proof.
  intros Hw Ha Hf Hm Hnm Hnp.
  destruct (receive_call_records env charger_id m a p action f w Hw Ha Hf Hm Hnm Hnp)
    as (d & n & Hr).
  exists d. eexists. split; [exact Hr|].
  cbn [sent db_calls db_results]. split; [reflexivity|]. split; reflexivity.
Qed.

(** The first [BootNotification] that a server with empty tables
    receives. *)
Lemma answered_call_is_recorded_witness :
  exists (d : dict) (w' : World),
    OcppConsumer_receive env0 "CP1"
      (VList [VInt 2; VStr "msg1"; VStr "BootNotification"; VDict []]) empty_world
    = (Ok tt, w')
    /\ sent w' = [] ++ [("ocpp_CP1", VList [VInt 3; VStr "msg1"; VDict d])]
    /\ db_calls w' = [] ++ [recorded_call env0 "CP1" (VStr "msg1") (VDict []) BootNotification 1 1]
    /\ db_results w' = [] ++ [recorded_result env0 "CP1" (VStr "msg1") (VDict d) 1 1].
Proof.
  refine (answered_call_is_recorded env0 "CP1" (VStr "msg1") (VStr "BootNotification")
            (VDict []) BootNotification
            (call_result_message_decorator (BootNotification_fn env0)) empty_world
            _ eq_refl eq_refl eq_refl eq_refl eq_refl).
  split; [split|split; [|split]]; cbn; intros; contradiction.
Defined.

(** ** Referential integrity is kept *)

(** A saved call is a stored row with a key, and every key of the table
    stays a key of the table. *)
Lemma Call_save_stored (o o' : CallObj) (w w' : World) :
  Call_save o w = (Ok o', w') ->
  In o' (db_calls w') /\ c_pk o' <> None /\ db_results w' = db_results w.
Proof.
  unfold Call_save, table_save.
  destruct (link_taken c_pk c_call_result_obj (db_calls w) o); [discriminate|].
  destruct (c_pk o) as [i|] eqn:Epk.
  - destruct (existsb (has_pk c_pk i) (db_calls w)) eqn:Eex;
      intros H; injection H as <- <-; cbn; (split; [|split; [congruence | reflexivity]]).
    + apply existsb_exists in Eex. destruct Eex as (r & Hr & Hri).
      apply in_map_iff. exists r. rewrite Hri. split; [reflexivity | exact Hr].
    + apply in_or_app. right. left. reflexivity.
  - intros H. injection H as <- <-. cbn. split; [|split; [discriminate | reflexivity]].
    apply in_or_app. right. left. reflexivity.
Qed.

Lemma Call_save_keeps_keys (o : CallObj) (w : World) (c : CallObj) :
  In c (db_calls w) ->
  exists c', In c' (db_calls (snd (Call_save o w))) /\ c_pk c' = c_pk c.
Proof.
  intros Hc. unfold Call_save, table_save.
  destruct (link_taken c_pk c_call_result_obj (db_calls w) o); [exists c; auto|].
  destruct (c_pk o) as [i|] eqn:Epk.
  - destruct (existsb (has_pk c_pk i) (db_calls w)); cbn.
    + destruct (has_pk c_pk i c) eqn:E.
      * exists o. split.
        -- apply in_map_iff. exists c. rewrite E. split; [reflexivity | exact Hc].
        -- unfold has_pk in E. apply opt_nat_eqb_eq in E. congruence.
      * exists c. split; [|reflexivity].
        apply in_map_iff. exists c. rewrite E. split; [reflexivity | exact Hc].
    + exists c. split; [apply in_or_app; left; exact Hc | reflexivity].
  - cbn. exists c. split; [apply in_or_app; left; exact Hc | reflexivity].
Qed.

Lemma Call_save_keyed (o : CallObj) : keeps_keyed (Call_save o).
Proof.
  intros w (Hc & Hr & Hback).
  assert (Hres : db_results (snd (Call_save o w)) = db_results w) by apply Call_save_frame.
  split; [|split].
  - unfold Call_save, table_save.
    destruct (link_taken c_pk c_call_result_obj (db_calls w) o); [exact Hc|].
    destruct (c_pk o) as [i|] eqn:Epk.
    + destruct (existsb (has_pk c_pk i) (db_calls w)); cbn; intros c Hin.
      * apply in_map_iff in Hin. destruct Hin as (c0 & <- & Hc0).
        destruct (has_pk c_pk i c0); [congruence | apply Hc; exact Hc0].
      * apply in_app_or in Hin. destruct Hin as [Hin|[<-|[]]]; [apply Hc; exact Hin | congruence].
    + cbn. intros c Hin. apply in_app_or in Hin.
      destruct Hin as [Hin|[<-|[]]]; [apply Hc; exact Hin | discriminate].
  - rewrite Hres. exact Hr.
  - rewrite Hres. intros r i Hin Hi.
    destruct (Hback r i Hin Hi) as (c & Hcin & Hci).
    destruct (Call_save_keeps_keys o w c Hcin) as (c' & Hc' & Hpk).
    exists c'. split; [exact Hc' | congruence].
Qed.

Lemma CallResult_save_keyed (o : CallResultObj) (w : World) :
  db_keyed w -> call_resolves w o -> db_keyed (snd (CallResult_save o w)).
Proof.
  intros (Hc & Hr & Hback) Ho.
  assert (Hcalls : db_calls (snd (CallResult_save o w)) = db_calls w)
    by apply CallResult_save_frame.
  split; [rewrite Hcalls; exact Hc|]. rewrite Hcalls.
  unfold CallResult_save, table_save.
  destruct (link_taken r_pk r_call_obj (db_results w) o); [split; assumption|].
  destruct (r_pk o) as [i|] eqn:Epk.
  - destruct (existsb (has_pk r_pk i) (db_results w)); cbn; split.
    + intros r Hin. apply in_map_iff in Hin. destruct Hin as (r0 & <- & Hr0).
      destruct (has_pk r_pk i r0); [congruence | apply Hr; exact Hr0].
    + intros r q Hin Hq. apply in_map_iff in Hin. destruct Hin as (r0 & <- & Hr0).
      destruct (has_pk r_pk i r0); [apply Ho; exact Hq | apply (Hback r0); assumption].
    + intros r Hin. apply in_app_or in Hin.
      destruct Hin as [Hin|[<-|[]]]; [apply Hr; exact Hin | congruence].
    + intros r q Hin Hq. apply in_app_or in Hin.
      destruct Hin as [Hin|[<-|[]]]; [apply (Hback r); assumption | apply Ho; exact Hq].
  - cbn. split.
    + intros r Hin. apply in_app_or in Hin.
      destruct Hin as [Hin|[<-|[]]]; [apply Hr; exact Hin | discriminate].
    + intros r q Hin Hq. apply in_app_or in Hin.
      destruct Hin as [Hin|[<-|[]]]; [apply (Hback r); assumption | apply Ho; exact Hq].
Qed.

(** Saving the two instances and linking them keeps the references,
    when the call that the result names on entry is a stored call. *)
Lemma save_and_link_keyed (oc : Result CallObj) (orr : Result CallResultObj) (w : World) :
  db_keyed w ->
  (forall r, orr = Ok r -> call_resolves w r) ->
  db_keyed (snd (save_and_link_call_and_result oc orr w)).
Proof.
  intros Hw Horr. unfold save_and_link_call_and_result, bind.
  destruct oc as [c|e]; [|exact Hw]. cbn [save_instance].
  pose proof (Call_save_keyed c w Hw) as H1.
  destruct (Call_save c w) as [[c1|e1] w1] eqn:E1; cbn [snd] in H1; [|exact H1].
  destruct (Call_save_stored c c1 w w1 E1) as (Hc1in & Hc1pk & _).
  destruct orr as [r|e]; [|exact H1]. cbn [save_instance].
  assert (Hr1 : call_resolves w1 r).
  { intros i Hi. destruct (Horr r eq_refl i Hi) as (c0 & Hc0 & Hc0pk).
    destruct (Call_save_keeps_keys c w c0 Hc0) as (c' & Hc' & Hpk).
    rewrite E1 in Hc'. exists c'. split; [exact Hc' | congruence]. }
  pose proof (CallResult_save_keyed r w1 H1 Hr1) as H2.
  assert (Hcalls2 : db_calls (snd (CallResult_save r w1)) = db_calls w1)
    by apply CallResult_save_frame.
  destruct (CallResult_save r w1) as [[r1|e2] w2]; cbn [snd] in H2, Hcalls2; [|exact H2].
  pose proof (Call_save_keyed (c_set_call_result_obj (r_pk r1) c1) w2 H2) as H3.
  assert (Hkeep : exists c', In c' (db_calls (snd (Call_save
                                 (c_set_call_result_obj (r_pk r1) c1) w2)))
                             /\ c_pk c' = c_pk c1).
  { apply Call_save_keeps_keys. rewrite Hcalls2. exact Hc1in. }
  destruct (Call_save (c_set_call_result_obj (r_pk r1) c1) w2) as [[c3|e3] w3];
    cbn [snd] in H3, Hkeep; [|exact H3].
  assert (H4 : db_keyed (snd (CallResult_save
                  (r_set_call_obj (c_pk (c_set_call_result_obj (r_pk r1) c1)) r1) w3))).
  { apply CallResult_save_keyed; [exact H3|].
    intros i Hi. cbn in Hi. destruct Hkeep as (c' & Hc' & Hpk).
    exists c'. split; [exact Hc' | congruence]. }
  destruct (CallResult_save _ w3) as [[r4|e4] w4]; cbn [snd] in H4; exact H4.
Qed.

Lemma db_keyed_same_db (w w' : World) :
  db_calls w' = db_calls w -> db_results w' = db_results w ->
  db_keyed w -> db_keyed w'.
Proof. unfold db_keyed. intros -> ->. exact (fun H => H). Qed.

Lemma CallResult_new_link (env : Env) (t m p : value) (cid dir : string)
  (l : option nat) (r : CallResultObj) :
  CallResult_new env t m p cid dir l = Ok r -> r_call_obj r = l.
Proof.
  unfold CallResult_new.
  destruct (integer_field t); [|discriminate].
  destruct (not_null (char_field env m)); [|discriminate].
  destruct (not_null (char_field env p)); [|discriminate].
  cbn. intros H. injection H as <-. reflexivity.
Qed.

Lemma receive_call_keyed (env : Env) (charger_id : string) (t : OCPPMessageType)
  (message : value) : keeps_keyed (receive_call env charger_id t message).
Proof.
  intros w Hw. unfold receive_call, receive_call_of, bind, logger, lift, try_except_else. cbn [snd fst].
  destruct (subscript message 1) as [m|e]; [|exact Hw].
  destruct (subscript message 2) as [a|e]; [|exact Hw].
  destruct (subscript message 3) as [p|e]; [|exact Hw].
  destruct (OCPPCommands_getitem a) as [action|e]; [|exact Hw].
  match goal with
  | |- context [Callbacks_call env action m p ?w0] =>
      pose proof (Callbacks_call_frame env action m p w0) as Hf;
      destruct (Callbacks_call env action m p w0) as [[response|e] w1]
  end; cbn [snd db_calls db_results] in Hf; destruct Hf as (_ & Hdc & Hdr & _).
  2:{ destruct e; cbn [snd]; apply (db_keyed_same_db w); cbn; auto. }
  unfold ret, group_send, bind, lift.
  destruct (json_dumps response) as [text|e]; cbn [snd fst].
  2:{ apply (db_keyed_same_db w); cbn; auto. }
  unfold utcnow. cbn [snd fst db_calls db_results sent logged clock_reads random_draws].
  destruct (subscript response 0) as [r0|e]; [|apply (db_keyed_same_db w); cbn; auto].
  destruct (subscript response 1) as [r1|e]; [|apply (db_keyed_same_db w); cbn; auto].
  destruct (subscript response 2) as [r2|e]; [|apply (db_keyed_same_db w); cbn; auto].
  cbn [snd fst db_calls db_results sent logged clock_reads random_draws].
  apply save_and_link_keyed.
  - apply (db_keyed_same_db w); cbn; auto.
  - intros r Hr i Hi. rewrite (CallResult_new_link _ _ _ _ _ _ _ _ Hr) in Hi. discriminate.
Qed.

Lemma receive_call_result_keyed (env : Env) (charger_id : string) (t : OCPPMessageType)
  (message : value) : keeps_keyed (receive_call_result env charger_id t message).
Proof.
  intros w Hw. unfold receive_call_result, bind, logger, lift. cbn [snd fst].
  destruct (slice_from_1 message) as [rest|e]; [|exact Hw].
  destruct (unpack2 rest) as [[message_id payload]|e]; [|exact Hw].
  unfold Call_objects_filter. cbn [db_calls].
  destruct (filter (fun c => column_is env (c_message_id c) message_id) (db_calls w))
    as [|c others] eqn:E; [exact Hw|].
  unfold utcnow.
  assert (Hin : In c (db_calls w)).
  { assert (H : In c (filter (fun c => column_is env (c_message_id c) message_id)
                             (db_calls w))) by (rewrite E; left; reflexivity).
    apply filter_In in H. apply H. }
  apply save_and_link_keyed; [exact Hw|].
  intros r Hr i Hi. rewrite (CallResult_new_link _ _ _ _ _ _ _ _ Hr) in Hi.
  exists c. split; [exact Hin | exact Hi].
Qed.

Lemma receive_keeps_keyed (env : Env) (charger_id : string) (message : value) :
  keeps_keyed (OcppConsumer_receive env charger_id message).
Proof.
  intros w Hw. unfold_receive; unfold bind, logger, try_except, try_except_else, lift, ret.
  cbn [snd fst].
  destruct (subscript message 0) as [v|e]; [|exact Hw].
  destruct (OCPPMessageType_call v) as [t|e]; [|exact Hw].
  cbn [read_local ret].
  destruct t; cbn [OCPPMessageType_eqb].
  - apply receive_call_keyed. exact Hw.
  - apply receive_call_result_keyed. exact Hw.
  - exact Hw.
Qed.

(** Handling a frame and storing an outbound call keep the integrity of
    the tables. *)
Lemma receive_keeps_integrity (env : Env) (charger_id : string) (message : value) (w : World) :
  db_integrity w -> db_integrity (snd (OcppConsumer_receive env charger_id message w)).
Proof.
  intros [Hc Hk]. split;
    [apply receive_keeps_consistency | apply receive_keeps_keyed]; assumption.
Qed.

Lemma save_call_keeps_integrity (env : Env) (message_type : OCPPMessageType)
  (message_id : value) (action : OCPPCommands) (payload : value) (charger_id : string)
  (w : World) :
  db_integrity w ->
  db_integrity (snd (CallHandler_save_call env message_type message_id action payload
                       charger_id w)).
Proof.
  intros [Hc Hk]. split; [apply save_call_keeps_consistency; exact Hc|].
  unfold CallHandler_save_call, bind, utcnow. cbn [snd fst].
  destruct (Call_new env _ _ _ _ _ _) as [c|e]; cbn [save_instance].
  - apply Call_save_keyed. exact Hk.
  - exact Hk.
Qed.

Lemma start_integrity (w : World) :
  db_calls w = [] -> db_results w = [] -> db_integrity w.
Proof.
  intros Hc Hr. unfold db_integrity, db_consistent, db_keyed. rewrite Hc, Hr.
  repeat split; intros; contradiction.
Qed.

Lemma Call_new_fresh (env : Env) (t m a p : value) (cid dir : string) (c : CallObj) :
  Call_new env t m a p cid dir = Ok c -> c_pk c = None /\ c_call_result_obj c = None.
Proof.
  unfold Call_new.
  destruct (integer_field t); [|discriminate].
  destruct (not_null (char_field env m)); [|discriminate].
  destruct (not_null (char_field env a)); [|discriminate].
  destruct (not_null (char_field env p)); [|discriminate].
  cbn. intros H. injection H as <-. split; reflexivity.
Qed.

Lemma CallResult_new_fresh (env : Env) (t m p : value) (cid dir : string)
  (l : option nat) (r : CallResultObj) :
  CallResult_new env t m p cid dir l = Ok r -> r_pk r = None /\ r_call_obj r = l.
Proof.
  unfold CallResult_new.
  destruct (integer_field t); [|discriminate].
  destruct (not_null (char_field env m)); [|discriminate].
  destruct (not_null (char_field env p)); [|discriminate].
  cbn. intros H. injection H as <-. split; reflexivity.
Qed.

(** ** Consumers that take turns at their awaits *)

Lemma bind_assoc {A B C} (m : M A) (k : A -> M B) (h : B -> M C) (w : World) :
  bind (bind m k) h w = bind m (fun a => bind (k a) h) w.
Proof. unfold bind. destruct (m w) as [[a|e] w']; reflexivity. Qed.

Lemma bind_cong {A B} (m : M A) (k1 k2 : A -> M B) (w : World) :
  (forall a w', k1 a w' = k2 a w') -> bind m k1 w = bind m k2 w.
Proof. intros H. unfold bind. destruct (m w) as [[a|e] w']; [apply H | reflexivity]. Qed.

(** [receive] is its part up to the save, followed by the save. *)
Lemma receive_call_awaits_save (env : Env) (charger_id : string) (t : OCPPMessageType)
  (message : value) (w : World) :
  receive_call env charger_id t message w
  = (p <- receive_call_upto_save env charger_id t message ;; await_save p) w.
Proof.
  unfold receive_call, receive_call_of, receive_call_upto_save, await_save,
    try_except_else, bind, lift, ret, logger, group_send, utcnow.
  repeat match goal with
         | |- context [match ?x with _ => _ end] => destruct x; try reflexivity
         end.
Qed.

Lemma receive_call_result_awaits_save (env : Env) (charger_id : string)
  (t : OCPPMessageType) (message : value) (w : World) :
  receive_call_result env charger_id t message w
  = (p <- receive_call_result_upto_save env charger_id t message ;; await_save p) w.
Proof.
  unfold receive_call_result, receive_call_result_upto_save, await_save,
    bind, lift, ret, logger, utcnow, Call_objects_filter.
  repeat match goal with
         | |- context [match ?x with _ => _ end] => destruct x; try reflexivity
         end.
Qed.

Lemma receive_awaits_save (env : Env) (charger_id : string) (message : value) (w : World) :
  OcppConsumer_receive env charger_id message w
  = (p <- OcppConsumer_receive_upto_save env charger_id message ;; await_save p) w.
Proof.
  unfold_receive. unfold OcppConsumer_receive_upto_save.
  rewrite bind_assoc. apply bind_cong. intros u w0.
  rewrite bind_assoc. apply bind_cong. intros o w1.
  rewrite bind_assoc. apply bind_cong. intros t w2.
  destruct (OCPPMessageType_eqb t CALL); [apply receive_call_awaits_save|].
  destruct (OCPPMessageType_eqb t CALL_RESULT); [apply receive_call_result_awaits_save|].
  destruct (OCPPMessageType_eqb t CALL_ERROR); reflexivity.
Qed.
(** Case analysis on a scrutinee that is not itself a case analysis. *)
Ltac destruct_scrutinee :=
  match goal with
  | |- context [match ?x with _ => _ end] =>
      lazymatch x with
      | context [match _ with _ => _ end] => fail
      | _ => destruct x; cbv beta iota
      end
  end.

(** The part of [receive] up to the save touches no table. *)
Lemma receive_call_upto_save_db (env : Env) (charger_id : string) (t : OCPPMessageType)
  (message : value) (w : World) :
  let w' := snd (receive_call_upto_save env charger_id t message w) in
  db_calls w' = db_calls w /\ db_results w' = db_results w.
Proof.
  unfold receive_call_upto_save, group_send, try_except_else, bind, lift, ret, logger,
    utcnow.
  repeat match goal with
         | |- context [Callbacks_call ?e ?a ?m ?p ?w0] =>
             pose proof (Callbacks_call_frame e a m p w0);
             destruct (Callbacks_call e a m p w0) as [[?|?] ?]; cbv beta iota
         | _ => destruct_scrutinee
         end; cbn in *; intuition congruence.
Qed.

Lemma receive_call_result_upto_save_db (env : Env) (charger_id : string)
  (t : OCPPMessageType) (message : value) (w : World) :
  let w' := snd (receive_call_result_upto_save env charger_id t message w) in
  db_calls w' = db_calls w /\ db_results w' = db_results w.
Proof.
  unfold receive_call_result_upto_save, bind, lift, ret, logger, utcnow,
    Call_objects_filter.
  repeat match goal with
         | |- context [match ?x with _ => _ end] => destruct x
         end; cbn; split; reflexivity.
Qed.

Lemma receive_upto_save_db (env : Env) (charger_id : string) (message : value) (w : World) :
  let w' := snd (OcppConsumer_receive_upto_save env charger_id message w) in
  db_calls w' = db_calls w /\ db_results w' = db_results w.
Proof.
  unfold OcppConsumer_receive_upto_save.
  apply (bind_snd_frame
           (fun w1 w2 => db_calls w2 = db_calls w1 /\ db_results w2 = db_results w1));
    [intros ? ? ? [? ?] [? ?]; split; congruence | split; reflexivity | intros u w0].
  apply (bind_snd_frame
           (fun w1 w2 => db_calls w2 = db_calls w1 /\ db_results w2 = db_results w1));
    [intros ? ? ? [? ?] [? ?]; split; congruence | | intros o w1].
  - unfold try_except, bind, lift, ret, logger.
    repeat match goal with
           | |- context [match ?x with _ => _ end] => destruct x
           end; cbn; split; reflexivity.
  - apply (bind_snd_frame
             (fun w1 w2 => db_calls w2 = db_calls w1 /\ db_results w2 = db_results w1));
      [intros ? ? ? [? ?] [? ?]; split; congruence
      | destruct o; split; reflexivity | intros t w2].
    destruct (OCPPMessageType_eqb t CALL); [apply receive_call_upto_save_db|].
    destruct (OCPPMessageType_eqb t CALL_RESULT); [apply receive_call_result_upto_save_db|].
    destruct (OCPPMessageType_eqb t CALL_ERROR); split; reflexivity.
Qed.

(** What a [receive] holds at its save: two new instances that refer to
    nothing, or a stored call, as it was read, and a new result that
    refers to it. *)
Lemma receive_call_upto_save_pending (env : Env) (charger_id : string)
  (t : OCPPMessageType) (message : value) (w : World) (p : pending) :
  fst (receive_call_upto_save env charger_id t message w) = Ok (Some p) ->
  (forall c, fst p = Ok c -> c_call_result_obj c = None)
  /\ (forall r, snd p = Ok r -> r_call_obj r = None).
Proof.
  unfold receive_call_upto_save, group_send, try_except_else, bind, lift, ret, logger,
    utcnow.
  repeat match goal with
         | _ => destruct_scrutinee
         end; cbn [fst snd]; intros H; try discriminate H;
    injection H as <-; cbn [fst snd]; split; intros x Hx.
  - apply Call_new_fresh in Hx. apply Hx.
  - apply CallResult_new_fresh in Hx. apply Hx.
Qed.

Lemma receive_call_result_upto_save_pending (env : Env) (charger_id : string)
  (t : OCPPMessageType) (message : value) (w : World) (p : pending) :
  fst (receive_call_result_upto_save env charger_id t message w) = Ok (Some p) ->
  exists c, fst p = Ok c /\ In c (db_calls w)
            /\ (forall r, snd p = Ok r -> r_call_obj r = c_pk c).
Proof.
  unfold receive_call_result_upto_save, bind, lift, ret, logger, utcnow,
    Call_objects_filter.
  destruct (slice_from_1 message) as [rest|]; [|discriminate].
  destruct (unpack2 rest) as [[message_id payload]|]; [|discriminate].
  cbn [db_calls].
  destruct (filter (fun c => column_is env (c_message_id c) message_id) (db_calls w))
    as [|c l] eqn:E; cbn [fst snd]; [discriminate|].
  intros H. injection H as <-. exists c. cbn [fst snd].
  split; [reflexivity|]. split.
  - assert (Hin : In c (c :: l)) by (left; reflexivity).
    rewrite <- E in Hin. apply filter_In in Hin. apply Hin.
  - intros r Hr. apply CallResult_new_fresh in Hr. apply Hr.
Qed.

Lemma receive_upto_save_pending (env : Env) (charger_id : string) (message : value)
  (w : World) (p : pending) :
  db_integrity w ->
  fst (OcppConsumer_receive_upto_save env charger_id message w) = Ok (Some p) ->
  pending_ok w p.
Proof.
  intros [[_ Hlinks] _]. unfold OcppConsumer_receive_upto_save.
  unfold bind at 1. cbn [logger].
  unfold bind at 1.
  destruct (try_except _ _ _) as [[o|e] w1] eqn:Et; [|discriminate].
  assert (Hw1 : db_calls w1 = db_calls w).
  { revert Et. unfold try_except, bind, lift, ret, logger.
    repeat match goal with
           | |- context [match ?x with _ => _ end] => destruct x
           end; intros Et; injection Et as _ <-; reflexivity. }
  unfold bind. destruct o as [t|]; cbn [read_local ret raise]; [|discriminate].
  destruct (OCPPMessageType_eqb t CALL).
  - intros H. apply receive_call_upto_save_pending in H. destruct H as [Hc Hr].
    split.
    + intros c Ec j Hj. rewrite (Hc c Ec) in Hj. discriminate.
    + intros r Er i Hi. rewrite (Hr r Er) in Hi. discriminate.
  - destruct (OCPPMessageType_eqb t CALL_RESULT).
    + intros H. apply receive_call_result_upto_save_pending in H.
      destruct H as (c & Ec & Hin & Hr). rewrite Hw1 in Hin. split.
      * intros c' Ec'. rewrite Ec in Ec'. injection Ec' as <-.
        intros j Hj. exact (Hlinks c j Hin Hj).
      * intros r Er i Hi. exists c. split; [exact Hin|].
        rewrite <- (Hr r Er). exact Hi.
    + destruct (OCPPMessageType_eqb t CALL_ERROR); cbn; discriminate.
Qed.

(** No step loses the key of a stored row. *)
Lemma keys_kept_same_db (w w' : World) :
  db_calls w' = db_calls w -> db_results w' = db_results w -> keys_kept w w'.
Proof.
  intros Hc Hr. split; [intros c Hin; exists c | intros r Hin; exists r];
    (split; [congruence | reflexivity]).
Qed.

Lemma keys_kept_trans (w1 w2 w3 : World) :
  keys_kept w1 w2 -> keys_kept w2 w3 -> keys_kept w1 w3.
Proof.
  intros [Hc Hr] [Hc' Hr']. split.
  - intros c Hin. destruct (Hc c Hin) as (c1 & Hin1 & E1).
    destruct (Hc' c1 Hin1) as (c2 & Hin2 & E2). exists c2. split; congruence.
  - intros r Hin. destruct (Hr r Hin) as (r1 & Hin1 & E1).
    destruct (Hr' r1 Hin1) as (r2 & Hin2 & E2). exists r2. split; congruence.
Qed.

Lemma Call_save_keys_kept (o : CallObj) (w : World) : keys_kept w (snd (Call_save o w)).
Proof.
  split; [intros c Hin; apply Call_save_keeps_keys; exact Hin|].
  intros r Hin. exists r. split; [|reflexivity].
  destruct (Call_save_frame o w) as (_ & _ & E). rewrite E. exact Hin.
Qed.

Lemma CallResult_save_keys_kept (o : CallResultObj) (w : World) :
  keys_kept w (snd (CallResult_save o w)).
Proof.
  split.
  - intros c Hin. exists c. split; [|reflexivity].
    destruct (CallResult_save_frame o w) as (_ & _ & E). rewrite E. exact Hin.
  - intros r Hr. unfold CallResult_save, table_save.
    destruct (link_taken r_pk r_call_obj (db_results w) o); [exists r; auto|].
    destruct (r_pk o) as [i|] eqn:Epk.
    + destruct (existsb (has_pk r_pk i) (db_results w)); cbn.
      * destruct (has_pk r_pk i r) eqn:E.
        -- exists o. split.
           ++ apply in_map_iff. exists r. rewrite E. split; [reflexivity | exact Hr].
           ++ unfold has_pk in E. apply opt_nat_eqb_eq in E. congruence.
        -- exists r. split; [|reflexivity].
           apply in_map_iff. exists r. rewrite E. split; [reflexivity | exact Hr].
      * exists r. split; [apply in_or_app; left; exact Hr | reflexivity].
    + cbn. exists r. split; [apply in_or_app; left; exact Hr | reflexivity].
Qed.

Lemma save_instance_keys_kept {R} (save : R -> M R) (o : Result R) (w : World) :
  (forall r w1, keys_kept w1 (snd (save r w1))) ->
  keys_kept w (snd (save_instance save o w)).
Proof.
  intros H. destruct o as [r|e]; [apply H|].
  apply keys_kept_same_db; reflexivity.
Qed.

Lemma save_and_link_keys_kept (oc : Result CallObj) (orr : Result CallResultObj)
  (w : World) :
  keys_kept w (snd (save_and_link_call_and_result oc orr w)).
Proof.
  unfold save_and_link_call_and_result.
  apply (bind_snd_frame keys_kept); [apply keys_kept_trans | | intros c w1].
  { apply save_instance_keys_kept. apply Call_save_keys_kept. }
  apply (bind_snd_frame keys_kept); [apply keys_kept_trans | | intros r w2].
  { apply save_instance_keys_kept. apply CallResult_save_keys_kept. }
  apply (bind_snd_frame keys_kept);
    [apply keys_kept_trans | apply Call_save_keys_kept | intros c' w3].
  apply (bind_snd_frame keys_kept);
    [apply keys_kept_trans | apply CallResult_save_keys_kept | intros r' w4].
  apply keys_kept_same_db; reflexivity.
Qed.

Lemma save_call_keys_kept (env : Env) (message_type : OCPPMessageType)
  (message_id : value) (action : OCPPCommands) (payload : value) (charger_id : string)
  (w : World) :
  keys_kept w (snd (CallHandler_save_call env message_type message_id action payload
                      charger_id w)).
Proof.
  unfold CallHandler_save_call.
  apply (bind_snd_frame keys_kept);
    [apply keys_kept_trans | apply keys_kept_same_db; reflexivity | intros t w1].
  apply save_instance_keys_kept. apply Call_save_keys_kept.
Qed.

Lemma pending_ok_kept (w w' : World) :
  keys_kept w w' -> forall p : pending, pending_ok w p -> pending_ok w' p.
Proof.
  intros [Hc Hr] p [Hl Hb]. split.
  - intros c Ec j Hj. destruct (Hl c Ec j Hj) as (r & Hin & Epk).
    destruct (Hr r Hin) as (r' & Hin' & E'). exists r'. split; congruence.
  - intros r Er i Hi. destruct (Hb r Er i Hi) as (c & Hin & Epk).
    destruct (Hc c Hin) as (c' & Hin' & E'). exists c'. split; congruence.
Qed.

Lemma db_integrity_same_db (w w' : World) :
  db_calls w' = db_calls w -> db_results w' = db_results w ->
  db_integrity w -> db_integrity w'.
Proof.
  intros Hc Hr. unfold db_integrity, db_consistent, db_keyed. rewrite Hc, Hr. tauto.
Qed.

(** The tables keep their integrity at every step of a run, and the
    instances that wait to be saved keep referring to stored rows. *)
Lemma running_sound (env : Env) (w : World) (ps : list pending) :
  running env w ps -> db_integrity w /\ Forall (pending_ok w) ps.
Proof.
  induction 1 as [w Hc Hr
                 | charger_id message w ps _ [IHi IHp]
                 | oc orr w ps1 ps2 _ [IHi IHp]
                 | message_type message_id action payload charger_id w ps _ [IHi IHp]
                 | w w' ps _ [IHi IHp] Hc Hr].
  - split; [apply start_integrity; assumption | constructor].
  - destruct (receive_upto_save_db env charger_id message w) as [Hc Hr].
    pose proof (receive_upto_save_pending env charger_id message w) as Hp.
    destruct (OcppConsumer_receive_upto_save env charger_id message w) as [[[p|]|e] w1];
      cbn [fst snd] in *.
    + split; [apply (db_integrity_same_db w); assumption|].
      apply (Forall_impl _ (pending_ok_kept w w1 (keys_kept_same_db w w1 Hc Hr))).
      constructor; [apply Hp; [exact IHi | reflexivity] | exact IHp].
    + split; [apply (db_integrity_same_db w); assumption|].
      apply (Forall_impl _ (pending_ok_kept w w1 (keys_kept_same_db w w1 Hc Hr))).
      exact IHp.
    + split; [apply (db_integrity_same_db w); assumption|].
      apply (Forall_impl _ (pending_ok_kept w w1 (keys_kept_same_db w w1 Hc Hr))).
      exact IHp.
  - apply Forall_app in IHp. destruct IHp as [Hp1 Hp2].
    inversion Hp2 as [|p ps' [Hl Hb] Hp2']. subst.
    destruct IHi as [Hcons Hkeyed]. split.
    + split.
      * apply save_and_link_consistent; [exact Hcons | exact Hl].
      * apply save_and_link_keyed; [exact Hkeyed | exact Hb].
    + apply (Forall_impl _ (pending_ok_kept w _ (save_and_link_keys_kept oc orr w))).
      apply Forall_app. split; assumption.
  - split; [apply save_call_keeps_integrity; exact IHi|].
    apply (Forall_impl _ (pending_ok_kept w _
             (save_call_keys_kept env message_type message_id action payload charger_id w))).
    exact IHp.
  - split; [apply (db_integrity_same_db w); assumption|].
    apply (Forall_impl _ (pending_ok_kept w w' (keys_kept_same_db w w' Hc Hr))).
    exact IHp.
Qed.

(** The steps of a run in which every frame is handled to its end. *)
Lemma reachable_start (env : Env) (w : World) :
  db_calls w = [] -> db_results w = [] -> reachable env w.
Proof. intros Hc Hr. exists []. apply running_start; assumption. Qed.

Lemma reachable_receive (env : Env) (charger_id : string) (message : value) (w : World) :
  reachable env w -> reachable env (snd (OcppConsumer_receive env charger_id message w)).
Proof.
  intros [ps H]. exists ps.
  pose proof (running_receive env charger_id message w ps H) as Hu.
  rewrite receive_awaits_save. unfold bind.
  destruct (OcppConsumer_receive_upto_save env charger_id message w) as [[[[oc orr]|]|e] w1];
    cbn [fst snd await_save ret] in *.
  - exact (running_save env oc orr w1 [] ps Hu).
  - exact Hu.
  - exact Hu.
Qed.

Lemma reachable_save_call (env : Env) (message_type : OCPPMessageType) (message_id : value)
  (action : OCPPCommands) (payload : value) (charger_id : string) (w : World) :
  reachable env w ->
  reachable env (snd (CallHandler_save_call env message_type message_id action payload
                        charger_id w)).
Proof. intros [ps H]. exists ps. apply running_save_call. exact H. Qed.

Lemma handled_in_turn_reachable (env : Env) (w : World) :
  handled_in_turn env w -> reachable env w.
Proof.
  induction 1.
  - apply reachable_start; assumption.
  - apply reachable_receive; assumption.
  - apply reachable_save_call; assumption.
Qed.

(** X14.  The tables keep their integrity in every world that the
    protocol code reaches from empty tables, by handling inbound frames
    of whatever content, several of them at a time, and by storing
    outbound calls: a stored call is identified by its key, every stored
    row has a key, the result that a call refers to is a stored result,
    and the call that a result refers to is a stored call. *)
Theorem reachable_worlds_keep_integrity (env : Env) (w : World) :
  reachable env w ->
  (forall x y, In x (db_calls w) -> In y (db_calls w) -> c_pk x = c_pk y -> x = y)
  /\ (forall x, In x (db_calls w) -> c_pk x <> None)
  /\ (forall r, In r (db_results w) -> r_pk r <> None)
  /\ (forall x j, In x (db_calls w) -> c_call_result_obj x = Some j ->
                  exists r, In r (db_results w) /\ r_pk r = Some j)
  /\ (forall r i, In r (db_results w) -> r_call_obj r = Some i ->
                  exists x, In x (db_calls w) /\ c_pk x = Some i).
Proof.
  intros [ps H].
  destruct (running_sound env w ps H) as [((Hkeys & Hlinks) & Hc & Hr & Hback) _].
  repeat split; assumption.
Qed.

(** The world in which the calls ["A1"] and ["B2"] are stored is reached
    from the empty tables. *)
Lemma reachable_worlds_keep_integrity_witness :
  (forall x y, In x (db_calls world_two_calls) -> In y (db_calls world_two_calls) ->
               c_pk x = c_pk y -> x = y)
  /\ (forall x, In x (db_calls world_two_calls) -> c_pk x <> None)
  /\ (forall r, In r (db_results world_two_calls) -> r_pk r <> None)
  /\ (forall x j, In x (db_calls world_two_calls) -> c_call_result_obj x = Some j ->
                  exists r, In r (db_results world_two_calls) /\ r_pk r = Some j)
  /\ (forall r i, In r (db_results world_two_calls) -> r_call_obj r = Some i ->
                  exists x, In x (db_calls world_two_calls) /\ c_pk x = Some i).
Proof.
  apply (reachable_worlds_keep_integrity env0).
  unfold world_two_calls.
  apply reachable_save_call, reachable_save_call, reachable_start; reflexivity.
Defined.

(** ** A second result for a call *)

(** X15.  A CallResult for a stored call to which a stored result
    already refers is refused by the one-to-one constraint: [receive]
    raises [IntegrityError], and stores and sends nothing. *)
Theorem second_call_result_is_refused (env : Env) (charger_id : string)
  (message_id payload : value) (c : CallObj) (others : list CallObj) (x : CallResultObj)
  (w : World) :
  db_integrity w ->
  filter (fun y => column_is env (c_message_id y) message_id) (db_calls w) = c :: others ->
  In x (db_results w) ->
  r_call_obj x = c_pk c ->
  exists w' : World,
    OcppConsumer_receive env charger_id (VList [VInt 3; message_id; payload]) w
    = (Raise IntegrityError, w')
    /\ db_calls w' = db_calls w
    /\ db_results w' = db_results w
    /\ sent w' = sent w.
Proof.
  intros ((Hkeys & Hlinks) & Hcpk & Hrpk & Hback) Hf Hx Hxc.
  assert (Hin : In c (db_calls w) /\ column_is env (c_message_id c) message_id = true).
  { assert (H : In c (filter (fun y => column_is env (c_message_id y) message_id)
                             (db_calls w))) by (rewrite Hf; left; reflexivity).
    apply filter_In in H. exact H. }
  destruct Hin as [Hin Hcol].
  destruct (c_pk c) as [i|] eqn:Epk; [|exfalso; exact (Hcpk c Hin Epk)].
  assert (Hmid : char_field env message_id = Some (py_str env message_id)).
  { unfold column_is in Hcol. unfold char_field in *.
    destruct (is_None message_id); [discriminate | reflexivity]. }
  unfold OcppConsumer_receive, OcppConsumer_receive_of, receive_call_result.
  cbn -[filter save_and_link_call_and_result column_is CallResult_new].
  unfold Call_objects_filter, bind.
  cbn -[filter save_and_link_call_and_result column_is CallResult_new]. rewrite Hf.
  cbn -[save_and_link_call_and_result CallResult_new].
  unfold save_and_link_call_and_result, save_instance, bind.
  unfold Call_save at 1, table_save.
  cbn [db_calls db_results sent logged clock_reads random_draws].
  destruct (link_taken c_pk c_call_result_obj (db_calls w) c).
  { eexists. split; [reflexivity|]. repeat split. }
  rewrite Epk.
  assert (Hex : existsb (has_pk c_pk i) (db_calls w) = true).
  { apply existsb_exists. exists c. split; [exact Hin|].
    unfold has_pk. apply opt_nat_eqb_eq. exact Epk. }
  rewrite Hex.
  rewrite map_replace_same.
  2:{ intros y Hy E. apply Hkeys; [exact Hy | exact Hin|].
      unfold has_pk in E. apply opt_nat_eqb_eq in E. congruence. }
  unfold CallResult_new, char_field at 1. fold (char_field env message_id). rewrite Hmid.
  cbn [integer_field int_operand OCPPMessageType_value rbind not_null].
  destruct (char_field env payload) as [ps|]; cbn [not_null rbind raise].
  2:{ eexists. split; [reflexivity|]. repeat split. }
  unfold CallResult_save at 1, table_save.
  cbn [db_calls db_results sent logged clock_reads random_draws].
  assert (Htaken : link_taken r_pk r_call_obj (db_results w)
                     (mk_CallResult None 3 (py_str env message_id) ps charger_id "C2S" (Some i))
                   = true).
  { unfold link_taken. cbn [r_call_obj r_pk]. apply existsb_exists. exists x.
    split; [exact Hx|]. apply andb_true_intro. split.
    - apply opt_nat_eqb_eq. exact Hxc.
    - destruct (r_pk x) as [q|] eqn:Eq; [reflexivity|]. exfalso. exact (Hrpk x Hx Eq). }
  rewrite Htaken. eexists. split; [reflexivity|]. repeat split.
Qed.

(** The call ["A1"] has been answered; a second result for it is
    refused. *)
Lemma second_call_result_is_refused_witness :
  exists w' : World,
    OcppConsumer_receive env0 "CP1"
      (VList [VInt 3; VStr "A1"; VDict [("status", VStr "Rejected")]]) world_answered
    = (Raise IntegrityError, w')
    /\ db_calls w' = db_calls world_answered
    /\ db_results w' = db_results world_answered
    /\ sent w' = sent world_answered.
Proof.
  refine (second_call_result_is_refused env0 "CP1" (VStr "A1")
            (VDict [("status", VStr "Rejected")])
            (c_set_call_result_obj (Some 1) stored_call_A1) []
            (mk_CallResult (Some 1) 3 "A1" "{'status': 'Accepted'}" "CP1" "C2S" (Some 1))
            world_answered _ eq_refl _ eq_refl).
  - unfold world_answered, world_two_calls.
    apply receive_keeps_integrity, save_call_keeps_integrity, save_call_keeps_integrity,
      start_integrity; reflexivity.
  - left. reflexivity.
Defined.


(** ** Awaiting a response: the edges *)

Lemma get_unique (env : Env) (m : value) (o : CallResultObj) (w : World) :
  results_of env m w = [o] -> CallResult_objects_get env m w = (Ok o, w).
Proof.
  unfold results_of, CallResult_objects_get. intros ->. reflexivity.
Qed.

Lemma get_fails (env : Env) (m : value) (w : World) :
  List.length (results_of env m w) <> 1 ->
  exists e, CallResult_objects_get env m w = (Raise e, w).
Proof.
  unfold results_of, CallResult_objects_get. intros H.
  destruct (filter (fun r => column_is env (r_message_id r) m) (db_results w))
    as [|o1 [|o2 l]]; [eexists; reflexivity | | eexists; reflexivity].
  exfalso. apply H. reflexivity.
Qed.

Lemma await_loop_unanswered (env : Env) (m await_interval : value) :
  stays_unanswered env m ->
  sleep_delay await_interval = Ok tt ->
  forall (n i : nat) (w : World),
    List.length (results_of env m w) <> 1 ->
    exists w1,
      await_loop env m await_interval n i w = (Ok (None, n + i), w1)
      /\ List.length (results_of env m w1) <> 1.
Proof.
  intros Hq Hs. induction n as [|n IH]; intros i w Hw.
  - exists w. split; [reflexivity | exact Hw].
  - cbn [await_loop]. unfold try_except_else.
    destruct (get_fails env m w Hw) as [e He]. rewrite He.
    unfold sleep, lift. rewrite Hs. unfold bind.
    destruct (IH (S i) (elsewhere env i w) (Hq i w Hw)) as (w1 & Hl & Hw1).
    exists w1. rewrite Hl. split; [|exact Hw1].
    rewrite <- plus_n_Sm. reflexivity.
Qed.

(** An interval that [asyncio.sleep] refuses ends the loop at its first
    sleep, which follows the first lookup that fails. *)
Lemma await_loop_sleep_raises (env : Env) (m await_interval : value) (e : exn)
  (k i : nat) (w : World) :
  sleep_delay await_interval = Raise e ->
  List.length (results_of env m w) <> 1 ->
  await_loop env m await_interval (S k) i w = (Raise e, w).
Proof.
  intros Hs Hw. cbn [await_loop]. unfold try_except_else.
  destruct (get_fails env m w Hw) as [e' He]. rewrite He.
  unfold sleep, lift. rewrite Hs. unfold bind. reflexivity.
Qed.

(** The first lookup of the loop finds the one stored result. *)
Lemma await_loop_first_lookup (env : Env) (message_id await_interval : value) (k : nat)
  (o : CallResultObj) (w : World) :
  results_of env message_id w = [o] ->
  await_loop env message_id await_interval (S k) 0 w
  = (Ok (Some (r_message_type_id o, r_message_id o, r_payload o), 1), w).
Proof.
  intros Ho. cbn [await_loop]. unfold try_except_else.
  rewrite (get_unique env message_id o w Ho). reflexivity.
Qed.

Lemma await_first_lookup (env : Env)
  (message_id await_period await_interval : value) (q : spec_float) (n : Z)
  (o : CallResultObj) (w : World) :
  truediv await_period await_interval = Ok q ->
  int_of_float q = Ok n ->
  (0 < n)%Z ->
  results_of env message_id w = [o] ->
  CallHandler_await_response env message_id await_period await_interval w
  = (Ok (Some (r_message_type_id o, r_message_id o, r_payload o)), w).
Proof.
  intros Hdiv Hint Hn Ho.
  unfold CallHandler_await_response, await_response_counted, bind, lift.
  rewrite Hdiv, Hint.
  destruct (Z.to_nat n) as [|k] eqn:E; [lia|].
  rewrite (await_loop_first_lookup env message_id await_interval k o w Ho). reflexivity.
Qed.

(** X16.  When the result of the awaited message id is stored at the
    first check, [__await_response] returns its fields
    [(message_type_id, message_id, payload)] after one lookup, without
    sleeping, provided the timeout covers at least one interval. *)
Theorem await_returns_stored_result (env : Env)
  (message_id await_period await_interval : value) (q : spec_float) (n : Z)
  (o : CallResultObj) (w : World) :
  truediv await_period await_interval = Ok q ->
  int_of_float q = Ok n ->
  (0 < n)%Z ->
  results_of env message_id w = [o] ->
  await_response_counted env message_id await_period await_interval w
  = (Ok (Some (r_message_type_id o, r_message_id o, r_payload o), 1), w)
  /\ CallHandler_await_response env message_id await_period await_interval w
     = (Ok (Some (r_message_type_id o, r_message_id o, r_payload o)), w).
Proof.
  intros Hdiv Hint Hn Ho. split.
  - unfold await_response_counted, bind, lift. rewrite Hdiv, Hint.
    destruct (Z.to_nat n) as [|k] eqn:E; [lia|].
    rewrite (await_loop_first_lookup env message_id await_interval k o w Ho). reflexivity.
  - exact (await_first_lookup env message_id await_period await_interval q n o w
             Hdiv Hint Hn Ho).
Qed.

(** The result of ["A1"] is stored: the caller awaiting ["A1"] gets it at
    once. *)
Lemma await_returns_stored_result_witness :
  await_response_counted env0 (VStr "A1") (VInt 10) (VFloat float_0_2) world_answered
  = (Ok (Some (3%Z, "A1", "{'status': 'Accepted'}"), 1), world_answered)
  /\ CallHandler_await_response env0 (VStr "A1") (VInt 10) (VFloat float_0_2) world_answered
     = (Ok (Some (3%Z, "A1", "{'status': 'Accepted'}")), world_answered).
Proof.
  exact (await_returns_stored_result env0 (VStr "A1") (VInt 10) (VFloat float_0_2)
           (float_div (float_of_Z 10) float_0_2) 50
           (mk_CallResult (Some 1) 3 "A1" "{'status': 'Accepted'}" "CP1" "C2S" (Some 1))
           world_answered eq_refl eq_refl eq_refl eq_refl).
Defined.

(** X17.  When the lookup of the awaited message id fails at the first
    check, because no result of that id is stored or because several are,
    and the rest of the system does not bring their number to one while
    the call sleeps, then: with an interval that [asyncio.sleep] accepts,
    [__await_response] looks the database up exactly
    [int(await_period / await_interval)] times, logs its warning and
    returns [None], so that two stored results of one message id are never
    delivered; with an interval that [asyncio.sleep] refuses, an integer
    beyond the range of floats, and at least one iteration to run, it
    raises the error of [asyncio.sleep] after the first lookup, and logs
    nothing. *)
Theorem await_times_out (env : Env) (message_id await_period await_interval : value)
  (q : spec_float) (n : Z) (w : World) :
  truediv await_period await_interval = Ok q ->
  int_of_float q = Ok n ->
  stays_unanswered env message_id ->
  List.length (results_of env message_id w) <> 1 ->
  (sleep_delay await_interval = Ok tt ->
   exists w1 : World,
     await_response_counted env message_id await_period await_interval w
     = (Ok (None, Z.to_nat n),
        mk_World (db_calls w1) (db_results w1) (sent w1)
                 (logged w1 ++ [(WARNING, "no call result was recieved back")])
                 (clock_reads w1) (random_draws w1))
     /\ List.length (results_of env message_id w1) <> 1)
  /\ (forall e : exn,
        sleep_delay await_interval = Raise e ->
        (0 < n)%Z ->
        await_response_counted env message_id await_period await_interval w = (Raise e, w)
        /\ CallHandler_await_response env message_id await_period await_interval w
           = (Raise e, w)).
Proof.
  intros Hdiv Hint Hq Hw. split.
  - intros Hs.
    destruct (await_loop_unanswered env message_id await_interval Hq Hs (Z.to_nat n) 0 w Hw)
      as (w1 & Hl & Hw1).
    exists w1. split; [|exact Hw1].
    unfold await_response_counted, bind, lift. rewrite Hdiv, Hint, Hl.
    rewrite Nat.add_0_r. reflexivity.
  - intros e Hs Hn.
    assert (Hc : await_response_counted env message_id await_period await_interval w
                 = (Raise e, w)).
    { unfold await_response_counted, bind, lift. rewrite Hdiv, Hint.
      destruct (Z.to_nat n) as [|k] eqn:E; [lia|].
      rewrite (await_loop_sleep_raises env message_id await_interval e k 0 w Hs Hw).
      reflexivity. }
    split; [exact Hc|].
    unfold CallHandler_await_response, bind. rewrite Hc. reflexivity.
Qed.

(** The call ["B2"] has no result: awaited for 10 seconds in steps of
    0.2 seconds, it is looked up 50 times; awaited for [10 ** 400] seconds
    in steps of [10 ** 399] seconds, ten iterations are due, and the first
    sleep raises [OverflowError]. *)
Lemma await_times_out_witness :
  (exists w1 : World,
     await_response_counted env0 (VStr "B2") (VInt 10) (VFloat float_0_2) world_answered
     = (Ok (None, 50),
        mk_World (db_calls w1) (db_results w1) (sent w1)
                 (logged w1 ++ [(WARNING, "no call result was recieved back")])
                 (clock_reads w1) (random_draws w1))
     /\ List.length (results_of env0 (VStr "B2") w1) <> 1)
  /\ await_response_counted env0 (VStr "B2") (VInt (10 ^ 400)) (VInt (10 ^ 399))
       world_answered
     = (Raise OverflowError, world_answered)
  /\ CallHandler_await_response env0 (VStr "B2") (VInt (10 ^ 400)) (VInt (10 ^ 399))
       world_answered
     = (Raise OverflowError, world_answered).
Proof.
  assert (Hq : stays_unanswered env0 (VStr "B2")) by (intros i w H; exact H).
  assert (Hw : List.length (results_of env0 (VStr "B2") world_answered) <> 1)
    by (vm_compute; discriminate).
  split.
  - exact (proj1 (await_times_out env0 (VStr "B2") (VInt 10) (VFloat float_0_2)
                    (float_div (float_of_Z 10) float_0_2) 50 world_answered
                    eq_refl eq_refl Hq Hw) eq_refl).
  - refine (proj2 (await_times_out env0 (VStr "B2") (VInt (10 ^ 400)) (VInt (10 ^ 399))
                     (float_of_Z 10) 10 world_answered _ eq_refl Hq Hw)
                  OverflowError _ _).
    + vm_compute. reflexivity.
    + vm_compute. reflexivity.
    + lia.
Defined.

(** X18.  A timeout shorter than the interval between two checks, or a
    negative one, never looks at the database: [__await_response] logs
    its warning and returns [None] at once, also when the result is
    stored. *)
Theorem await_shorter_than_interval (env : Env)
  (message_id await_period await_interval : value) (q : spec_float) (n : Z) (w : World) :
  truediv await_period await_interval = Ok q ->
  int_of_float q = Ok n ->
  (n <= 0)%Z ->
  await_response_counted env message_id await_period await_interval w
  = (Ok (None, 0),
     mk_World (db_calls w) (db_results w) (sent w)
              (logged w ++ [(WARNING, "no call result was recieved back")])
              (clock_reads w) (random_draws w))
  /\ fst (CallHandler_await_response env message_id await_period await_interval w) = Ok None.
Proof.
  intros Hdiv Hint Hn.
  assert (Hc : await_response_counted env message_id await_period await_interval w
               = (Ok (None, 0),
                  mk_World (db_calls w) (db_results w) (sent w)
                           (logged w ++ [(WARNING, "no call result was recieved back")])
                           (clock_reads w) (random_draws w))).
  { unfold await_response_counted, bind, lift. rewrite Hdiv, Hint.
    replace (Z.to_nat n) with 0 by lia. reflexivity. }
  split; [exact Hc|].
  unfold CallHandler_await_response, bind. rewrite Hc. reflexivity.
Qed.

(** The result of ["A1"] is stored, and awaiting it for one second in
    steps of two seconds returns [None]. *)
Lemma await_shorter_than_interval_witness :
  List.length (results_of env0 (VStr "A1") world_answered) = 1
  /\ await_response_counted env0 (VStr "A1") (VInt 1) (VInt 2) world_answered
     = (Ok (None, 0),
        mk_World (db_calls world_answered) (db_results world_answered) (sent world_answered)
                 (logged world_answered ++ [(WARNING, "no call result was recieved back")])
                 (clock_reads world_answered) (random_draws world_answered))
  /\ fst (CallHandler_await_response env0 (VStr "A1") (VInt 1) (VInt 2) world_answered)
     = Ok None.
Proof.
  split; [reflexivity|].
  refine (await_shorter_than_interval env0 (VStr "A1") (VInt 1) (VInt 2) _ 0 world_answered
            eq_refl eq_refl _).
  lia.
Defined.

(** X19.  An interval of zero makes [__await_response] raise
    [ZeroDivisionError] before it looks anything up, whatever number the
    timeout is. *)
Theorem await_zero_interval (env : Env) (message_id await_period await_interval : value)
  (f : spec_float) (w : World) :
  float_operand await_period = Ok f ->
  zero_number await_interval = true ->
  await_response_counted env message_id await_period await_interval w
  = (Raise ZeroDivisionError, w)
  /\ CallHandler_await_response env message_id await_period await_interval w
     = (Raise ZeroDivisionError, w).
Proof.
  intros HT HI.
  assert (Hdiv : truediv await_period await_interval = Raise ZeroDivisionError).
  { unfold truediv.
    destruct (int_operand await_interval) as [y|] eqn:Ey.
    - assert (Hy : y = 0%Z).
      { destruct await_interval as [|u|z|g|s|l|d|c m x|t|y0 m d|c d];
          cbn in Ey, HI; try discriminate; injection Ey as <-;
          apply Z.eqb_eq; exact HI. }
      subst y.
      assert (Hz : float_operand await_interval = Ok (S754_zero false)).
      { destruct await_interval as [|u|z|g|s|l|d|c m x|t|y0 m d|c d];
          cbn in Ey; try discriminate; injection Ey as Ey.
        - destruct u; [discriminate | reflexivity].
        - subst z. reflexivity. }
      destruct (int_operand await_period) as [x|]; [reflexivity|].
      rewrite HT, Hz. reflexivity.
    - destruct await_interval as [|u|z|g|s|l|d|c m x|t|y0 m d|c d];
        cbn in Ey, HI; try discriminate.
      destruct (int_operand await_period) as [x|]; rewrite HT; cbn [rbind float_operand];
        rewrite HI; reflexivity. }
  assert (Hc : await_response_counted env message_id await_period await_interval w
               = (Raise ZeroDivisionError, w)).
  { unfold await_response_counted, bind, lift. rewrite Hdiv. reflexivity. }
  split; [exact Hc|].
  unfold CallHandler_await_response, bind. rewrite Hc. reflexivity.
Qed.

(** Ten seconds in steps of zero seconds. *)
Lemma await_zero_interval_witness :
  await_response_counted env0 (VStr "A1") (VInt 10) (VFloat (S754_zero false)) world_answered
  = (Raise ZeroDivisionError, world_answered)
  /\ CallHandler_await_response env0 (VStr "A1") (VInt 10) (VFloat (S754_zero false))
       world_answered
     = (Raise ZeroDivisionError, world_answered).
Proof.
  exact (await_zero_interval env0 (VStr "A1") (VInt 10) (VFloat (S754_zero false))
           (float_of_Z 10) world_answered eq_refl eq_refl).
Defined.

(** ** Message ids are the only key of the lookup *)

Lemma column_is_own (env : Env) (m : value) :
  is_None m = false -> column_is env (py_str env m) m = true.
Proof.
  intros H. unfold column_is, char_field. rewrite H. apply String.eqb_refl.
Qed.

Lemma results_of_app (env : Env) (m : value) (w w' : World) (o : CallResultObj) :
  db_results w' = db_results w ++ [o] ->
  results_of env m w = [] ->
  column_is env (r_message_id o) m = true ->
  results_of env m w' = [o].
Proof.
  unfold results_of. intros -> Hnone Ho. rewrite filter_app, Hnone.
  cbn [filter app]. rewrite Ho. reflexivity.
Qed.

(** X20.  The lookup of [__await_response] does not tell the results that
    chargers sent from the responses that the server made: after an
    inbound Call of message id [m] has been answered, a caller awaiting
    the answer to an outbound call of the same id is handed the server's
    own response to the inbound Call. *)
Theorem own_response_satisfies_await (env : Env) (charger_id : string) (m a p : value)
  (action : OCPPCommands) (f : function)
  (await_period await_interval : value) (q : spec_float) (n : Z) (w : World) :
  db_integrity w ->
  OCPPCommands_getitem a = Ok action ->
  Callbacks_getattr env action = Ok f ->
  json_serializable m = true ->
  is_None m = false ->
  is_None p = false ->
  results_of env m w = [] ->
  truediv await_period await_interval = Ok q ->
  int_of_float q = Ok n ->
  (0 < n)%Z ->
  exists (d : dict) (w' : World),
    OcppConsumer_receive env charger_id (VList [VInt 2; m; a; p]) w = (Ok tt, w')
    /\ sent w' = sent w ++ [(("ocpp_" ++ charger_id)%string, VList [VInt 3; m; VDict d])]
    /\ CallHandler_await_response env m await_period await_interval w'
       = (Ok (Some (3%Z, py_str env m, py_str env (VDict d))), w').
Proof.
  intros Hw Ha Hf Hm Hnm Hnp Hnone Hdiv Hint Hn.
  destruct (receive_call_records env charger_id m a p action f w Hw Ha Hf Hm Hnm Hnp)
    as (d & k & Hr).
  exists d. eexists. split; [exact Hr|]. split; [reflexivity|].
  apply (await_first_lookup env m await_period await_interval q n
           (recorded_result env charger_id m (VDict d)
              (next_pk c_pk (db_calls w)) (next_pk r_pk (db_results w))) _ Hdiv Hint Hn).
  apply results_of_app with (w := w); [reflexivity | exact Hnone|].
  cbn [recorded_result r_message_id]. apply column_is_own. exact Hnm.
Qed.

(** The server awaits the answer to its call ["A1"]; a [Heartbeat] of the
    same id arrives, and the caller is given the response to the
    [Heartbeat]. *)
Lemma own_response_satisfies_await_witness :
  exists (d : dict) (w' : World),
    OcppConsumer_receive env0 "CP2" (VList [VInt 2; VStr "A1"; VStr "Heartbeat"; VDict []])
      world_two_calls = (Ok tt, w')
    /\ sent w' = sent world_two_calls ++ [("ocpp_CP2", VList [VInt 3; VStr "A1"; VDict d])]
    /\ CallHandler_await_response env0 (VStr "A1") (VInt 10) (VFloat float_0_2) w'
       = (Ok (Some (3%Z, "A1", str_of_value (VDict d))), w').
Proof.
  refine (own_response_satisfies_await env0 "CP2" (VStr "A1") (VStr "Heartbeat") (VDict [])
            Heartbeat (call_result_message_decorator (Heartbeat_fn env0))
            (VInt 10) (VFloat float_0_2) (float_div (float_of_Z 10) float_0_2) 50
            world_two_calls _ eq_refl eq_refl eq_refl eq_refl eq_refl eq_refl eq_refl eq_refl
            eq_refl).
  unfold world_two_calls.
  apply save_call_keeps_integrity, save_call_keeps_integrity, start_integrity; reflexivity.
Defined.

(** ** An outbound call, its result and the awaiting caller *)

Lemma save_call_steps (env : Env) (message_type : OCPPMessageType) (m : value)
  (action : OCPPCommands) (p : value) (charger_id : string) (w : World) :
  is_None m = false ->
  is_None p = false ->
  CallHandler_save_call env message_type m action p charger_id w
  = (Ok (mk_Call (Some (next_pk c_pk (db_calls w))) (OCPPMessageType_value message_type)
                 (py_str env m) (py_str env (VInt (OCPPCommands_value action)))
                 (py_str env p) charger_id "S2C" None),
     mk_World (db_calls w
                 ++ [mk_Call (Some (next_pk c_pk (db_calls w)))
                             (OCPPMessageType_value message_type)
                             (py_str env m) (py_str env (VInt (OCPPCommands_value action)))
                             (py_str env p) charger_id "S2C" None])
              (db_results w) (sent w) (logged w) (S (clock_reads w)) (random_draws w)).
Proof.
  intros Hm Hp. unfold CallHandler_save_call, bind, utcnow, Call_new, char_field.
  rewrite Hm, Hp. cbn [integer_field int_operand rbind not_null is_None save_instance].
  rewrite Call_save_insert; reflexivity.
Qed.

(** The CallResult branch of [receive] on the first stored call of the
    message id, when that call has no result yet. *)
Lemma receive_result_links (env : Env) (charger_id : string) (m payload : value)
  (c : CallObj) (others : list CallObj) (i : nat) (w : World) :
  db_consistent w ->
  filter (fun x => column_is env (c_message_id x) m) (db_calls w) = c :: others ->
  is_None payload = false ->
  c_pk c = Some i ->
  c_call_result_obj c = None ->
  (forall x, In x (db_results w) -> r_call_obj x <> Some i) ->
  exists w' : World,
    OcppConsumer_receive env charger_id (VList [VInt 3; m; payload]) w = (Ok tt, w')
    /\ db_calls w'
       = map (fun x => if has_pk c_pk i x
                       then c_set_call_result_obj (Some (next_pk r_pk (db_results w))) c
                       else x) (db_calls w)
    /\ db_results w'
       = db_results w
           ++ [mk_CallResult (Some (next_pk r_pk (db_results w))) 3 (py_str env m)
                             (py_str env payload) charger_id "C2S" (Some i)]
    /\ sent w' = sent w.
Proof.
  intros [Hkeys Hlinks] Hf Hpay Hpk Hpend Hnores.
  assert (Hin : In c (db_calls w) /\ column_is env (c_message_id c) m = true).
  { assert (H : In c (filter (fun x => column_is env (c_message_id x) m) (db_calls w)))
      by (rewrite Hf; left; reflexivity).
    apply filter_In in H. exact H. }
  destruct Hin as [Hin Hcol].
  assert (Huniq : forall x, In x (db_calls w) -> c_pk x = Some i -> x = c).
  { intros x Hx Hxi. apply Hkeys; [exact Hx | exact Hin | congruence]. }
  assert (Hfresh : forall x, In x (db_calls w) ->
                             c_call_result_obj x <> Some (next_pk r_pk (db_results w))).
  { intros x Hx E. destruct (Hlinks x _ Hx E) as (r & Hr & Hrk).
    pose proof (next_pk_fresh r_pk (db_results w) r Hr) as Hn.
    unfold has_pk in Hn. apply opt_nat_eqb_neq in Hn. contradiction. }
  assert (Hmid : char_field env m = Some (py_str env m)).
  { unfold column_is in Hcol. unfold char_field in *.
    destruct (is_None m); [discriminate | reflexivity]. }
  assert (Hp : char_field env payload = Some (py_str env payload)).
  { unfold char_field. rewrite Hpay. reflexivity. }
  eexists. split.
  { unfold OcppConsumer_receive, OcppConsumer_receive_of, receive_call_result.
    cbn -[filter save_and_link_call_and_result column_is CallResult_new].
    unfold Call_objects_filter, bind.
    cbn -[filter save_and_link_call_and_result column_is CallResult_new]. rewrite Hf.
    cbn -[save_and_link_call_and_result char_field].
    rewrite Hmid, Hp. cbn -[save_and_link_call_and_result].
    apply (save_and_link_new_result c _ i); cbn; try assumption; reflexivity. }
  cbn [db_calls db_results sent]. unfold r_set_pk.
  cbn [r_pk r_message_type_id r_message_id r_payload r_charger_id r_direction r_call_obj
       OCPPMessageType_value].
  rewrite Hpk. split; [reflexivity|]. split; reflexivity.
Qed.

(** X21.  The exchange behind an outbound call, at the level of the
    tables: once [__save_call] has stored an outbound call under a
    message id that no stored row carries, the CallResult frame of that id, from whichever
    charger, is stored and linked to the call, and [__await_response]
    then returns [(3, message_id, payload)] of that frame at its first
    lookup.  The stored call holds the number of the action, not its
    name. *)
Theorem outbound_call_round_trip (env : Env) (charger_id sender : string)
  (message_type : OCPPMessageType) (m : value) (action : OCPPCommands) (p payload : value)
  (await_period await_interval : value) (q : spec_float) (n : Z) (w : World) :
  db_integrity w ->
  (forall c, In c (db_calls w) -> column_is env (c_message_id c) m = false) ->
  results_of env m w = [] ->
  is_None m = false ->
  is_None p = false ->
  is_None payload = false ->
  truediv await_period await_interval = Ok q ->
  int_of_float q = Ok n ->
  (0 < n)%Z ->
  exists (c : CallObj) (w1 w2 : World),
    CallHandler_save_call env message_type m action p charger_id w = (Ok c, w1)
    /\ c = mk_Call (Some (next_pk c_pk (db_calls w))) (OCPPMessageType_value message_type)
                   (py_str env m) (py_str env (VInt (OCPPCommands_value action)))
                   (py_str env p) charger_id "S2C" None
    /\ OcppConsumer_receive env sender (VList [VInt 3; m; payload]) w1 = (Ok tt, w2)
    /\ db_calls w2
       = db_calls w ++ [c_set_call_result_obj (Some (next_pk r_pk (db_results w))) c]
    /\ db_results w2
       = db_results w
           ++ [mk_CallResult (Some (next_pk r_pk (db_results w))) 3 (py_str env m)
                             (py_str env payload) sender "C2S" (c_pk c)]
    /\ CallHandler_await_response env m await_period await_interval w2
       = (Ok (Some (3%Z, py_str env m, py_str env payload)), w2).
Proof.
  intros Hw Hnocall Hnores Hm Hp Hpay Hdiv Hint Hn.
  pose proof (save_call_steps env message_type m action p charger_id w Hm Hp) as Hsave.
  set (k := next_pk c_pk (db_calls w)) in *.
  set (c := mk_Call (Some k) (OCPPMessageType_value message_type) (py_str env m)
                    (py_str env (VInt (OCPPCommands_value action))) (py_str env p)
                    charger_id "S2C" None) in *.
  set (w1 := mk_World (db_calls w ++ [c]) (db_results w) (sent w) (logged w)
                      (S (clock_reads w)) (random_draws w)) in *.
  assert (Hw1 : db_integrity w1).
  { pose proof (save_call_keeps_integrity env message_type m action p charger_id w Hw) as H.
    rewrite Hsave in H. exact H. }
  destruct (fresh_keys_unused w Hw) as [_ Hnoref].
  assert (Hfilter : filter (fun x => column_is env (c_message_id x) m) (db_calls w1) = [c]).
  { cbn [w1 db_calls]. rewrite filter_app, (filter_none _ _ Hnocall).
    cbn [filter app c c_message_id]. rewrite (column_is_own env m Hm). reflexivity. }
  destruct (receive_result_links env sender m payload c [] k w1 (proj1 Hw1) Hfilter Hpay
              eq_refl eq_refl Hnoref) as (w2 & Hrecv & Hcalls & Hres & _).
  cbn [w1 db_calls db_results] in Hcalls, Hres.
  exists c, w1, w2. split; [exact Hsave|]. split; [reflexivity|].
  split; [exact Hrecv|]. split; [|split; [exact Hres|]].
  - rewrite Hcalls, map_app.
    rewrite map_replace_none by (intros x Hx; apply next_pk_fresh; exact Hx).
    cbn [map]. unfold has_pk. cbn [c c_pk opt_nat_eqb]. rewrite Nat.eqb_refl. reflexivity.
  - apply (await_first_lookup env m await_period await_interval q n
             (mk_CallResult (Some (next_pk r_pk (db_results w))) 3 (py_str env m)
                            (py_str env payload) sender "C2S" (Some k)) w2 Hdiv Hint Hn).
    apply (results_of_app env m w w2 _ Hres Hnores).
    cbn [r_message_id]. apply column_is_own. exact Hm.
Qed.

(** A remote start of message id ["X"] is stored for charger ["CP1"],
    the charger accepts it, and the awaiting caller is given the
    result. *)
Lemma outbound_call_round_trip_witness :
  exists (c : CallObj) (w1 w2 : World),
    CallHandler_save_call env0 CALL (VStr "X") RemoteStartTransaction remote_start_payload
      "CP1" empty_world = (Ok c, w1)
    /\ c = mk_Call (Some 1) 2 "X" "17" "{'idTag': {'IdToken': 'abc'}, 'connectorId': 1}"
                   "CP1" "S2C" None
    /\ OcppConsumer_receive env0 "CP1"
         (VList [VInt 3; VStr "X"; VDict [("status", VStr "Accepted")]]) w1 = (Ok tt, w2)
    /\ db_calls w2 = [] ++ [c_set_call_result_obj (Some 1) c]
    /\ db_results w2
       = [] ++ [mk_CallResult (Some 1) 3 "X" "{'status': 'Accepted'}" "CP1" "C2S" (c_pk c)]
    /\ CallHandler_await_response env0 (VStr "X") (VInt 10) (VFloat float_0_2) w2
       = (Ok (Some (3%Z, "X", "{'status': 'Accepted'}")), w2).
Proof.
  refine (outbound_call_round_trip env0 "CP1" "CP1" CALL (VStr "X") RemoteStartTransaction
            remote_start_payload (VDict [("status", VStr "Accepted")])
            (VInt 10) (VFloat float_0_2) (float_div (float_of_Z 10) float_0_2) 50
            empty_world _ _ eq_refl eq_refl eq_refl eq_refl eq_refl eq_refl eq_refl).
  - apply start_integrity; reflexivity.
  - intros c [].
Defined.

(** ** What [receive] sends *)

Lemma receive_call_result_sent (env : Env) (charger_id : string) (t : OCPPMessageType)
  (message : value) (w : World) :
  sent (snd (receive_call_result env charger_id t message w)) = sent w.
Proof.
  unfold receive_call_result, bind, logger, lift. cbn [snd fst].
  destruct (slice_from_1 message) as [rest|e]; [|reflexivity].
  destruct (unpack2 rest) as [[message_id payload]|e]; [|reflexivity].
  unfold Call_objects_filter. cbn [db_calls].
  destruct (filter (fun c => column_is env (c_message_id c) message_id) (db_calls w))
    as [|c others]; [reflexivity|].
  unfold utcnow. rewrite save_and_link_sent. reflexivity.
Qed.

Lemma receive_call_sent (env : Env) (charger_id : string) (t : OCPPMessageType)
  (message : value) (w : World) :
  sent (snd (receive_call env charger_id t message w)) = sent w
  \/ exists (m a p : value) (d : dict),
       subscript message 1 = Ok m /\ subscript message 2 = Ok a
       /\ subscript message 3 = Ok p
       /\ sent (snd (receive_call env charger_id t message w))
          = sent w ++ [(("ocpp_" ++ charger_id)%string, VList [VInt 3; m; VDict d])].
Proof.
  unfold receive_call, receive_call_of, bind, logger, lift, try_except_else. cbn [snd fst].
  destruct (subscript message 1) as [m|e]; [|left; reflexivity].
  destruct (subscript message 2) as [a|e]; [|left; reflexivity].
  destruct (subscript message 3) as [p|e]; [|left; reflexivity].
  destruct (OCPPCommands_getitem a) as [action|e]; [|left; reflexivity].
  destruct (Callbacks_getattr env action) as [f|e] eqn:Ef.
  - match goal with
    | |- context [Callbacks_call env action m p ?w0] =>
        destruct (handler_response env action f m p w0 Ef) as (d & n & Hc & Hd & _);
        rewrite Hc
    end.
    unfold ret, group_send, bind, lift, json_dumps.
    cbn [snd fst db_calls db_results sent logged clock_reads random_draws].
    destruct (json_serializable (VList [VInt 3; m; VDict d])); [|left; reflexivity].
    right. exists m, a, p, d. repeat (split; [reflexivity|]).
    unfold utcnow.
    cbn -[save_and_link_call_and_result Call_new CallResult_new String.append].
    rewrite save_and_link_sent. reflexivity.
  - match goal with
    | |- context [Callbacks_call env action m p ?w0] =>
        rewrite (handler_missing env action e m p w0 Ef)
    end.
    left. reflexivity.
Qed.

(** X22.  For every inbound frame, well formed or not, [receive] sends at
    most one frame, and only in answer to a Call: a CallResult frame of
    the message id of the Call, to the group of the charger that sent it.
    It never sends a Call or a CallError, nothing to another charger, and
    nothing in answer to a CallResult or a CallError. *)
Theorem receive_sends_at_most_one_result (env : Env) (charger_id : string)
  (message : value) (w : World) :
  sent (snd (OcppConsumer_receive env charger_id message w)) = sent w
  \/ exists (t m a p : value) (rest : list value) (d : dict),
       message = VList (t :: m :: a :: p :: rest)
       /\ eq_int t 2 = true
       /\ sent (snd (OcppConsumer_receive env charger_id message w))
          = sent w ++ [(("ocpp_" ++ charger_id)%string, VList [VInt 3; m; VDict d])].
Proof.
  unfold_receive; unfold bind, logger, try_except, try_except_else, lift, ret.
  cbn [snd fst].
  destruct (subscript message 0) as [v|e] eqn:E0; [|left; reflexivity].
  destruct (OCPPMessageType_call v) as [ty|e] eqn:Et; [|left; reflexivity].
  cbn [read_local ret].
  destruct ty; cbn [OCPPMessageType_eqb].
  - match goal with
    | |- context [receive_call env charger_id CALL message ?w0] =>
        destruct (receive_call_sent env charger_id CALL message w0)
          as [Hs | (m & a & p & d & H1 & H2 & H3 & Hs)]
    end.
    + left. exact Hs.
    + right.
      destruct message as [|b|z|g|s|l|d0|c m0 x|t0|y m0 d0|c d0]; try discriminate.
      * cbn in E0, H1, H2, H3. exfalso.
        destruct (String.get 0 s); [|discriminate]. injection E0 as <-.
        cbn in Et. discriminate.
      * destruct l as [|t [|m' [|a' [|p' rest]]]]; try discriminate.
        cbn in E0, H1, H2, H3. injection E0 as ->. injection H1 as ->.
        injection H2 as ->. injection H3 as ->.
        exists v, m, a, p, rest, d. split; [reflexivity|]. split; [|exact Hs].
        unfold OCPPMessageType_call in Et.
        destruct (eq_int v 2); [reflexivity|].
        destruct (eq_int v 3); [discriminate|].
        destruct (eq_int v 4); discriminate.
  - left. rewrite receive_call_result_sent. reflexivity.
  - left. reflexivity.
Qed.

(** ** Frames on which [receive] does not complete *)

(** X23.  Malformed frames make [receive] raise: an unknown message type
    is logged and then fails on the unassigned [message_type_id]
    ([UnboundLocalError]), an empty list and a Call frame of fewer than
    four elements fail on a missing element ([IndexError]), a CallResult
    frame that does not have exactly three elements fails on the
    unpacking ([ValueError]), and a JSON number, boolean or [null] is not
    subscriptable ([TypeError]). *)
Theorem malformed_frames_raise (env : Env) (charger_id : string) (w : World) :
  (forall (t : value) (rest : list value) (e : exn),
      OCPPMessageType_call t = Raise e ->
      fst (OcppConsumer_receive env charger_id (VList (t :: rest)) w)
      = Raise UnboundLocalError)
  /\ fst (OcppConsumer_receive env charger_id (VList []) w) = Raise IndexError
  /\ (forall (t : value) (rest : list value),
         OCPPMessageType_call t = Ok CALL ->
         List.length rest < 3 ->
         fst (OcppConsumer_receive env charger_id (VList (t :: rest)) w) = Raise IndexError)
  /\ (forall (t : value) (rest : list value),
         OCPPMessageType_call t = Ok CALL_RESULT ->
         List.length rest <> 2 ->
         fst (OcppConsumer_receive env charger_id (VList (t :: rest)) w) = Raise ValueError)
  /\ (forall z, fst (OcppConsumer_receive env charger_id (VInt z) w) = Raise TypeError)
  /\ (forall g, fst (OcppConsumer_receive env charger_id (VFloat g) w) = Raise TypeError)
  /\ (forall b, fst (OcppConsumer_receive env charger_id (VBool b) w) = Raise TypeError)
  /\ fst (OcppConsumer_receive env charger_id VNone w) = Raise TypeError.
Proof.
  split; [|split; [|split; [|split; [|repeat split]]]].
  - intros t rest e H.
    rewrite (unknown_message_type_raises env charger_id t rest e w H). reflexivity.
  - reflexivity.
  - intros t rest Ht Hlen.
    unfold_receive.
    cbn -[OCPPMessageType_call receive_call receive_call_result].
    unfold try_except, try_except_else, bind, lift, ret. rewrite Ht.
    destruct rest as [|m [|a [|p rest]]]; [reflexivity | reflexivity | reflexivity|].
    cbn in Hlen. lia.
  - intros t rest Ht Hlen.
    unfold_receive.
    cbn -[OCPPMessageType_call receive_call receive_call_result].
    unfold try_except, try_except_else, bind, lift, ret. rewrite Ht.
    destruct rest as [|m [|p [|x rest]]]; [reflexivity | reflexivity | | reflexivity].
    exfalso. apply Hlen. reflexivity.
Qed.

(** ** Outbound calls cannot be issued *)

(** X24.  Whatever the request is, an instance of a type of
    [ocpp_lib.types], a string or anything else, and whatever the other
    arguments are, [issue_command] raises [OCPPInvalidType] in its guard
    and leaves the world as it found it: no message id is drawn, no call
    is stored, no frame is sent and nothing is awaited. *)
Theorem issue_command_never_issues (env : Env) (charger_id : string) (request : value)
  (shouldAwait : bool) (await_period await_interval : value) (w : World) :
  CallHandler_issue_command env charger_id request shouldAwait await_period await_interval w
  = (Raise OCPPInvalidType, w)
  /\ (forall name, class_split_last request = Ok name ->
                   ocpp_types_getattr name = Raise AttributeError).
Proof.
  split; [apply issue_command_always_raises|].
  destruct request; try discriminate. intros name H. injection H as <-. reflexivity.
Qed.

(** ** Calls and results refer to each other *)

Lemma db_step_same_start (w0 w w' : World) :
  db_calls w0 = db_calls w -> db_results w0 = db_results w ->
  db_step w0 w' -> db_step w w'.
Proof.
  intros Hc Hr [H1 H2 | c E1 E2 H1 H2 | c r E1 E2 E3 E4 H1 H2 | c i r Hin E1 E2 E3 E4 H1 H2];
    rewrite ?Hc, ?Hr in *.
  - apply step_same; assumption.
  - apply (step_new_call w w' c); assumption.
  - apply (step_new_pair w w' c r); assumption.
  - apply (step_new_result w w' c i r); assumption.
Qed.

Lemma fresh_result_key (w : World) (r : CallResultObj) :
  In r (db_results w) -> r_pk r <> Some (next_pk r_pk (db_results w)).
Proof.
  intros Hr. pose proof (next_pk_fresh r_pk (db_results w) r Hr) as Hn.
  unfold has_pk in Hn. apply opt_nat_eqb_neq in Hn. exact Hn.
Qed.

Lemma fresh_call_key (w : World) (c : CallObj) :
  In c (db_calls w) -> c_pk c <> Some (next_pk c_pk (db_calls w)).
Proof.
  intros Hc. pose proof (next_pk_fresh c_pk (db_calls w) c Hc) as Hn.
  unfold has_pk in Hn. apply opt_nat_eqb_neq in Hn. exact Hn.
Qed.

(** Appending a result under a fresh key keeps the keys of the results
    unique. *)
Lemma fresh_result_unique (w : World) (o : CallResultObj) :
  (forall r s, In r (db_results w) -> In s (db_results w) -> r_pk r = r_pk s -> r = s) ->
  r_pk o = Some (next_pk r_pk (db_results w)) ->
  forall r s, In r (db_results w ++ [o]) -> In s (db_results w ++ [o]) ->
              r_pk r = r_pk s -> r = s.
Proof.
  intros Hk Ho r s Hr Hs E.
  apply in_app_or in Hr. apply in_app_or in Hs.
  destruct Hr as [Hr|[<-|[]]], Hs as [Hs|[<-|[]]]; try reflexivity.
  - apply Hk; assumption.
  - exfalso. apply (fresh_result_key w r Hr). congruence.
  - exfalso. apply (fresh_result_key w s Hs). congruence.
Qed.

(** Each kind of step keeps the mutual references. *)
Lemma step_keeps_linked (w w' : World) :
  db_integrity w -> db_linked w -> db_step w w' -> db_linked w'.
Proof.
  intros ((Hkeys & Hlinks) & Hcpk & Hrpk & Hback) (Hrkeys & Hs1 & Hs2)
    [H1 H2 | c E1 E2 H1 H2 | c r E1 E2 E3 E4 H1 H2 | c i r Hin E1 E2 E3 E4 H1 H2];
    unfold db_linked; rewrite H1, H2.
  - repeat split; assumption.
  - split; [exact Hrkeys|]. split.
    + intros x j Hx Hj. apply in_app_or in Hx. destruct Hx as [Hx|[<-|[]]].
      * apply Hs1; assumption.
      * cbn in Hj. congruence.
    + intros r i Hr Hi. destruct (Hs2 r i Hr Hi) as (x & Hx & Hxi & Hxl).
      exists x. split; [apply in_or_app; left; exact Hx | split; assumption].
  - split; [|split].
    + apply fresh_result_unique; [exact Hrkeys | reflexivity].
    + intros x j Hx Hj. apply in_app_or in Hx. destruct Hx as [Hx|[<-|[]]].
      * destruct (Hs1 x j Hx Hj) as (r0 & Hr0 & Hpk0 & Hl0).
        exists r0. split; [apply in_or_app; left; exact Hr0 | split; assumption].
      * cbn in Hj. injection Hj as <-.
        eexists. split; [apply in_or_app; right; left; reflexivity|].
        split; reflexivity.
    + intros r0 i Hr0 Hi. apply in_app_or in Hr0. destruct Hr0 as [Hr0|[<-|[]]].
      * destruct (Hs2 r0 i Hr0 Hi) as (x & Hx & Hxi & Hxl).
        exists x. split; [apply in_or_app; left; exact Hx | split; assumption].
      * cbn in Hi. injection Hi as <-.
        eexists. split; [apply in_or_app; right; left; reflexivity|].
        split; reflexivity.
  - assert (Huniq : forall x, In x (db_calls w) -> has_pk c_pk i x = true -> x = c).
    { intros x Hx E. apply Hkeys; [exact Hx | exact Hin|].
      unfold has_pk in E. apply opt_nat_eqb_eq in E. congruence. }
    split; [|split].
    + apply fresh_result_unique; [exact Hrkeys | reflexivity].
    + intros x' j Hx' Hj. apply in_map_iff in Hx'. destruct Hx' as (x & <- & Hx).
      destruct (has_pk c_pk i x) eqn:E.
      * cbn in Hj. injection Hj as <-.
        eexists. split; [apply in_or_app; right; left; reflexivity|].
        split; [reflexivity|]. cbn. congruence.
      * destruct (Hs1 x j Hx Hj) as (r0 & Hr0 & Hpk0 & Hl0).
        exists r0. split; [apply in_or_app; left; exact Hr0 | split; assumption].
    + intros r0 q Hr0 Hq. apply in_app_or in Hr0. destruct Hr0 as [Hr0|[<-|[]]].
      * destruct (Hs2 r0 q Hr0 Hq) as (x & Hx & Hxq & Hxl).
        exists x. split; [|split; assumption].
        apply in_map_iff. exists x. split; [|exact Hx].
        destruct (has_pk c_pk i x) eqn:E; [|reflexivity].
        exfalso. rewrite (Huniq x Hx E) in Hxl. rewrite E2 in Hxl.
        apply (Hrpk r0 Hr0). congruence.
      * cbn in Hq. rewrite E4 in Hq. injection Hq as <-.
        eexists. split.
        -- apply in_map_iff. exists c. split; [|exact Hin].
           unfold has_pk. rewrite E1. cbn. rewrite Nat.eqb_refl. reflexivity.
        -- split; [exact E1 | reflexivity].
Qed.

(** Saving and linking two new instances, as the Call branch does. *)
Lemma save_and_link_new_step (oc : Result CallObj) (orr : Result CallResultObj) (w : World) :
  db_integrity w ->
  (forall c, oc = Ok c -> c_pk c = None /\ c_call_result_obj c = None) ->
  (forall r, orr = Ok r -> r_pk r = None /\ r_call_obj r = None) ->
  db_step w (snd (save_and_link_call_and_result oc orr w)).
Proof.
  intros Hw Hoc Horr.
  destruct oc as [c|e]; [|apply step_same; reflexivity].
  destruct (Hoc c eq_refl) as [Hcpk Hclink].
  destruct orr as [r|e].
  - destruct (Horr r eq_refl) as [Hrpk Hrlink].
    destruct (fresh_keys_unused w Hw) as [Hnocall Hnores].
    rewrite (save_and_link_new_pair c r w Hcpk Hclink Hrpk Hrlink Hnocall Hnores).
    apply (step_new_pair _ _ c r); try assumption; reflexivity.
  - unfold save_and_link_call_and_result, save_instance.
    erewrite bind_ok.
    2:{ apply Call_save_insert; [exact Hcpk|].
        unfold link_taken. rewrite Hclink. reflexivity. }
    apply (step_new_call _ _ c); try assumption; reflexivity.
Qed.

(** Saving a stored call again changes nothing. *)
Lemma Call_save_again (c : CallObj) (w : World) :
  db_integrity w -> In c (db_calls w) ->
  Call_save c w = (Raise IntegrityError, w)
  \/ Call_save c w
     = (Ok c, mk_World (db_calls w) (db_results w) (sent w) (logged w) (clock_reads w)
                       (random_draws w)).
Proof.
  intros ((Hkeys & _) & Hcpk & _) Hin. unfold Call_save, table_save.
  destruct (link_taken c_pk c_call_result_obj (db_calls w) c); [left; reflexivity|].
  right. destruct (c_pk c) as [i|] eqn:Epk; [|exfalso; exact (Hcpk c Hin Epk)].
  assert (Hex : existsb (has_pk c_pk i) (db_calls w) = true).
  { apply existsb_exists. exists c. split; [exact Hin|].
    unfold has_pk. apply opt_nat_eqb_eq. exact Epk. }
  rewrite Hex, map_replace_same; [reflexivity|].
  intros y Hy E. apply Hkeys; [exact Hy | exact Hin|].
  unfold has_pk in E. apply opt_nat_eqb_eq in E. congruence.
Qed.

(** Saving and linking a stored call and a new result that names it, as the
    CallResult branch does. *)
Lemma save_and_link_result_step (c : CallObj) (orr : Result CallResultObj) (w : World) :
  db_integrity w -> db_linked w ->
  In c (db_calls w) ->
  (forall r, orr = Ok r -> r_pk r = None /\ r_call_obj r = c_pk c) ->
  db_step w (snd (save_and_link_call_and_result (Ok c) orr w)).
Proof.
  intros Hw Hl Hin Horr.
  pose proof Hw as ((Hkeys & Hlinks) & Hcpk & Hrpk & Hback).
  pose proof Hl as (Hrkeys & Hs1 & Hs2).
  destruct (c_pk c) as [i|] eqn:Epk; [|exfalso; exact (Hcpk c Hin Epk)].
  destruct orr as [r|e].
  - destruct (Horr r eq_refl) as [Hrnew Hrlink].
    destruct (c_call_result_obj c) as [j0|] eqn:Elink.
    + (* the call has a result already: the new result is refused *)
      unfold save_and_link_call_and_result, save_instance, bind.
      destruct (Call_save_again c w Hw Hin) as [-> | ->];
        [apply step_same; reflexivity|].
      destruct (Hs1 c j0 Hin Elink) as (r0 & Hr0 & Hpk0 & Hl0).
      unfold CallResult_save, table_save.
      cbn [db_calls db_results sent logged clock_reads random_draws].
      assert (Htaken : link_taken r_pk r_call_obj (db_results w) r = true).
      { unfold link_taken. rewrite Hrlink. apply existsb_exists. exists r0.
        split; [exact Hr0|]. apply andb_true_intro. split.
        - apply opt_nat_eqb_eq. congruence.
        - rewrite Hpk0, Hrnew. reflexivity. }
      rewrite Htaken. apply step_same; reflexivity.
    + (* the call has no result: the new result is linked to it *)
      destruct (fresh_keys_unused w Hw) as [Hnocall _].
      rewrite (save_and_link_new_result c r i w Hin Epk).
      * apply (step_new_result _ _ c i r); try assumption; reflexivity.
      * intros x Hx Hxi. apply Hkeys; [exact Hx | exact Hin | congruence].
      * exact Elink.
      * exact Hrnew.
      * exact Hrlink.
      * intros x Hx E. destruct (Hs2 x i Hx E) as (y & Hy & Hyi & Hyl).
        assert (y = c) by (apply Hkeys; [exact Hy | exact Hin | congruence]). subst y.
        apply (Hrpk x Hx). congruence.
      * exact Hnocall.
  - unfold save_and_link_call_and_result, save_instance, bind.
    destruct (Call_save_again c w Hw Hin) as [-> | ->]; apply step_same; reflexivity.
Qed.

Lemma receive_call_step (env : Env) (charger_id : string) (t : OCPPMessageType)
  (message : value) (w : World) :
  db_integrity w -> db_step w (snd (receive_call env charger_id t message w)).
Proof.
  intros Hw. unfold receive_call, receive_call_of, bind, logger, lift, try_except_else. cbn [snd fst].
  destruct (subscript message 1) as [m|e]; [|apply step_same; reflexivity].
  destruct (subscript message 2) as [a|e]; [|apply step_same; reflexivity].
  destruct (subscript message 3) as [p|e]; [|apply step_same; reflexivity].
  destruct (OCPPCommands_getitem a) as [action|e]; [|apply step_same; reflexivity].
  match goal with
  | |- context [Callbacks_call env action m p ?w0] =>
      pose proof (Callbacks_call_frame env action m p w0) as Hf;
      destruct (Callbacks_call env action m p w0) as [[response|e] w1]
  end; cbn [snd db_calls db_results] in Hf; destruct Hf as (_ & Hdc & Hdr & _).
  2:{ destruct e; cbn [snd]; apply step_same; cbn; assumption. }
  unfold ret, group_send, bind, lift.
  destruct (json_dumps response) as [text|e]; cbn [snd fst].
  2:{ apply step_same; cbn; assumption. }
  unfold utcnow. cbn [snd fst db_calls db_results sent logged clock_reads random_draws].
  destruct (subscript response 0) as [r0|e]; [|apply step_same; cbn; assumption].
  destruct (subscript response 1) as [r1|e]; [|apply step_same; cbn; assumption].
  destruct (subscript response 2) as [r2|e]; [|apply step_same; cbn; assumption].
  cbn [snd fst db_calls db_results sent logged clock_reads random_draws].
  match goal with
  | |- db_step w (snd (save_and_link_call_and_result ?oc ?orr ?w0)) =>
      apply (db_step_same_start w0 w); [exact Hdc | exact Hdr|];
      apply save_and_link_new_step
  end.
  - destruct Hw as [Hc Hk]. split.
    + apply (db_consistent_same_db w); cbn; assumption.
    + apply (db_keyed_same_db w); cbn; assumption.
  - intros c Hc. exact (Call_new_fresh _ _ _ _ _ _ _ _ Hc).
  - intros r Hr. exact (CallResult_new_fresh _ _ _ _ _ _ _ _ Hr).
Qed.

Lemma receive_call_result_step (env : Env) (charger_id : string) (t : OCPPMessageType)
  (message : value) (w : World) :
  db_integrity w -> db_linked w ->
  db_step w (snd (receive_call_result env charger_id t message w)).
Proof.
  intros Hw Hl. unfold receive_call_result, bind, logger, lift. cbn [snd fst].
  destruct (slice_from_1 message) as [rest|e]; [|apply step_same; reflexivity].
  destruct (unpack2 rest) as [[message_id payload]|e]; [|apply step_same; reflexivity].
  unfold Call_objects_filter. cbn [db_calls].
  destruct (filter (fun c => column_is env (c_message_id c) message_id) (db_calls w))
    as [|c others] eqn:E; [apply step_same; reflexivity|].
  unfold utcnow.
  assert (Hin : In c (db_calls w)).
  { assert (H : In c (filter (fun c => column_is env (c_message_id c) message_id)
                             (db_calls w))) by (rewrite E; left; reflexivity).
    apply filter_In in H. apply H. }
  match goal with
  | |- db_step w (snd (save_and_link_call_and_result ?oc ?orr ?w0)) =>
      apply (db_step_same_start w0 w); [reflexivity | reflexivity|];
      apply save_and_link_result_step
  end.
  - destruct Hw as [Hc Hk]. split.
    + apply (db_consistent_same_db w); [reflexivity | reflexivity | exact Hc].
    + apply (db_keyed_same_db w); [reflexivity | reflexivity | exact Hk].
  - destruct Hl as (H1 & H2 & H3). split; [exact H1 | split; [exact H2 | exact H3]].
  - exact Hin.
  - intros r Hr. exact (CallResult_new_fresh _ _ _ _ _ _ _ _ Hr).
Qed.

Lemma receive_step (env : Env) (charger_id : string) (message : value) (w : World) :
  db_integrity w -> db_linked w ->
  db_step w (snd (OcppConsumer_receive env charger_id message w)).
Proof.
  intros Hw Hl.
  unfold_receive; unfold bind, logger, try_except, try_except_else, lift, ret.
  cbn [snd fst].
  destruct (subscript message 0) as [v|e]; [|apply step_same; reflexivity].
  destruct (OCPPMessageType_call v) as [t|e]; [|apply step_same; reflexivity].
  cbn [read_local ret].
  assert (Hw0 : forall l, db_integrity (mk_World (db_calls w) (db_results w) (sent w) l
                                          (clock_reads w) (random_draws w))).
  { intros l. destruct Hw as [Hc Hk]. split.
    - apply (db_consistent_same_db w); [reflexivity | reflexivity | exact Hc].
    - apply (db_keyed_same_db w); [reflexivity | reflexivity | exact Hk]. }
  destruct t; cbn [OCPPMessageType_eqb].
  - match goal with
    | |- db_step w (snd (receive_call _ _ _ _ ?w0)) =>
        apply (db_step_same_start w0 w); [reflexivity | reflexivity|]
    end.
    apply receive_call_step. apply Hw0.
  - match goal with
    | |- db_step w (snd (receive_call_result _ _ _ _ ?w0)) =>
        apply (db_step_same_start w0 w); [reflexivity | reflexivity|]
    end.
    apply receive_call_result_step; [apply Hw0|].
    destruct Hl as (H1 & H2 & H3). split; [exact H1 | split; [exact H2 | exact H3]].
  - apply step_same; reflexivity.
Qed.

Lemma save_call_step (env : Env) (message_type : OCPPMessageType) (message_id : value)
  (action : OCPPCommands) (payload : value) (charger_id : string) (w : World) :
  db_step w (snd (CallHandler_save_call env message_type message_id action payload
                    charger_id w)).
Proof.
  unfold CallHandler_save_call, bind, utcnow. cbn [snd fst].
  destruct (Call_new env _ _ _ _ _ _) as [c|e] eqn:E; cbn [save_instance];
    [|apply step_same; reflexivity].
  destruct (Call_new_fresh _ _ _ _ _ _ _ _ E) as [Hpk Hlink].
  rewrite Call_save_insert; [|exact Hpk | unfold link_taken; rewrite Hlink; reflexivity].
  apply (step_new_call _ _ c); try assumption; reflexivity.
Qed.

Lemma handled_in_turn_sound (env : Env) (w : World) :
  handled_in_turn env w -> db_integrity w /\ db_linked w.
Proof.
  induction 1 as [w Hc Hr | charger_id message w _ [IHi IHl]
                 | message_type message_id action payload charger_id w _ [IHi IHl]].
  - split; [apply start_integrity; assumption|].
    unfold db_linked. rewrite Hc, Hr. repeat split; intros; contradiction.
  - split; [apply receive_keeps_integrity; exact IHi|].
    apply (step_keeps_linked w); [exact IHi | exact IHl|].
    apply receive_step; assumption.
  - split; [apply save_call_keeps_integrity; exact IHi|].
    apply (step_keeps_linked w); [exact IHi | exact IHl|].
    apply save_call_step.
Qed.

(** X25.  In every world that the protocol code reaches from empty
    tables when it handles one frame at a time, each [receive] running to
    its end before the next frame is taken up, calls and results are
    linked in pairs: the result that a stored call refers to refers back
    to that call, the call that a stored result refers to refers back to
    that result, and no two stored results share a key.  Handling one
    more frame leaves the tables as they were, adds one call, adds a call
    with its result, or adds the result of a stored call that had
    none. *)
Theorem handled_in_turn_links_in_pairs (env : Env) (w : World) :
  handled_in_turn env w ->
  (forall x j, In x (db_calls w) -> c_call_result_obj x = Some j ->
               exists r, In r (db_results w) /\ r_pk r = Some j /\ r_call_obj r = c_pk x)
  /\ (forall r i, In r (db_results w) -> r_call_obj r = Some i ->
                  exists x, In x (db_calls w) /\ c_pk x = Some i
                            /\ c_call_result_obj x = r_pk r)
  /\ (forall r s, In r (db_results w) -> In s (db_results w) -> r_pk r = r_pk s -> r = s)
  /\ (forall charger_id message,
         db_step w (snd (OcppConsumer_receive env charger_id message w))).
Proof.
  intros H. destruct (handled_in_turn_sound env w H) as [Hi (Hk & Hs1 & Hs2)].
  split; [exact Hs1|]. split; [exact Hs2|]. split; [exact Hk|].
  intros charger_id message. apply receive_step; [exact Hi|].
  split; [exact Hk | split; [exact Hs1 | exact Hs2]].
Qed.

(** The world in which the call ["A1"] has been answered is reached from
    the empty tables, one step after the other. *)
Lemma handled_in_turn_links_in_pairs_witness :
  (forall x j, In x (db_calls world_answered) -> c_call_result_obj x = Some j ->
               exists r, In r (db_results world_answered) /\ r_pk r = Some j
                         /\ r_call_obj r = c_pk x)
  /\ (forall r i, In r (db_results world_answered) -> r_call_obj r = Some i ->
                  exists x, In x (db_calls world_answered) /\ c_pk x = Some i
                            /\ c_call_result_obj x = r_pk r)
  /\ (forall r s, In r (db_results world_answered) -> In s (db_results world_answered) ->
                  r_pk r = r_pk s -> r = s)
  /\ (forall charger_id message,
         db_step world_answered
           (snd (OcppConsumer_receive env0 charger_id message world_answered))).
Proof.
  apply (handled_in_turn_links_in_pairs env0).
  unfold world_answered, world_two_calls.
  apply in_turn_receive, in_turn_save_call, in_turn_save_call, in_turn_start;
    reflexivity.
Defined.

(** ** Two consumers and one call *)

(** X26.  When two consumers handle a result of the same call and both
    have read the call before either saves, the first save links the call
    and its result, and the second undoes half of it: it writes the call
    back as it was read, without a result, and then fails with
    [IntegrityError] on its own result, which the database refuses.  The
    stored result is left referring to a call that refers to no result,
    in a world that the code reaches.  Handled one after the other, the
    same two frames leave the pair linked. *)
Theorem interleaved_saves_unlink_a_call :
  fst (OcppConsumer_receive_upto_save env0 "CP1" result_frame_A1 world_two_calls)
  = Ok (Some pending_A1)
  /\ fst (OcppConsumer_receive_upto_save env0 "CP1" result_frame_A1
            (snd (OcppConsumer_receive_upto_save env0 "CP1" result_frame_A1
                    world_two_calls)))
     = Ok (Some pending_A1)
  /\ db_calls world_saved_once
     = [c_set_call_result_obj (Some 1) stored_call_A1; stored_call_B2]
  /\ fst (save_and_link_call_and_result (fst pending_A1) (snd pending_A1) world_saved_once)
     = Raise IntegrityError
  /\ reachable env0 world_raced
  /\ db_calls world_raced = [stored_call_A1; stored_call_B2]
  /\ db_results world_raced
     = [mk_CallResult (Some 1) 3 "A1" "{'status': 'Accepted'}" "CP1" "C2S" (Some 1)]
  /\ db_calls (snd (OcppConsumer_receive env0 "CP1" result_frame_A1
                      (snd (OcppConsumer_receive env0 "CP1" result_frame_A1
                              world_two_calls))))
     = [c_set_call_result_obj (Some 1) stored_call_A1; stored_call_B2].
Proof.
  split; [reflexivity|]. split; [reflexivity|]. split; [reflexivity|].
  split; [reflexivity|]. split; [|repeat split; reflexivity].
  assert (H0 : running env0 world_two_calls []).
  { unfold world_two_calls.
    apply running_save_call, running_save_call, running_start; reflexivity. }
  pose proof (running_receive env0 "CP1" result_frame_A1 _ _ H0) as H1.
  pose proof (running_receive env0 "CP1" result_frame_A1 _ _ H1) as H2.
  exists [].
  exact (running_save env0 (fst pending_A1) (snd pending_A1) world_saved_once [] []
           (running_save env0 (fst pending_A1) (snd pending_A1) world_read_twice
              [] [pending_A1] H2)).
Qed.
